(** * personal_rag: the retrieval and metadata-indexing core

    A shallow embedding of [core/image_manager.py],
    [core/document_manager.py], [core/search_engine.py] and of what the
    pages compute from their forms.  Python values are modelled as the
    code handles them:

    - a Python [str] is a list of Unicode code points ([len], slicing,
      [in] and the ordering used by [sort] all work on code points);
    - a Python [dict] is an insertion-ordered association list with unique
      keys;
    - the file system is a finite map from the paths of the regular files
      to their contents; the metadata file is kept apart, as the JSON
      document it holds;
    - [st.error] appends to a message log carried by the state;
    - libraries outside the repository ([str.lower], Pillow, the file
      decoders, the vector index and its query engine) are parameters of
      the managers, and so is the verdict of the operating system on
      writing, removing and copying a file (the text of the exception it
      raises, when it raises one); [hashlib.md5], [os.path] and the value
      conversions of [json] are written out. *)

From Stdlib Require Import List ZArith NArith Lia Bool Ascii String.
From Stdlib Require Import Sorted Permutation DecimalString QArith.
Import ListNotations.

Set Implicit Arguments.
Set Warnings "-register-all".

(** ** Python strings *)

Module PyStr.

Definition char := N.
Definition str := list char.

Definition char_eqb : char -> char -> bool := N.eqb.

Fixpoint eqb (a b : str) : bool :=
  match a, b with
  | [], [] => true
  | x :: a', y :: b' => char_eqb x y && eqb a' b'
  | _, _ => false
  end.

Definition str_eq_dec : forall a b : str, {a = b} + {a <> b} :=
  list_eq_dec N.eq_dec.

(** Source text is UTF-8; a literal is decoded to its code points. *)
Fixpoint utf8_decode (bs : list N) : str :=
  match bs with
  | [] => []
  | b :: r =>
      if (b <? 128)%N then b :: utf8_decode r
      else if (b <? 224)%N then
        match r with
        | c1 :: r1 => ((b - 192) * 64 + (c1 - 128))%N :: utf8_decode r1
        | [] => []
        end
      else if (b <? 240)%N then
        match r with
        | c1 :: c2 :: r2 =>
            ((b - 224) * 4096 + (c1 - 128) * 64 + (c2 - 128))%N
              :: utf8_decode r2
        | _ => []
        end
      else
        match r with
        | c1 :: c2 :: c3 :: r3 =>
            ((b - 240) * 262144 + (c1 - 128) * 4096
             + (c2 - 128) * 64 + (c3 - 128))%N :: utf8_decode r3
        | _ => []
        end
  end.

Definition lit (s : string) : str :=
  utf8_decode (map N_of_ascii (list_ascii_of_string s)).

(** [a < b] and [a <= b] on [str]: lexicographic on code points. *)
Fixpoint compare (a b : str) : comparison :=
  match a, b with
  | [], [] => Eq
  | [], _ :: _ => Lt
  | _ :: _, [] => Gt
  | x :: a', y :: b' =>
      match N.compare x y with
      | Eq => compare a' b'
      | c => c
      end
  end.

Definition ltb (a b : str) : bool :=
  match compare a b with Lt => true | _ => false end.

Definition leb (a b : str) : bool :=
  match compare a b with Gt => false | _ => true end.

(** [s.startswith(p)] *)
Fixpoint startswith (s p : str) : bool :=
  match p, s with
  | [], _ => true
  | _ :: _, [] => false
  | y :: p', x :: s' => char_eqb x y && startswith s' p'
  end.

(** [q in s] *)
Fixpoint contains (s q : str) : bool :=
  startswith s q ||
  match s with
  | [] => false
  | _ :: s' => contains s' q
  end.

(** [sep.join(l)] *)
Fixpoint join (sep : str) (l : list str) : str :=
  match l with
  | [] => []
  | [x] => x
  | x :: l' => x ++ sep ++ join sep l'
  end.

(** [s.endswith(c)] for a one-character [c]. *)
Definition endswith_char (s : str) (c : char) : bool :=
  match rev s with
  | x :: _ => char_eqb x c
  | [] => false
  end.

(** [x in l] for a list of strings. *)
Definition mem (x : str) (l : list str) : bool :=
  existsb (eqb x) l.

(** The characters [str.strip()] removes: [str.isspace]. *)
Definition isspace (c : char) : bool :=
  ((9 <=? c) && (c <=? 13) || (28 <=? c) && (c <=? 32)
   || (c =? 133) || (c =? 160) || (c =? 5760)
   || (8192 <=? c) && (c <=? 8202)
   || (c =? 8232) || (c =? 8233) || (c =? 8239) || (c =? 8287)
   || (c =? 12288))%N.

Fixpoint lstrip (s : str) : str :=
  match s with
  | c :: s' => if isspace c then lstrip s' else s
  | [] => []
  end.

Definition strip (s : str) : str :=
  rev (lstrip (rev (lstrip s))).

(** [str.lower] on the ASCII letters; an instance of the case mapping the
    managers are parameterised by. *)
Definition ascii_lower_char (c : char) : char :=
  if ((65 <=? c) && (c <=? 90))%N then (c + 32)%N else c.

Definition ascii_lower (s : str) : str := map ascii_lower_char s.

End PyStr.

Import PyStr.

(** ** [os.path] on POSIX paths *)

Module OsPath.

Definition sep : char := 47%N.
Definition extsep : char := 46%N.

(** [split_last c s = Some (a, b)] when [s = a ++ c :: b] and [c] does not
    occur in [b]: the split at [s.rfind(c)]. *)
Fixpoint split_last (c : char) (s : str) : option (str * str) :=
  match s with
  | [] => None
  | x :: s' =>
      match split_last c s' with
      | Some (a, b) => Some (x :: a, b)
      | None => if char_eqb x c then Some ([], s') else None
      end
  end.

(** [os.path.join(a, b)] *)
Definition join (a b : str) : str :=
  if startswith b [sep] then b
  else match a with
       | [] => b
       | _ => if endswith_char a sep then a ++ b else a ++ sep :: b
       end.

(** [os.path.basename(p)] *)
Definition basename (p : str) : str :=
  match split_last sep p with
  | Some (_, b) => b
  | None => p
  end.

(** [os.path.splitext(p)]: the extension starts at the last dot of the
    last component, unless only dots precede it there. *)
Definition splitext (p : str) : str * str :=
  let '(dir, base) :=
    match split_last sep p with
    | Some (a, b) => (a ++ [sep], b)
    | None => ([], p)
    end in
  match split_last extsep base with
  | Some (name, e) =>
      if forallb (char_eqb extsep) name then (p, [])
      else (dir ++ name, extsep :: e)
  | None => (p, [])
  end.

End OsPath.

(** ** Python dictionaries: insertion-ordered, keys unique *)

Module PyDict.
Section Dict.

Variable V : Type.

Definition dict := list (str * V).

(** [d.get(k)] / [d[k]] *)
Fixpoint get (k : str) (d : dict) : option V :=
match d with
| [] => None
| (k', v) :: d' => if eqb k k' then Some v else get k d'
end.

(** [k in d] *)
Definition has_key (k : str) (d : dict) : bool :=
match get k d with Some _ => true | None => false end.

(** [d[k] = v]: an existing key keeps its position, a new key goes last. *)
Fixpoint set (k : str) (v : V) (d : dict) : dict :=
match d with
| [] => [(k, v)]
| (k', v') :: d' =>
  if eqb k k' then (k', v) :: d' else (k', v') :: set k v d'
end.

(** [del d[k]] *)
Definition del (k : str) (d : dict) : dict :=
filter (fun kv => negb (eqb k (fst kv))) d.

Definition keys (d : dict) : list str := map fst d.

(** The invariant of a Python dict: no key occurs twice. *)
Definition wf (d : dict) : Prop := NoDup (keys d).

End Dict.
End PyDict.

(** ** [hashlib.md5]

    The digest of RFC 1321 on 32-bit words, each word an [N] below [2^32]
    with the wrap-around written out. *)

Module MD5.

Definition bytes := list Byte.byte.

Definition mask32 : N := 4294967295.
Definition wrap (x : N) : N := N.land x mask32.
Definition add32 (x y : N) : N := wrap (x + y).
Definition not32 (x : N) : N := N.lxor x mask32.
Definition rotl32 (x : N) (c : N) : N :=
  wrap (N.lor (N.shiftl x c) (N.shiftr x (32 - c))).

Definition K : list N :=
  [ 3614090360; 3905402710; 606105819; 3250441966;
    4118548399; 1200080426; 2821735955; 4249261313;
    1770035416; 2336552879; 4294925233; 2304563134;
    1804603682; 4254626195; 2792965006; 1236535329;
    4129170786; 3225465664; 643717713; 3921069994;
    3593408605; 38016083; 3634488961; 3889429448;
    568446438; 3275163606; 4107603335; 1163531501;
    2850285829; 4243563512; 1735328473; 2368359562;
    4294588738; 2272392833; 1839030562; 4259657740;
    2763975236; 1272893353; 4139469664; 3200236656;
    681279174; 3936430074; 3572445317; 76029189;
    3654602809; 3873151461; 530742520; 3299628645;
    4096336452; 1126891415; 2878612391; 4237533241;
    1700485571; 2399980690; 4293915773; 2240044497;
    1873313359; 4264355552; 2734768916; 1309151649;
    4149444226; 3174756917; 718787259; 3951481745 ]%N.

Definition S : list N :=
  [ 7; 12; 17; 22; 7; 12; 17; 22; 7; 12; 17; 22; 7; 12; 17; 22;
    5; 9; 14; 20; 5; 9; 14; 20; 5; 9; 14; 20; 5; 9; 14; 20;
    4; 11; 16; 23; 4; 11; 16; 23; 4; 11; 16; 23; 4; 11; 16; 23;
    6; 10; 15; 21; 6; 10; 15; 21; 6; 10; 15; 21; 6; 10; 15; 21 ]%N.

Definition regs := (N * N * N * N)%type.

Definition init : regs :=
  (1732584193, 4023233417, 2562383102, 271733878)%N.

(** One of the 64 steps of the compression function on block [M]. *)
Definition step (M : list N) (r : regs) (i : nat) : regs :=
  let '(a, b, c, d) := r in
  let '(f, g) :=
    if (i <? 16)%nat then
      (N.lor (N.land b c) (N.land (not32 b) d), i)
    else if (i <? 32)%nat then
      (N.lor (N.land d b) (N.land (not32 d) c), ((5 * i + 1) mod 16)%nat)
    else if (i <? 48)%nat then
      (N.lxor b (N.lxor c d), ((3 * i + 5) mod 16)%nat)
    else
      (N.lxor c (N.lor b (not32 d)), ((7 * i) mod 16)%nat) in
  let f' := add32 (add32 (add32 f a) (nth i K 0%N)) (nth g M 0%N) in
  (d, add32 b (rotl32 f' (nth i S 0%N)), b, c).

Definition compress (r : regs) (M : list N) : regs :=
  let '(a, b, c, d) := r in
  let '(a', b', c', d') := fold_left (step M) (seq 0 64) r in
  (add32 a a', add32 b b', add32 c c', add32 d d').

(** The message followed by [0x80], zero bytes up to 56 modulo 64 and
    the bit length on 8 bytes, least significant first. *)
Definition le_bytes (n : nat) (x : N) : list N :=
  map (fun k => N.land (N.shiftr x (8 * N.of_nat k)) 255) (seq 0 n).

Definition pad (m : list N) : list N :=
  let len := List.length m in
  let zeros := ((55 + 64 - len mod 64) mod 64)%nat in
  m ++ [128%N] ++ repeat 0%N zeros ++ le_bytes 8 (8 * N.of_nat len).

Fixpoint words (bs : list N) : list N :=
  match bs with
  | b0 :: b1 :: b2 :: b3 :: r =>
      (b0 + 256 * b1 + 65536 * b2 + 16777216 * b3)%N :: words r
  | _ => []
  end.

Fixpoint blocks (fuel : nat) (ws : list N) : list (list N) :=
  match fuel, ws with
  | O, _ | _, [] => []
  | Datatypes.S fuel', _ => firstn 16 ws :: blocks fuel' (skipn 16 ws)
  end.

Definition digest_regs (m : bytes) : regs :=
  let ws := words (pad (map Byte.to_N m)) in
  fold_left compress (blocks (List.length ws) ws) init.

Definition word_bytes (w : N) : list N :=
  [ N.land w 255; N.land (N.shiftr w 8) 255;
    N.land (N.shiftr w 16) 255; N.land (N.shiftr w 24) 255 ].

(** [md5(m).digest()] *)
Definition digest (m : bytes) : list N :=
  let '(a, b, c, d) := digest_regs m in
  word_bytes a ++ word_bytes b ++ word_bytes c ++ word_bytes d.

Definition hex_digit (n : N) : char :=
  if (n <? 10)%N then (48 + n)%N else (87 + n)%N.

Definition hex_byte (b : N) : str :=
  [hex_digit (N.shiftr b 4); hex_digit (N.land b 15)].

(** [md5(m).hexdigest()] *)
Definition hexdigest (m : bytes) : str :=
  flat_map hex_byte (digest m).

(** The bytes of an ASCII literal, for examples. *)
Definition bytes_of_string (s : string) : bytes :=
  list_byte_of_string s.

End MD5.

(** ** Python values and the [json] module

    [json.dump] maps a Python value to a JSON document and [json.load] maps
    a document back, by the conversion tables of the [json] module: a tuple
    is written as an array, an [int] key as its decimal string, [bytes] (and
    any other object) raises [TypeError]; an array is read as a list and an
    object as a dict, a repeated key keeping its last value.  The text
    level (indentation, escapes, the UTF-8 encoding of the file) is not
    modelled: strings are taken to be encodable. *)

Module Json.

Inductive pykey :=
| KStr (s : str)
| KInt (z : Z).

Inductive pyval :=
| PNone
| PBool (b : bool)
| PInt (z : Z)
| PStr (s : str)
| PBytes (b : MD5.bytes)
| PList (l : list pyval)
| PTuple (l : list pyval)
| PDict (d : list (pykey * pyval)).

Inductive json :=
| JNull
| JBool (b : bool)
| JInt (z : Z)
| JStr (s : str)
| JArr (l : list json)
| JObj (o : list (str * json)).

(** [str(z)] *)
Definition str_of_int (z : Z) : str :=
  lit (NilZero.string_of_int (Z.to_int z)).

Definition key_text (k : pykey) : str :=
  match k with
  | KStr s => s
  | KInt z => str_of_int z
  end.

(** The encoder; [None] is a raised [TypeError]. *)
Fixpoint dumps (v : pyval) : option json :=
  let fix items (l : list pyval) : option (list json) :=
    match l with
    | [] => Some []
    | x :: r =>
        match dumps x, items r with
        | Some j, Some js => Some (j :: js)
        | _, _ => None
        end
    end in
  let fix members (d : list (pykey * pyval)) : option (list (str * json)) :=
    match d with
    | [] => Some []
    | (k, x) :: r =>
        match dumps x, members r with
        | Some j, Some js => Some ((key_text k, j) :: js)
        | _, _ => None
        end
    end in
  match v with
  | PNone => Some JNull
  | PBool b => Some (JBool b)
  | PInt z => Some (JInt z)
  | PStr s => Some (JStr s)
  | PBytes _ => None
  | PList l => option_map JArr (items l)
  | PTuple l => option_map JArr (items l)
  | PDict d => option_map JObj (members d)
  end.

Definition key_eqb (a b : pykey) : bool :=
  match a, b with
  | KStr x, KStr y => eqb x y
  | KInt x, KInt y => Z.eqb x y
  | _, _ => false
  end.

(** [d[k] = v] on a dict under construction. *)
Fixpoint dict_set (k : pykey) (v : pyval) (d : list (pykey * pyval))
  : list (pykey * pyval) :=
  match d with
  | [] => [(k, v)]
  | (k', v') :: d' =>
      if key_eqb k k' then (k', v) :: d' else (k', v') :: dict_set k v d'
  end.

(** The decoder. *)
Fixpoint loads (j : json) : pyval :=
  let fix items (l : list json) : list pyval :=
    match l with
    | [] => []
    | x :: r => loads x :: items r
    end in
  let fix members (acc : list (pykey * pyval)) (o : list (str * json))
    : list (pykey * pyval) :=
    match o with
    | [] => acc
    | (k, x) :: r => members (dict_set (KStr k) (loads x) acc) r
    end in
  match j with
  | JNull => PNone
  | JBool b => PBool b
  | JInt z => PInt z
  | JStr s => PStr s
  | JArr l => PList (items l)
  | JObj o => PDict (members [] o)
  end.

(** What a path of the file system holds, as [json.load] sees it. *)
Inductive file :=
| Missing
| Unparsable
| Document (j : json).

End Json.

Import Json.

(** ** Results of calls that may raise *)

Inductive outcome (A : Type) :=
| Ok (a : A)
| Raise (cause : str).

Arguments Ok {A} a.
Arguments Raise {A} cause.

Definition bind {A B : Type} (o : outcome A) (f : A -> outcome B)
  : outcome B :=
  match o with
  | Ok a => f a
  | Raise e => Raise e
  end.

Notation "x <- o ;; k" := (bind o (fun x => k))
  (at level 61, o at next level, right associativity).

(** ** Stable sort by a string key, largest first

    [list.sort(key=..., reverse=True)]: elements with equal keys keep their
    relative order. *)

Section SortDesc.

Variable A : Type.
Variable key : A -> str.

Fixpoint insert_desc (x : A) (l : list A) : list A :=
  match l with
  | [] => [x]
  | y :: l' =>
      if ltb (key x) (key y) then y :: insert_desc x l' else x :: l
  end.

Definition sort_desc (l : list A) : list A :=
  fold_right insert_desc [] l.

End SortDesc.

(** String constants of the source. *)
Definition wildcard : str := Eval vm_compute in lit "全部".
Definition space : str := Eval vm_compute in lit " ".
Definition ellipsis : str := Eval vm_compute in lit "...".
Definition image_types : list str :=
  Eval vm_compute in
  map lit ["image/jpeg"; "image/png"; "image/gif"; "image/bmp"]%string.
Definition supported_extensions : list str :=
  Eval vm_compute in map lit [".txt"; ".md"; ".pdf"; ".docx"]%string.
Definition msg_unsupported_format : str :=
  Eval vm_compute in lit "不支持的文件格式: ".
Definition msg_read_error : str :=
  Eval vm_compute in lit "文件读取错误: ".
Definition msg_empty_content : str :=
  Eval vm_compute in lit "文档内容为空".
Definition msg_save_failed : str :=
  Eval vm_compute in lit "保存元数据失败: ".
Definition msg_thumbnail_failed : str :=
  Eval vm_compute in lit "生成缩略图失败: ".
Definition msg_info_failed : str :=
  Eval vm_compute in lit "提取图片信息失败: ".
Definition msg_image_type : str :=
  Eval vm_compute in lit "不支持的图片格式: ".
Definition msg_add_document_failed : str :=
  Eval vm_compute in lit "添加文档失败: ".
Definition msg_add_image_failed : str :=
  Eval vm_compute in lit "添加图片失败: ".
Definition msg_delete_image_failed : str :=
  Eval vm_compute in lit "删除图片失败: ".
Definition msg_not_serializable : str :=
  Eval vm_compute in lit "Object of type bytes is not JSON serializable".
Definition msg_search_failed : str :=
  Eval vm_compute in lit "搜索文档失败: ".
Definition msg_no_such_file : str :=
  Eval vm_compute in lit "[Errno 2] No such file or directory: ".
Definition quote : str := Eval vm_compute in lit "'".

(** The text of the [FileNotFoundError] for a path (a path whose [repr]
    is the path between quotes). *)
Definition no_such_file (p : str) : str :=
  msg_no_such_file ++ quote ++ p ++ quote.
Definition msg_decode_error : str :=
  Eval vm_compute in lit "Expecting value".

(** ** [core/image_manager.py] *)

Module ImageManager.

Record image_info := {
  width : Z;
  height : Z;
  format : str;
  mode : str;
  exif : list (pykey * pyval)
}.

(** The dict [add_image] stores under a file name.  The keys that
    [search_images] and [delete_image] read with [get] or test with [in] are
    optional; [info] is the [**image_info] part, absent when
    [_extract_image_info] returned an empty dict. *)
Record image_record := {
  original_name : str;
  path : str;
  thumbnail_path : option str;
  category : str;
  tags : list str;
  upload_time : option str;
  size : option Z;
  info : option image_info
}.

(** An entry of the list [search_images] returns. *)
Record image_result := {
  r_file_name : str;
  r_original_name : str;
  r_path : str;
  r_thumbnail_path : str;
  r_category : str;
  r_tags : list str;
  r_width : Z;
  r_height : Z;
  r_size : Z;
  r_upload_time : str;
  r_format : str
}.

(** [st.file_uploader] hands over an [UploadedFile]; [size] is the number
    of bytes of [getvalue()]. *)
Record uploaded_file := {
  name : str;
  type : str;
  getvalue : MD5.bytes
}.

Definition upload_size (u : uploaded_file) : Z :=
  Z.of_nat (List.length (getvalue u)).

(** The [ImageManager] object with what it reads and writes: the in-memory
    mapping, the files under the data directory (path to content), the
    metadata file and the messages given to [st.error]. *)
Record state := {
  metadata : PyDict.dict image_record;
  files : PyDict.dict MD5.bytes;
  metadata_file : Json.file;
  errors : list str
}.

(** The record as the Python dict it is, keys in the order of the dict
    display in [add_image]. *)
Definition opt_item (k : string) (f : option pyval)
  : list (pykey * pyval) :=
  match f with
  | Some v => [(KStr (lit k), v)]
  | None => []
  end.

Definition info_to_py (i : image_info) : list (pykey * pyval) :=
  [ (KStr (lit "width"), PInt (width i));
    (KStr (lit "height"), PInt (height i));
    (KStr (lit "format"), PStr (format i));
    (KStr (lit "mode"), PStr (mode i));
    (KStr (lit "exif"), PDict (exif i)) ].

Definition record_to_py (r : image_record) : pyval :=
  PDict
    ([ (KStr (lit "original_name"), PStr (original_name r));
       (KStr (lit "path"), PStr (path r)) ]
     ++ opt_item "thumbnail_path" (option_map PStr (thumbnail_path r))
     ++ [ (KStr (lit "category"), PStr (category r));
          (KStr (lit "tags"), PList (map PStr (tags r))) ]
     ++ opt_item "upload_time" (option_map PStr (upload_time r))
     ++ opt_item "size" (option_map PInt (size r))
     ++ match info r with
        | Some i => info_to_py i
        | None => []
        end).

Definition metadata_to_py (m : PyDict.dict image_record) : pyval :=
  PDict (map (fun kv => (KStr (fst kv), record_to_py (snd kv))) m).


(** The outside world of the manager: [str.lower], the data directory,
    what Pillow makes of the bytes of a file (a thumbnail written
    at a path, the size and EXIF data), each either a result or the
    exception it raises; and the verdict of the operating system on
    opening a path for writing and on removing a path, given the files
    that are there: the text of the exception it raises, when it raises
    one (a name over the length limit, a missing or read-only directory,
    a path that cannot be removed). *)
Section Manager.

Variable lower : str -> str.
Variable data_dir : str.
Variable pil_thumbnail : str -> MD5.bytes -> outcome MD5.bytes.
Variable pil_info : MD5.bytes -> outcome image_info.
Variable open_error : str -> PyDict.dict MD5.bytes -> option str.
Variable remove_error : str -> PyDict.dict MD5.bytes -> option str.

Definition images_dir : str := OsPath.join data_dir (lit "images").
Definition thumbnails_dir : str := OsPath.join data_dir (lit "thumbnails").

Definition set_metadata (m : PyDict.dict image_record) (s : state) :=
  {| metadata := m; files := files s;
     metadata_file := metadata_file s; errors := errors s |}.

Definition set_files (f : PyDict.dict MD5.bytes) (s : state) :=
  {| metadata := metadata s; files := f;
     metadata_file := metadata_file s; errors := errors s |}.

Definition set_metadata_file (f : Json.file) (s : state) :=
  {| metadata := metadata s; files := files s;
     metadata_file := f; errors := errors s |}.

(** [st.error(msg)] *)
Definition st_error (msg : str) (s : state) :=
  {| metadata := metadata s; files := files s;
     metadata_file := metadata_file s; errors := errors s ++ [msg] |}.

(** [os.path.exists(p)] on the image files. *)
Definition path_exists (p : str) (s : state) : bool :=
  PyDict.has_key p (files s).

(** The files without [p], and with [b] at [p]. *)
Definition without_file (p : str) (s : state) : state :=
  set_files (PyDict.del p (files s)) s.

Definition write_file (p : str) (b : MD5.bytes) (s : state) : state :=
  set_files (PyDict.set p b (files s)) s.

(** [os.remove(p)]: the file is removed, or the call raises and the
    files stay as they are. *)
Definition os_remove (p : str) (s : state) : outcome state :=
  match remove_error p (files s) with
  | Some e => Raise e
  | None => Ok (without_file p s)
  end.

(** [with open(p, 'wb') as f: f.write(b)]: the file is written, or
    [open] raises and no file is made. *)
Definition open_write (p : str) (b : MD5.bytes) (s : state)
  : outcome state :=
  match open_error p (files s) with
  | Some e => Raise e
  | None => Ok (write_file p b s)
  end.

(** [open(...)] followed by [json.load]. *)
Definition json_load (f : Json.file) : outcome pyval :=
  match f with
  | Missing => Raise msg_no_such_file
  | Unparsable => Raise msg_decode_error
  | Document j => Ok (loads j)
  end.

Definition file_exists (f : Json.file) : bool :=
  match f with
  | Missing => false
  | _ => true
  end.

Definition _load_metadata (s : state) : pyval :=
  if file_exists (metadata_file s) then
    match json_load (metadata_file s) with
    | Ok v => v
    | Raise _ => PDict []
    end
  else PDict [].

Definition metadata_path : str :=
  OsPath.join data_dir (lit "image_metadata.json").

(** When the file cannot be opened for writing, the failure is reported
    and the file stays as it is.  Otherwise the file is opened, which
    empties it, and the encoder writes as it goes: when it raises, what
    is left does not parse. *)
Definition _save_metadata (s : state) : state :=
  match open_error metadata_path (files s) with
  | Some e => st_error (msg_save_failed ++ e) s
  | None =>
      match dumps (metadata_to_py (metadata s)) with
      | Some j => set_metadata_file (Document j) s
      | None =>
          st_error (msg_save_failed ++ msg_not_serializable)
                   (set_metadata_file Unparsable s)
      end
  end.

Definition _generate_thumbnail (image_path : str) (s : state)
  : str * state :=
  let file_name := OsPath.basename image_path in
  let '(name, ext) := OsPath.splitext file_name in
  let thumbnail_name := name ++ lit "_thumb" ++ ext in
  let thumbnail_path := OsPath.join thumbnails_dir thumbnail_name in
  let opened :=
    match PyDict.get image_path (files s) with
    | Some b => pil_thumbnail thumbnail_path b
    | None => Raise (no_such_file image_path)
    end in
  match opened with
  | Ok t => (thumbnail_path, write_file thumbnail_path t s)
  | Raise e => (image_path, st_error (msg_thumbnail_failed ++ e) s)
  end.

Definition _extract_image_info (image_path : str) (s : state)
  : option image_info * state :=
  let opened :=
    match PyDict.get image_path (files s) with
    | Some b => pil_info b
    | None => Raise (no_such_file image_path)
    end in
  match opened with
  | Ok i => (Some i, s)
  | Raise e => (None, st_error (msg_info_failed ++ e) s)
  end.

(** The key of an upload: eight hex digits of the MD5 of the content,
    an underscore, the original name. *)
Definition file_id (u : uploaded_file) : str :=
  let file_hash := firstn 8 (MD5.hexdigest (getvalue u)) in
  file_hash ++ lit "_" ++ name u.

(** [add_image]; [now] is [datetime.now().isoformat()] at the call.
    The write of the image file is the one step of the body that can
    raise past its own handler (the thumbnail, the image information and
    the save of the metadata each catch what they raise); the outer
    handler then reports and returns [False], with nothing stored. *)
Definition add_image (u : uploaded_file) (category : str)
    (tags : option (list str)) (now : str) (s : state) : bool * state :=
  if negb (mem (type u) image_types) then
    (false, st_error (msg_image_type ++ type u) s)
  else
    let file_name := file_id u in
    let dest_path := OsPath.join images_dir file_name in
    match open_write dest_path (getvalue u) s with
    | Raise e => (false, st_error (msg_add_image_failed ++ e) s)
    | Ok s1 =>
        let '(thumbnail_path, s2) := _generate_thumbnail dest_path s1 in
        let '(image_info, s3) := _extract_image_info dest_path s2 in
        let record :=
          {| original_name := name u;
             path := dest_path;
             thumbnail_path := Some thumbnail_path;
             category := category;
             tags := match tags with Some ((_ :: _) as l) => l | _ => [] end;
             upload_time := Some now;
             size := Some (upload_size u);
             info := image_info |} in
        let s4 :=
          set_metadata (PyDict.set file_name record (metadata s3)) s3 in
        (true, _save_metadata s4)
    end.

Definition to_result (file_name : str) (m : image_record) : image_result :=
  {| r_file_name := file_name;
     r_original_name := original_name m;
     r_path := path m;
     r_thumbnail_path :=
       match thumbnail_path m with Some t => t | None => path m end;
     r_category := category m;
     r_tags := tags m;
     r_width := match info m with Some i => width i | None => 0%Z end;
     r_height := match info m with Some i => height i | None => 0%Z end;
     r_size := match size m with Some z => z | None => 0%Z end;
     r_upload_time :=
       match upload_time m with Some t => t | None => [] end;
     r_format := match info m with Some i => format i | None => [] end |}.

(** The three filters of the loop body, each the negation of the
    condition that leads to [continue]. *)
Definition category_passes (category : option str) (m : image_record)
  : bool :=
  match category with
  | Some ((_ :: _) as c) =>
      negb (negb (eqb c wildcard) && negb (eqb (ImageManager.category m) c))
  | _ => true
  end.

Definition tags_pass (tags : option (list str)) (m : image_record)
  : bool :=
  match tags with
  | Some ((_ :: _) as ts) =>
      existsb (fun tag => mem (lower tag) (map lower (ImageManager.tags m)))
              ts
  | _ => true
  end.

Definition query_passes (query : str) (m : image_record) : bool :=
  match query with
  | _ :: _ =>
      let search_text :=
        lower (original_name m ++ space
               ++ PyStr.join space (ImageManager.tags m)) in
      contains search_text (lower query)
  | [] => true
  end.

(** One turn of the loop: the results it appends. *)
Definition search_step (query : str) (category : option str)
    (tags : option (list str)) (s : state)
    (item : str * image_record) : list image_result :=
  let '(file_name, m) := item in
  if negb (category_passes category m) then []
  else if negb (tags_pass tags m) then []
  else if negb (query_passes query m) then []
  else if negb (path_exists (path m) s) then []
  else [to_result file_name m].

Definition search_images (query : str) (category : option str)
    (tags : option (list str)) (s : state)
  : list image_result * state :=
  let results := flat_map (search_step query category tags s) (metadata s) in
  (sort_desc r_upload_time results, s).

(** The two removals of [delete_image]: the image file, then the
    thumbnail, each when it exists. *)
Definition remove_image_file (m : image_record) (s : state)
  : outcome state :=
  if path_exists (path m) s then os_remove (path m) s else Ok s.

Definition remove_thumbnail (m : image_record) (s : state)
  : outcome state :=
  match thumbnail_path m with
  | Some t => if path_exists t s then os_remove t s else Ok s
  | None => Ok s
  end.

(** [delete_image]; a removal that raises ends the call in the handler,
    which reports and returns [False]: the entry stays, and so does what
    was not yet removed. *)
Definition delete_image (file_name : str) (s : state) : bool * state :=
  match PyDict.get file_name (metadata s) with
  | Some m =>
      match remove_image_file m s with
      | Raise e => (false, st_error (msg_delete_image_failed ++ e) s)
      | Ok s1 =>
          match remove_thumbnail m s1 with
          | Raise e => (false, st_error (msg_delete_image_failed ++ e) s1)
          | Ok s2 =>
              let s3 :=
                set_metadata (PyDict.del file_name (metadata s2)) s2 in
              (true, _save_metadata s3)
          end
      end
  | None => (false, s)
  end.

End Manager.

(** A Python [set] of strings is modelled as the list of its elements in
    the order they were first added.  The order in which [list(set)]
    yields them is not specified by Python; no property proved about these
    lists depends on it. *)
Definition set_add (x : str) (l : list str) : list str :=
  if mem x l then l else l ++ [x].

(** [set.update(xs)] *)
Definition set_update (xs : list str) (l : list str) : list str :=
  fold_left (fun acc x => set_add x acc) xs l.

Definition get_categories (s : state) : list str :=
  let categories :=
    fold_left (fun acc item => set_add (category (snd item)) acc)
              (metadata s) [] in
  match categories with
  | [] => [lit "general"]
  | _ :: _ => categories
  end.

Definition get_all_tags (s : state) : list str :=
  fold_left (fun acc item => set_update (tags (snd item)) acc)
            (metadata s) [].

(** The dict [get_image_stats] returns. *)
Record image_stats := {
  total_images : nat;
  stats_categories : PyDict.dict Z;
  stats_formats : PyDict.dict Z;
  total_size : Z;
  stats_tags : PyDict.dict Z
}.

(** [d[k] = d.get(k, 0) + 1] *)
Definition count_up (k : str) (d : PyDict.dict Z) : PyDict.dict Z :=
  PyDict.set k (match PyDict.get k d with Some n => n | None => 0 end + 1)%Z d.

(** One turn of the loop of [get_image_stats]. *)
Definition stats_step (stats : image_stats) (item : str * image_record)
  : image_stats :=
  let m := snd item in
  let format_name :=
    match info m with Some i => format i | None => lit "unknown" end in
  {| total_images := total_images stats;
     stats_categories := count_up (category m) (stats_categories stats);
     stats_formats := count_up format_name (stats_formats stats);
     total_size :=
       (total_size stats + match size m with Some z => z | None => 0 end)%Z;
     stats_tags :=
       fold_left (fun d tag => count_up tag d) (tags m) (stats_tags stats) |}.

Definition get_image_stats (s : state) : image_stats :=
  fold_left stats_step (metadata s)
    {| total_images := List.length (metadata s);
       stats_categories := [];
       stats_formats := [];
       total_size := 0;
       stats_tags := [] |}.

End ImageManager.

(** ** [core/document_manager.py] *)

Module DocumentManager.

Record doc_metadata := {
  file_path : str;
  file_name : str;
  category : str;
  file_type : str;
  file_size : Z
}.

(** A [Document] handed to [index.insert]. *)
Record Document := {
  text : str;
  metadata : doc_metadata
}.

(** An entry of [response.source_nodes]: the chunk text, its metadata
    dict (read with [get]) and the similarity score. *)
Record node := {
  node_text : str;
  node_file_name : option str;
  node_category : option str;
  node_file_type : option str;
  node_file_size : option Z;
  node_score : Q
}.

(** An entry of the list [search_documents] returns. *)
Record result := {
  content : str;
  r_file_name : str;
  r_category : str;
  r_file_type : str;
  r_file_size : Z;
  score : Q
}.

(** The manager with what it reads and writes: the vector index as the
    documents inserted so far ([None] when [_initialize_index] failed),
    the files (path to content) and the messages given to [st.error]. *)
Record state := {
  index : option (list Document);
  files : PyDict.dict MD5.bytes;
  errors : list str
}.

(** The outside world of the manager: [str.lower], the data directory,
    the decoders of the three file formats, whether an insertion into
    the index raises, whether a copy from one path to another raises
    given the files that are there ([SameFileError] when the two paths
    are spellings of one file, an error of the operating system
    otherwise), and the query engine, which is given the index,
    [similarity_top_k] and the query text. *)
Section Manager.

Variable lower : str -> str.
Variable data_dir : str.
Variable decode_utf8 : MD5.bytes -> outcome str.
Variable pdf_pages : MD5.bytes -> outcome (list str).
Variable docx_paragraphs : MD5.bytes -> outcome (list str).
Variable insert_error : Document -> option str.
Variable copy_error : str -> str -> PyDict.dict MD5.bytes -> option str.
Variable query_engine : list Document -> nat -> str -> outcome (list node).

Definition documents_dir : str := OsPath.join data_dir (lit "documents").

Definition st_error (msg : str) (s : state) :=
  {| index := index s; files := files s; errors := errors s ++ [msg] |}.

Definition set_index (i : list Document) (s : state) :=
  {| index := Some i; files := files s; errors := errors s |}.

Definition set_files (f : PyDict.dict MD5.bytes) (s : state) :=
  {| index := index s; files := f; errors := errors s |}.

(** [open(p)] and reading it whole. *)
Definition read_file (p : str) (s : state) : outcome MD5.bytes :=
  match PyDict.get p (files s) with
  | Some b => Ok b
  | None => Raise (no_such_file p)
  end.

(** [os.path.getsize(p)] *)
Definition getsize (p : str) (s : state) : outcome Z :=
  b <- read_file p s ;; Ok (Z.of_nat (List.length b)).

(** [shutil.copy2(src, dst)]: the copy is made, or the call raises and
    no file is made. *)
Definition copy2 (src dst : str) (s : state) : outcome state :=
  match copy_error src dst (files s) with
  | Some e => Raise e
  | None =>
      b <- read_file src s ;;
      Ok (set_files (PyDict.set dst b (files s)) s)
  end.

Definition newline : str := [10%N].

(** [text = empty; for part in parts: text += part + newline] *)
Definition join_lines (parts : list str) : str :=
  fold_left (fun text part => text ++ part ++ newline) parts [].

(** The body of the [try] of [_extract_text_from_file]. *)
Definition extract_body (file_ext file_path : str) (s : state)
  : outcome str :=
  if mem file_ext [lit ".txt"; lit ".md"] then
    b <- read_file file_path s ;; decode_utf8 b
  else if eqb file_ext (lit ".pdf") then
    b <- read_file file_path s ;;
    pages <- pdf_pages b ;;
    Ok (join_lines pages)
  else if eqb file_ext (lit ".docx") then
    b <- read_file file_path s ;;
    paragraphs <- docx_paragraphs b ;;
    Ok (join_lines paragraphs)
  else Ok (msg_unsupported_format ++ file_ext).

Definition _extract_text_from_file (file_path : str) (s : state) : str :=
  let file_ext := lower (snd (OsPath.splitext file_path)) in
  match extract_body file_ext file_path s with
  | Ok t => t
  | Raise e => msg_read_error ++ e
  end.

(** The body of the [try] of [add_document], from the extraction on:
    what it returns or raises, and the state it leaves.  The document is
    in the index from [index.insert] on, also when the copy that follows
    raises. *)
Definition add_body (idx : list Document) (file_ext file_path : str)
    (category : str) (s : state) : outcome bool * state :=
  let content := _extract_text_from_file file_path s in
  match strip content with
  | [] => (Ok false, st_error msg_empty_content s)
  | _ :: _ =>
      match getsize file_path s with
      | Raise e => (Raise e, s)
      | Ok size =>
          let document :=
            {| text := content;
               metadata :=
                 {| file_path := file_path;
                    file_name := OsPath.basename file_path;
                    category := category;
                    file_type := file_ext;
                    file_size := size |} |} in
          match insert_error document with
          | Some e => (Raise e, s)
          | None =>
              let s1 := set_index (idx ++ [document]) s in
              let dest_path :=
                OsPath.join documents_dir (OsPath.basename file_path) in
              if eqb file_path dest_path then (Ok true, s1)
              else
                match copy2 file_path dest_path s1 with
                | Raise e => (Raise e, s1)
                | Ok s2 => (Ok true, s2)
                end
          end
      end
  end.

(** [add_document]; the handler reports what the body raised and returns
    [False], in the state the body left. *)
Definition add_document (file_path : str) (category : str) (s : state)
  : bool * state :=
  match index s with
  | None => (false, s)
  | Some idx =>
      let file_ext := lower (snd (OsPath.splitext file_path)) in
      if negb (mem file_ext supported_extensions) then
        (false, st_error (msg_unsupported_format ++ file_ext) s)
      else
        match add_body idx file_ext file_path category s with
        | (Ok r, s') => (r, s')
        | (Raise e, s') =>
            (false, st_error (msg_add_document_failed ++ e) s')
        end
  end.

(** [text[:300] + dots if len(text) > 300 else text] *)
Definition preview (t : str) : str :=
  if (300 <? List.length t)%nat then firstn 300 t ++ ellipsis else t.

Definition to_result (n : node) : result :=
  {| content := preview (node_text n);
     r_file_name :=
       match node_file_name n with Some x => x | None => [] end;
     r_category :=
       match node_category n with Some x => x | None => [] end;
     r_file_type :=
       match node_file_type n with Some x => x | None => [] end;
     r_file_size :=
       match node_file_size n with Some x => x | None => 0%Z end;
     score := node_score n |}.

(** One turn of the loop over the source nodes. *)
Definition search_step (category : option str) (n : node) : list result :=
  let r := to_result n in
  match category with
  | Some ((_ :: _) as c) =>
      if negb (eqb c wildcard) && negb (eqb (r_category r) c) then []
      else [r]
  | _ => [r]
  end.

Definition search_documents (query : str) (category : option str)
    (top_k : nat) (s : state) : list result * state :=
  match index s with
  | None => ([], s)
  | Some idx =>
      match query_engine idx top_k query with
      | Ok source_nodes => (flat_map (search_step category) source_nodes, s)
      | Raise e => ([], st_error (msg_search_failed ++ e) s)
      end
  end.

(** [get_categories]: a fixed list. *)
Definition get_categories : list str :=
  [lit "general"; lit "work"; lit "study"; lit "personal"; lit "research"].

(** [s] without the prefix [pre], when it starts with it. *)
Fixpoint strip_prefix (pre s : str) : option str :=
  match pre, s with
  | [], _ => Some s
  | _ :: _, [] => None
  | y :: pre', x :: s' => if char_eqb x y then strip_prefix pre' s' else None
  end.

(** The part of [s] before its first separator. *)
Fixpoint first_component (s : str) : str :=
  match s with
  | [] => []
  | x :: s' => if char_eqb x OsPath.sep then [] else x :: first_component s'
  end.

Definition add_name (x : str) (l : list str) : list str :=
  if mem x l then l else l ++ [x].

(** [os.listdir(d)]: the names of the entries of the directory [d], which
    are the first components below [d] of the paths of the files.  The
    order of the listing is not specified by Python; no property proved
    about it depends on the order. *)
Definition listdir (d : str) (s : state) : list str :=
  fold_left
    (fun acc item =>
       match strip_prefix (d ++ [OsPath.sep]) (fst item) with
       | Some rest =>
           match first_component rest with
           | [] => acc
           | (_ :: _) as name => add_name name acc
           end
       | None => acc
       end)
    (files s) [].

(** The dict [get_document_stats] returns. *)
Record document_stats := {
  total_files : nat;
  stats_categories : PyDict.dict Z;
  file_types : PyDict.dict Z;
  total_size : Z
}.

(** One turn of the loop of [get_document_stats]; [os.path.isfile] holds
    of the paths of the file map, and [os.path.getsize] is the length of
    the content. *)
Definition stats_step (s : state) (stats : document_stats)
    (file_name : str) : document_stats :=
  let file_path := OsPath.join documents_dir file_name in
  match PyDict.get file_path (files s) with
  | Some b =>
      let ext := lower (snd (OsPath.splitext file_name)) in
      {| total_files := Datatypes.S (total_files stats);
         stats_categories := stats_categories stats;
         file_types :=
           PyDict.set ext
             (match PyDict.get ext (file_types stats) with
              | Some n => n
              | None => 0
              end + 1)%Z
             (file_types stats);
         total_size := (total_size stats + Z.of_nat (List.length b))%Z |}
  | None => stats
  end.

Definition get_document_stats (s : state) : document_stats :=
  fold_left (stats_step s) (listdir documents_dir s)
    {| total_files := 0; stats_categories := [];
       file_types := []; total_size := 0 |}.

End Manager.

End DocumentManager.

(** ** [core/search_engine.py] *)

Module SearchEngine.

(** The engine holds the two managers. *)
Record state := {
  doc_manager : DocumentManager.state;
  img_manager : ImageManager.state
}.

(** The dict [search_all] returns. *)
Record results := {
  documents : list DocumentManager.result;
  images : list ImageManager.image_result
}.

(** The dict [get_stats] returns. *)
Record stats := {
  stats_documents : DocumentManager.document_stats;
  stats_images : ImageManager.image_stats;
  total_items : nat
}.

Section Engine.

Variable lower : str -> str.
Variable data_dir : str.
Variable decode_utf8 : MD5.bytes -> outcome str.
Variable pdf_pages : MD5.bytes -> outcome (list str).
Variable docx_paragraphs : MD5.bytes -> outcome (list str).
Variable insert_error : DocumentManager.Document -> option str.
Variable copy_error : str -> str -> PyDict.dict MD5.bytes -> option str.
Variable query_engine :
  list DocumentManager.Document -> nat -> str
  -> outcome (list DocumentManager.node).
Variable pil_thumbnail : str -> MD5.bytes -> outcome MD5.bytes.
Variable pil_info : MD5.bytes -> outcome ImageManager.image_info.
Variable open_error : str -> PyDict.dict MD5.bytes -> option str.
Variable remove_error : str -> PyDict.dict MD5.bytes -> option str.

(** [search_all]; the document search runs with its default [top_k] of
    five, the image search without tags. *)
Definition search_all (query search_type : str) (category : option str)
    (s : state) : results * state :=
  let '(docs, d) :=
    if mem search_type [lit "all"; lit "documents"] then
      DocumentManager.search_documents query_engine query category 5
        (doc_manager s)
    else ([], doc_manager s) in
  let '(imgs, i) :=
    if mem search_type [lit "all"; lit "images"] then
      ImageManager.search_images lower query category None (img_manager s)
    else ([], img_manager s) in
  ({| documents := docs; images := imgs |},
   {| doc_manager := d; img_manager := i |}).

(** [add_document_from_upload]; [tmp] is the directory and the random
    name that [tempfile] picks, to which the name of the upload is added
    as the suffix.  The temporary file is written, added and unlinked;
    when the file cannot be made or cannot be unlinked the call raises,
    and the handler reports and returns [False], in the state reached. *)
Definition add_document_from_upload (u : ImageManager.uploaded_file)
    (category : str) (tmp : str) (s : state) : bool * state :=
  let tmp_path := tmp ++ ImageManager.name u in
  let d0 := doc_manager s in
  let failed e d :=
    (false,
     {| doc_manager :=
          DocumentManager.st_error (msg_add_document_failed ++ e) d;
        img_manager := img_manager s |}) in
  match open_error tmp_path (DocumentManager.files d0) with
  | Some e => failed e d0
  | None =>
      let d1 :=
        DocumentManager.set_files
          (PyDict.set tmp_path (ImageManager.getvalue u)
             (DocumentManager.files d0)) d0 in
      let '(result, d2) :=
        DocumentManager.add_document lower data_dir decode_utf8 pdf_pages
          docx_paragraphs insert_error copy_error tmp_path category d1 in
      match PyDict.get tmp_path (DocumentManager.files d2) with
      | Some _ =>
          match remove_error tmp_path (DocumentManager.files d2) with
          | Some e => failed e d2
          | None =>
              (result,
               {| doc_manager :=
                    DocumentManager.set_files
                      (PyDict.del tmp_path (DocumentManager.files d2)) d2;
                  img_manager := img_manager s |})
          end
      | None => failed (no_such_file tmp_path) d2
      end
  end.

Definition add_image_from_upload (u : ImageManager.uploaded_file)
    (category : str) (tags : option (list str)) (now : str) (s : state)
  : bool * state :=
  let '(result, i) :=
    ImageManager.add_image data_dir pil_thumbnail pil_info open_error u
      category tags now (img_manager s) in
  (result, {| doc_manager := doc_manager s; img_manager := i |}).

Definition get_categories (content_type : str) (s : state) : list str :=
  if eqb content_type (lit "documents") then DocumentManager.get_categories
  else if eqb content_type (lit "images") then
    ImageManager.get_categories (img_manager s)
  else [].

Definition get_stats (s : state) : stats :=
  let doc_stats :=
    DocumentManager.get_document_stats lower data_dir (doc_manager s) in
  let img_stats := ImageManager.get_image_stats (img_manager s) in
  {| stats_documents := doc_stats;
     stats_images := img_stats;
     total_items :=
       (DocumentManager.total_files doc_stats
        + ImageManager.total_images img_stats)%nat |}.

End Engine.

End SearchEngine.

(** ** The pages: what they compute before calling the engine *)

Module Pages.

(** [s.split(c)]: the pieces between the occurrences of [c]. *)
Fixpoint split (c : char) (s : str) : list str :=
  match s with
  | [] => [[]]
  | x :: s' =>
      if char_eqb x c then [] :: split c s'
      else match split c s' with
           | piece :: rest => (x :: piece) :: rest
           | [] => [[x]]
           end
  end.

Definition comma : char := 44%N.

(** [pages/image.py]: the tags typed into the upload form,
    [[tag.strip() for tag in tags_input.split(comma) if tag.strip()]]. *)
Definition parse_tags (tags_input : str) : list str :=
  flat_map (fun tag => match strip tag with
                       | [] => []
                       | (_ :: _) as t => [t]
                       end)
           (split comma tags_input).

(** The category handed to a search: the choice of the select box, or
    [None] for its first entry. *)
Definition chosen_category (filter_category : str) : option str :=
  if negb (eqb filter_category wildcard) then Some filter_category else None.

(** [pages/image.py]: the page numbers offered for a non-empty list of
    images, [range(1, (len(images) - 1) // items_per_page + 2)]. *)
Definition page_numbers (A : Type) (images : list A) (images_per_row : nat)
  : list nat :=
  let items_per_page := (images_per_row * 4)%nat in
  match images with
  | [] => []
  | _ :: _ =>
      seq 1 (((List.length images - 1) / items_per_page + 2) - 1)
  end.

(** The images of one page, [images[start_idx:end_idx]]. *)
Definition page_images (A : Type) (images : list A) (images_per_row : nat)
    (page : nat) : list A :=
  let items_per_page := (images_per_row * 4)%nat in
  let start_idx := ((page - 1) * items_per_page)%nat in
  let end_idx := (start_idx + items_per_page)%nat in
  firstn (end_idx - start_idx) (skipn start_idx images).

Section SearchPage.

Variable lower : str -> str.
Variable query_engine :
  list DocumentManager.Document -> nat -> str
  -> outcome (list DocumentManager.node).

(** [pages/search.py]: what the search button does with the values of
    the form; nothing is searched for an empty query. *)
Definition search_center (search_query search_type : str)
    (doc_category img_category : str) (selected_tags : list str)
    (s : SearchEngine.state) : option SearchEngine.results * SearchEngine.state :=
  match search_query with
  | [] => (None, s)
  | _ :: _ =>
      let category :=
        if eqb search_type (lit "documents")
           && negb (eqb doc_category wildcard) then Some doc_category
        else if eqb search_type (lit "images")
                && negb (eqb img_category wildcard) then Some img_category
        else None in
      let '(results, s') :=
        SearchEngine.search_all lower query_engine search_query search_type
          category s in
      let images :=
        match selected_tags, SearchEngine.images results with
        | _ :: _, _ :: _ =>
            filter
              (fun img =>
                 existsb
                   (fun tag =>
                      mem (lower tag)
                          (map lower (ImageManager.r_tags img)))
                   selected_tags)
              (SearchEngine.images results)
        | _, _ => SearchEngine.images results
        end in
      (Some {| SearchEngine.documents := SearchEngine.documents results;
               SearchEngine.images := images |},
       s')
  end.

End SearchPage.

End Pages.

(** ** Concrete stores and uploads *)

Module Examples.

Definition beach : ImageManager.image_record :=
  {| ImageManager.original_name := lit "Beach.PNG";
     ImageManager.path := lit "data/images/0a1b2c3d_Beach.PNG";
     ImageManager.thumbnail_path :=
       Some (lit "data/thumbnails/0a1b2c3d_Beach_thumb.PNG");
     ImageManager.category := lit "general";
     ImageManager.tags := [lit "beach"; lit "Travel"];
     ImageManager.upload_time := Some (lit "2024-01-01T10:00:00");
     ImageManager.size := Some 4%Z;
     ImageManager.info := None |}.

Definition city : ImageManager.image_record :=
  {| ImageManager.original_name := lit "city.jpg";
     ImageManager.path := lit "data/images/4e5f6a7b_city.jpg";
     ImageManager.thumbnail_path := None;
     ImageManager.category := lit "work";
     ImageManager.tags := [lit "city"];
     ImageManager.upload_time := Some (lit "2024-02-01T10:00:00.250000");
     ImageManager.size := Some 3%Z;
     ImageManager.info := None |}.

(** A stale entry: its image file is gone. *)
Definition gone : ImageManager.image_record :=
  {| ImageManager.original_name := lit "gone.jpg";
     ImageManager.path := lit "data/images/8c9d0e1f_gone.jpg";
     ImageManager.thumbnail_path := None;
     ImageManager.category := lit "work";
     ImageManager.tags := [lit "city"];
     ImageManager.upload_time := Some (lit "2024-03-01T10:00:00");
     ImageManager.size := Some 5%Z;
     ImageManager.info := None |}.

Definition store : ImageManager.state :=
  {| ImageManager.metadata :=
       [ (lit "0a1b2c3d_Beach.PNG", beach);
         (lit "4e5f6a7b_city.jpg", city);
         (lit "8c9d0e1f_gone.jpg", gone) ];
     ImageManager.files :=
       [ (lit "data/images/0a1b2c3d_Beach.PNG", MD5.bytes_of_string "PNG1");
         (lit "data/thumbnails/0a1b2c3d_Beach_thumb.PNG",
          MD5.bytes_of_string "png1");
         (lit "data/images/4e5f6a7b_city.jpg", MD5.bytes_of_string "JPG") ];
     ImageManager.metadata_file := Missing;
     ImageManager.errors := [] |}.

(** A record whose image file lies on a read-only file system, and a
    store that holds it. *)
Definition locked : ImageManager.image_record :=
  {| ImageManager.original_name := lit "map.png";
     ImageManager.path := lit "/mnt/readonly/5a5a5a5a_map.png";
     ImageManager.thumbnail_path := None;
     ImageManager.category := lit "general";
     ImageManager.tags := [];
     ImageManager.upload_time := Some (lit "2024-04-01T10:00:00");
     ImageManager.size := Some 4%Z;
     ImageManager.info := None |}.

Definition locked_store : ImageManager.state :=
  {| ImageManager.metadata := [ (lit "5a5a5a5a_map.png", locked) ];
     ImageManager.files :=
       [ (lit "/mnt/readonly/5a5a5a5a_map.png", MD5.bytes_of_string "PNG2") ];
     ImageManager.metadata_file := Missing;
     ImageManager.errors := [] |}.

Definition empty_store : ImageManager.state :=
  {| ImageManager.metadata := [];
     ImageManager.files := [];
     ImageManager.metadata_file := Missing;
     ImageManager.errors := [] |}.

(** A stand-in for Pillow: every non-empty file is a one-pixel image. *)
Definition pil_thumbnail (thumbnail_path : str) (b : MD5.bytes)
  : outcome MD5.bytes :=
  match b with
  | [] => Raise (lit "cannot identify image file")
  | _ :: _ => Ok b
  end.

Definition pil_info (b : MD5.bytes) : outcome ImageManager.image_info :=
  match b with
  | [] => Raise (lit "cannot identify image file")
  | _ :: _ =>
      Ok {| ImageManager.width := 1; ImageManager.height := 1;
            ImageManager.format := lit "PNG"; ImageManager.mode := lit "RGB";
            ImageManager.exif := [] |}
  end.

(** A stand-in for the operating system: a file whose name has more
    than 255 characters cannot be made, and a file below [/mnt/readonly/]
    cannot be removed. *)
Definition open_error (p : str) (f : PyDict.dict MD5.bytes) : option str :=
  if (255 <? List.length (OsPath.basename p))%nat then
    Some (lit "[Errno 36] File name too long: " ++ quote ++ p ++ quote)
  else None.

Definition remove_error (p : str) (f : PyDict.dict MD5.bytes) : option str :=
  if startswith p (lit "/mnt/readonly/") then
    Some (lit "[Errno 30] Read-only file system: " ++ quote ++ p ++ quote)
  else None.

Definition cat_upload : ImageManager.uploaded_file :=
  {| ImageManager.name := lit "cat.png";
     ImageManager.type := lit "image/png";
     ImageManager.getvalue := MD5.bytes_of_string "25302" |}.

(** An image under a name that is longer than a file name may be. *)
Definition long_upload : ImageManager.uploaded_file :=
  {| ImageManager.name := repeat 97%N 256 ++ lit ".png";
     ImageManager.type := lit "image/png";
     ImageManager.getvalue := MD5.bytes_of_string "PNG3" |}.

(** Other bytes under the same name, with the same first eight hex digits
    of the MD5 digest. *)
Definition dog_upload : ImageManager.uploaded_file :=
  {| ImageManager.name := lit "cat.png";
     ImageManager.type := lit "image/png";
     ImageManager.getvalue := MD5.bytes_of_string "82945" |}.

(** A photograph as a camera writes it: the EXIF block holds the version
    tag, whose value Pillow returns as [bytes]. *)
Definition camera_pil_info (b : MD5.bytes)
  : outcome ImageManager.image_info :=
  Ok {| ImageManager.width := 640; ImageManager.height := 480;
        ImageManager.format := lit "JPEG"; ImageManager.mode := lit "RGB";
        ImageManager.exif :=
          [ (KStr (lit "ExifVersion"),
             PBytes (MD5.bytes_of_string "0231")) ] |}.

Definition camera_upload : ImageManager.uploaded_file :=
  {| ImageManager.name := lit "IMG_0001.jpg";
     ImageManager.type := lit "image/jpeg";
     ImageManager.getvalue := MD5.bytes_of_string "JFIF" |}.

(** The store after the photograph is uploaded to [store]. *)
Definition camera_store : ImageManager.state :=
  snd (ImageManager.add_image (lit "data") pil_thumbnail camera_pil_info
         open_error camera_upload (lit "general") None
         (lit "2024-05-01T09:30:00") store).

(** A stand-in for the file decoders: UTF-8 text is decoded, no file is a
    PDF or a Word document. *)
Definition decode_utf8 (b : MD5.bytes) : outcome str :=
  Ok (utf8_decode (map Byte.to_N b)).

Definition pdf_pages (b : MD5.bytes) : outcome (list str) :=
  Raise (lit "EOF marker not found").

Definition docx_paragraphs (b : MD5.bytes) : outcome (list str) :=
  Raise (lit "File is not a zip file").

Definition insert_error (d : DocumentManager.Document) : option str := None.

(** A stand-in for [shutil.copy2]: a path that starts with [./] names the
    same file as the path without it, and a file cannot be copied onto
    itself. *)
Definition quote_same_file (src dst : str) : str :=
  quote ++ src ++ quote ++ lit " and " ++ quote ++ dst ++ quote
  ++ lit " are the same file".

Definition copy_error (src dst : str) (f : PyDict.dict MD5.bytes)
  : option str :=
  match DocumentManager.strip_prefix (lit "./") src with
  | Some rest => if eqb rest dst then Some (quote_same_file src dst) else None
  | None => None
  end.

Definition long_node : DocumentManager.node :=
  {| DocumentManager.node_text := repeat 97%N 400;
     DocumentManager.node_file_name := Some (lit "notes.txt");
     DocumentManager.node_category := Some (lit "work");
     DocumentManager.node_file_type := Some (lit ".txt");
     DocumentManager.node_file_size := Some 400%Z;
     DocumentManager.node_score := 9 # 10 |}.

Definition short_node : DocumentManager.node :=
  {| DocumentManager.node_text := lit "short text";
     DocumentManager.node_file_name := Some (lit "memo.md");
     DocumentManager.node_category := Some (lit "general");
     DocumentManager.node_file_type := Some (lit ".md");
     DocumentManager.node_file_size := Some 10%Z;
     DocumentManager.node_score := 1 # 2 |}.

(** A stand-in for the query engine: the best [top_k] of two chunks. *)
Definition query_engine (idx : list DocumentManager.Document) (top_k : nat)
    (query : str) : outcome (list DocumentManager.node) :=
  Ok (firstn top_k [long_node; short_node]).

(** A directory with a blank text file and a file that holds the text of
    an error message, and an index ready for use. *)
Definition library : DocumentManager.state :=
  {| DocumentManager.index := Some [];
     DocumentManager.files :=
       [ (lit "in/blank.txt", MD5.bytes_of_string "   ");
         (lit "in/notes.txt",
          MD5.bytes_of_string
            "文件读取错误: [Errno 2] No such file or directory: 'in/notes.txt'")
       ];
     DocumentManager.errors := [] |}.

(** The same directory when the index could not be initialised. *)
Definition unready_library : DocumentManager.state :=
  {| DocumentManager.index := None;
     DocumentManager.files := DocumentManager.files library;
     DocumentManager.errors := [] |}.

Definition empty_library : DocumentManager.state :=
  {| DocumentManager.index := Some [];
     DocumentManager.files := [];
     DocumentManager.errors := [] |}.

End Examples.

(** ** Further uploads and folders *)

Module MoreExamples.

(** An upload that Pillow cannot read. *)
Definition empty_upload : ImageManager.uploaded_file :=
  {| ImageManager.name := lit "empty.png";
     ImageManager.type := lit "image/png";
     ImageManager.getvalue := [] |}.

(** A directory with a file that is no PDF under a PDF name, and two
    notes of the same name in two folders. *)
Definition folders : DocumentManager.state :=
  {| DocumentManager.index := Some [];
     DocumentManager.files :=
       [ (lit "in/paper.pdf", MD5.bytes_of_string "not a pdf");
         (lit "a/notes.txt", MD5.bytes_of_string "first");
         (lit "b/notes.txt", MD5.bytes_of_string "second") ];
     DocumentManager.errors := [] |}.

(** A note that lies in the documents directory already and is named by
    another spelling of its path. *)
Definition filed : DocumentManager.state :=
  {| DocumentManager.index := Some [];
     DocumentManager.files :=
       [ (lit "./data/documents/notes.txt", MD5.bytes_of_string "filed") ];
     DocumentManager.errors := [] |}.

Definition memo_upload : ImageManager.uploaded_file :=
  {| ImageManager.name := lit "memo.txt";
     ImageManager.type := lit "text/plain";
     ImageManager.getvalue := MD5.bytes_of_string "hello" |}.

Definition engine : SearchEngine.state :=
  {| SearchEngine.doc_manager := Examples.library;
     SearchEngine.img_manager := Examples.store |}.

Definition empty_engine : SearchEngine.state :=
  {| SearchEngine.doc_manager := Examples.empty_library;
     SearchEngine.img_manager := Examples.empty_store |}.

End MoreExamples.

(** * Properties *)

(** ** Strings *)

Lemma eqb_eq (a b : str) : eqb a b = true <-> a = b.
Proof.
  revert b; induction a as [|x a IH]; intros [|y b]; simpl;
    try (split; [discriminate | discriminate]); try tauto.
  unfold char_eqb. rewrite andb_true_iff, N.eqb_eq, IH.
  split; [intros [-> ->]; reflexivity | intros H; inversion H; auto].
Qed.

Lemma eqb_refl (a : str) : eqb a a = true.
Proof. apply eqb_eq; reflexivity. Qed.

Lemma eqb_neq (a b : str) : eqb a b = false <-> a <> b.
Proof.
  rewrite <- eqb_eq. destruct (eqb a b); split; congruence.
Qed.

Lemma mem_In (x : str) (l : list str) : mem x l = true <-> In x l.
Proof.
  unfold mem. rewrite existsb_exists. split.
  - intros (y & Hy & E). apply eqb_eq in E. subst; assumption.
  - intros H. exists x. split; [assumption | apply eqb_refl].
Qed.

Lemma startswith_spec (s p : str) :
  startswith s p = true <-> exists t, s = p ++ t.
Proof.
  revert s; induction p as [|y p IH]; intros [|x s]; simpl.
  - split; [exists []; reflexivity | reflexivity].
  - split; [exists (x :: s); reflexivity | reflexivity].
  - split; [discriminate | intros (t & H); discriminate].
  - unfold char_eqb. rewrite andb_true_iff, N.eqb_eq, IH. split.
    + intros (-> & t & ->). exists t; reflexivity.
    + intros (t & H). inversion H; subst.
      split; [reflexivity | exists t; reflexivity].
Qed.

(** [q in s] holds exactly when [q] occurs in [s] as a contiguous run. *)
Lemma contains_spec (s q : str) :
  contains s q = true <-> exists pre post, s = pre ++ q ++ post.
Proof.
  induction s as [|x s IH].
  - cbn [contains]. rewrite orb_false_r, startswith_spec. split.
    + intros (t & H). exists [], t. exact H.
    + intros (pre & post & H). destruct pre; [exists post; exact H | discriminate].
  - cbn [contains]. rewrite orb_true_iff, startswith_spec, IH. split.
    + intros [(t & H) | (pre & post & H)].
      * exists [], t. exact H.
      * exists (x :: pre), post. rewrite H. reflexivity.
    + intros (pre & post & H). destruct pre as [|y pre].
      * left. exists post. exact H.
      * right. inversion H; subst. exists pre, post. reflexivity.
Qed.

Lemma compare_antisym (a b : str) :
  PyStr.compare b a = CompOpp (PyStr.compare a b).
Proof.
  revert b; induction a as [|x a IH]; intros [|y b]; simpl; try reflexivity.
  rewrite (N.compare_antisym x y).
  destruct (N.compare x y); simpl; auto.
Qed.

Lemma compare_refl (a : str) : PyStr.compare a a = Eq.
Proof.
  induction a as [|x a IH]; simpl; [reflexivity|].
  rewrite N.compare_refl. exact IH.
Qed.

Lemma compare_eq (a b : str) : PyStr.compare a b = Eq -> a = b.
Proof.
  revert b; induction a as [|x a IH]; intros [|y b]; simpl;
    try discriminate; try reflexivity.
  destruct (N.compare x y) eqn:E; try discriminate.
  apply N.compare_eq in E. intros H. f_equal; auto.
Qed.

Lemma compare_lt_trans (a b c : str) :
  PyStr.compare a b = Lt -> PyStr.compare b c = Lt -> PyStr.compare a c = Lt.
Proof.
  revert b c; induction a as [|x a IH]; intros [|y b] [|z c]; simpl;
    try discriminate; try reflexivity.
  destruct (N.compare x y) eqn:Exy; try discriminate;
    destruct (N.compare y z) eqn:Eyz; try discriminate; intros H1 H2.
  - apply N.compare_eq in Exy, Eyz. subst. rewrite N.compare_refl. eauto.
  - apply N.compare_eq in Exy. subst. rewrite Eyz. reflexivity.
  - apply N.compare_eq in Eyz. subst. rewrite Exy. reflexivity.
  - rewrite N.compare_lt_iff in Exy, Eyz.
    assert (E : N.compare x z = Lt) by (apply N.compare_lt_iff; lia).
    rewrite E. reflexivity.
Qed.

Lemma ltb_leb (a b : str) : ltb a b = true -> leb a b = true.
Proof.
  unfold ltb, leb. destruct (PyStr.compare a b); congruence.
Qed.

Lemma ltb_false_leb (a b : str) : ltb a b = false -> leb b a = true.
Proof.
  unfold ltb, leb. rewrite (compare_antisym a b).
  destruct (PyStr.compare a b); simpl; congruence.
Qed.

Lemma leb_refl (a : str) : leb a a = true.
Proof. unfold leb. rewrite compare_refl. reflexivity. Qed.

Lemma leb_trans (a b c : str) :
  leb a b = true -> leb b c = true -> leb a c = true.
Proof.
  unfold leb.
  destruct (PyStr.compare a b) eqn:Eab; try discriminate;
    destruct (PyStr.compare b c) eqn:Ebc; try discriminate; intros _ _.
  - apply compare_eq in Eab, Ebc. subst. rewrite compare_refl. reflexivity.
  - apply compare_eq in Eab. subst. rewrite Ebc. reflexivity.
  - apply compare_eq in Ebc. subst. rewrite Eab. reflexivity.
  - rewrite (compare_lt_trans _ _ _ Eab Ebc). reflexivity.
Qed.

(** ** The stable descending sort *)

Section SortFacts.

Variable A : Type.
Variable key : A -> str.

(** [a] may stand before [b] in a list ordered largest key first. *)
Definition desc (a b : A) : Prop := leb (key b) (key a) = true.

Lemma insert_desc_perm (x : A) (l : list A) :
  Permutation (x :: l) (insert_desc key x l).
Proof.
  induction l as [|y l IH]; simpl; [reflexivity|].
  destruct (ltb (key x) (key y)); [|reflexivity].
  rewrite perm_swap. constructor. exact IH.
Qed.

Lemma sort_desc_perm (l : list A) : Permutation l (sort_desc key l).
Proof.
  induction l as [|x l IH]; simpl; [constructor|].
  rewrite <- insert_desc_perm. constructor. exact IH.
Qed.

Lemma insert_desc_sorted (x : A) (l : list A) :
  StronglySorted desc l -> StronglySorted desc (insert_desc key x l).
Proof.
  induction 1 as [|y l Hs IH Hall]; simpl.
  - repeat constructor.
  - destruct (ltb (key x) (key y)) eqn:E.
    + constructor; [exact IH|].
      apply (Permutation_Forall (insert_desc_perm x l)).
      constructor; [|exact Hall].
      unfold desc. apply ltb_leb. exact E.
    + assert (Hxy : desc x y) by (apply ltb_false_leb; exact E).
      constructor; [constructor; assumption|].
      constructor; [exact Hxy|].
      eapply Forall_impl; [|exact Hall].
      intros z Hz. unfold desc in *. eapply leb_trans; eassumption.
Qed.

Lemma sort_desc_sorted (l : list A) : StronglySorted desc (sort_desc key l).
Proof.
  induction l as [|x l IH]; simpl; [constructor|].
  apply insert_desc_sorted. exact IH.
Qed.

Lemma sort_desc_In (l : list A) (x : A) : In x (sort_desc key l) <-> In x l.
Proof.
  split; apply Permutation_in;
    [symmetry|]; apply sort_desc_perm.
Qed.

End SortFacts.

(** ** Image search *)

Section ImageSearchFacts.

Import ImageManager.

Variable lower : str -> str.

(** The filters as the specification words them.  A category is requested
    when the argument is a non-empty string other than the wildcard; tags
    are requested when the list is non-empty; a text is requested when it
    is non-empty. *)
Definition category_selected (category : option str) (m : image_record)
  : Prop :=
  forall c, category = Some c -> c <> [] -> c <> wildcard ->
            ImageManager.category m = c.

Definition tags_selected (tags : option (list str)) (m : image_record)
  : Prop :=
  forall ts, tags = Some ts -> ts <> [] ->
    exists tag t, In tag ts /\ In t (ImageManager.tags m)
                  /\ lower tag = lower t.

Definition text_selected (query : str) (m : image_record) : Prop :=
  query <> [] ->
  exists pre post,
    lower (original_name m ++ space ++ PyStr.join space (ImageManager.tags m))
    = pre ++ lower query ++ post.

Lemma category_passes_spec (category : option str) (m : image_record) :
  category_passes category m = true <-> category_selected category m.
Proof.
  unfold category_passes, category_selected.
  destruct category as [[|x c]|].
  - split; [intros _ c E Hne; inversion E; subst; congruence | reflexivity].
  - rewrite negb_true_iff, andb_false_iff, !negb_false_iff, !eqb_eq. split.
    + intros [H|H] c' E _ Hw; inversion E; subst; congruence.
    + intros H. destruct (str_eq_dec (x :: c) wildcard) as [E|E]; [left; exact E|].
      right. apply H; [reflexivity | discriminate | exact E].
  - split; [intros _ c E; discriminate | reflexivity].
Qed.

Lemma tags_pass_spec (tags : option (list str)) (m : image_record) :
  tags_pass lower tags m = true <-> tags_selected tags m.
Proof.
  unfold tags_pass, tags_selected.
  destruct tags as [[|x ts]|].
  - split; [intros _ ts E Hne; inversion E; subst; congruence | reflexivity].
  - rewrite existsb_exists. split.
    + intros (tag & Hin & Hm) ts' E _. inversion E; subst.
      apply mem_In, in_map_iff in Hm. destruct Hm as (t & Ht & Hint).
      exists tag, t. auto.
    + intros H. destruct (H (x :: ts) eq_refl) as (tag & t & Hin & Hint & E);
        [discriminate|].
      exists tag. split; [exact Hin|].
      apply mem_In, in_map_iff. exists t. auto.
  - split; [intros _ ts E; discriminate | reflexivity].
Qed.

Lemma query_passes_spec (query : str) (m : image_record) :
  query_passes lower query m = true <-> text_selected query m.
Proof.
  unfold query_passes, text_selected.
  destruct query as [|x q].
  - split; [intros _ H; congruence | reflexivity].
  - rewrite contains_spec. split.
    + intros H _. exact H.
    + intros H. apply H. discriminate.
Qed.

Lemma search_step_spec query category tags s item res :
  In res (search_step lower query category tags s item) <->
  res = to_result (fst item) (snd item)
  /\ category_selected category (snd item)
  /\ tags_selected tags (snd item)
  /\ text_selected query (snd item)
  /\ path_exists (path (snd item)) s = true.
Proof.
  destruct item as [file_name m]. unfold search_step. cbn [fst snd].
  rewrite <- category_passes_spec, <- tags_pass_spec, <- query_passes_spec.
  destruct (category_passes category m); cbn [negb];
    [|split; [intros [] | intros (_ & H & _); discriminate]].
  destruct (tags_pass lower tags m); cbn [negb];
    [|split; [intros [] | intros (_ & _ & H & _); discriminate]].
  destruct (query_passes lower query m); cbn [negb];
    [|split; [intros [] | intros (_ & _ & _ & H & _); discriminate]].
  destruct (path_exists (path m) s); cbn [negb];
    [|split; [intros [] | intros (_ & _ & _ & _ & H); discriminate]].
  split.
  - intros [<-|[]]. auto.
  - intros (-> & _). left. reflexivity.
Qed.

(** The results are the records that pass the filters and whose image
    file exists, each turned into a result. *)
Lemma search_images_In query category tags s res :
  In res (fst (search_images lower query category tags s)) <->
  exists file_name m,
    In (file_name, m) (metadata s)
    /\ res = to_result file_name m
    /\ category_selected category m
    /\ tags_selected tags m
    /\ text_selected query m
    /\ path_exists (path m) s = true.
Proof.
  unfold search_images. cbn [fst]. rewrite sort_desc_In, in_flat_map. split.
  - intros ([file_name m] & Hin & H).
    apply search_step_spec in H. exists file_name, m. tauto.
  - intros (file_name & m & Hin & H).
    exists (file_name, m). split; [exact Hin|].
    apply search_step_spec. exact H.
Qed.

(** C1, as the code has it: [search_images] returns exactly the records
    that pass every requested filter and whose image file exists, largest
    upload time first, and leaves the manager (the mapping with its stale
    entries, the files, the metadata file) as it was.  A category is
    requested by a non-empty string other than the wildcard, tags by a
    non-empty list, a text by a non-empty string. *)
Theorem search_images_filters query category tags s :
  (forall res,
      In res (fst (search_images lower query category tags s)) <->
      exists file_name m,
        In (file_name, m) (metadata s)
        /\ res = to_result file_name m
        /\ category_selected category m
        /\ tags_selected tags m
        /\ text_selected query m
        /\ path_exists (path m) s = true)
  /\ StronglySorted (desc r_upload_time)
       (fst (search_images lower query category tags s))
  /\ List.length (fst (search_images lower query category tags s))
     = List.length
         (filter (fun item =>
                    category_passes category (snd item)
                    && tags_pass lower tags (snd item)
                    && query_passes lower query (snd item)
                    && path_exists (path (snd item)) s)
                 (metadata s))
  /\ snd (search_images lower query category tags s) = s.
Proof.
  split; [intros res; apply search_images_In|].
  unfold search_images. cbn [fst snd]. repeat split.
  - apply sort_desc_sorted.
  - rewrite <- (Permutation_length (sort_desc_perm r_upload_time _)).
    induction (metadata s) as [|[file_name m] l IH]; [reflexivity|].
    cbn [flat_map filter]. rewrite length_app, IH.
    unfold search_step. cbn [fst snd].
    destruct (category_passes category m), (tags_pass lower tags m),
      (query_passes lower query m), (path_exists (path m) s); reflexivity.
Qed.

End ImageSearchFacts.

(** ** Dictionaries *)

Section DictFacts.

Variable V : Type.
Implicit Types (d : PyDict.dict V) (k : str) (v : V).

Lemma get_In k d v : PyDict.get k d = Some v -> In (k, v) d.
Proof.
  induction d as [|[k' v'] d IH]; simpl; [discriminate|].
  destruct (eqb k k') eqn:E.
  - apply eqb_eq in E. intros H. inversion H; subst. left. reflexivity.
  - intros H. right. auto.
Qed.

Lemma get_None k d : PyDict.get k d = None <-> ~ In k (PyDict.keys d).
Proof.
  induction d as [|[k' v'] d IH]; simpl; [tauto|].
  destruct (eqb k k') eqn:E.
  - apply eqb_eq in E. subst. split; [discriminate | tauto].
  - apply eqb_neq in E. rewrite IH. split; [intros H [H'|H']; congruence | tauto].
Qed.

Lemma has_key_In k d : PyDict.has_key k d = true <-> In k (PyDict.keys d).
Proof.
  unfold PyDict.has_key. destruct (PyDict.get k d) eqn:E.
  - split; [intros _ | reflexivity].
    apply get_In in E. apply (in_map fst) in E. exact E.
  - apply get_None in E. split; [discriminate | tauto].
Qed.

Lemma get_set_same k v d : PyDict.get k (PyDict.set k v d) = Some v.
Proof.
  induction d as [|[k' v'] d IH]; simpl.
  - rewrite eqb_refl. reflexivity.
  - destruct (eqb k k') eqn:E; simpl; rewrite E; [reflexivity | exact IH].
Qed.

Lemma keys_set k v d :
  PyDict.keys (PyDict.set k v d)
  = if PyDict.has_key k d then PyDict.keys d else PyDict.keys d ++ [k].
Proof.
  unfold PyDict.has_key.
  induction d as [|[k' v'] d IH]; simpl; [reflexivity|].
  destruct (eqb k k') eqn:E; simpl; [reflexivity|].
  rewrite IH. destruct (PyDict.get k d); reflexivity.
Qed.

Lemma wf_set k v d : PyDict.wf d -> PyDict.wf (PyDict.set k v d).
Proof.
  unfold PyDict.wf. rewrite keys_set. intros H.
  destruct (PyDict.has_key k d) eqn:E; [exact H|].
  apply NoDup_app; [exact H | repeat constructor; intros [] |].
  intros x Hx [<-|[]].
  apply has_key_In in Hx. congruence.
Qed.

Lemma keys_del k d :
  PyDict.keys (PyDict.del k d)
  = filter (fun k' => negb (eqb k k')) (PyDict.keys d).
Proof.
  unfold PyDict.keys, PyDict.del.
  induction d as [|[k' v'] d IH]; simpl; [reflexivity|].
  destruct (eqb k k'); simpl; rewrite IH; reflexivity.
Qed.

Lemma del_not_In k d : ~ In k (PyDict.keys (PyDict.del k d)).
Proof.
  rewrite keys_del, filter_In, eqb_refl. intros [_ H]. discriminate.
Qed.

Lemma get_del_same k d : PyDict.get k (PyDict.del k d) = None.
Proof. apply get_None, del_not_In. Qed.

Lemma get_del_other k k' d :
  k <> k' -> PyDict.get k' (PyDict.del k d) = PyDict.get k' d.
Proof.
  intros Hne. induction d as [|[k0 v0] d IH]; simpl; [reflexivity|].
  destruct (eqb k k0) eqn:E; simpl.
  - apply eqb_eq in E. subst k0.
    assert (E' : eqb k' k = false) by (apply eqb_neq; congruence).
    rewrite E'. exact IH.
  - destruct (eqb k' k0); [reflexivity | exact IH].
Qed.

Lemma wf_del k d : PyDict.wf d -> PyDict.wf (PyDict.del k d).
Proof.
  unfold PyDict.wf. rewrite keys_del. apply NoDup_filter.
Qed.

Lemma wf_count k d :
  PyDict.wf d -> In k (PyDict.keys d) ->
  count_occ str_eq_dec (PyDict.keys d) k = 1%nat.
Proof.
  intros Hwf Hin.
  pose proof (proj1 (NoDup_count_occ str_eq_dec _) Hwf k) as Hle.
  pose proof (proj1 (count_occ_In str_eq_dec _ k) Hin) as Hgt.
  lia.
Qed.

End DictFacts.

(** C1: a requested category is not always matched by equality: asked for the
    category [wildcard], the search returns a record whose category is
    another string. *)
Lemma search_images_wildcard_counterexample :
  exists file_name m res,
    In (file_name, m) (ImageManager.metadata Examples.store)
    /\ res = ImageManager.to_result file_name m
    /\ In res (fst (ImageManager.search_images ascii_lower []
                      (Some wildcard) None Examples.store))
    /\ ImageManager.category m <> wildcard.
Proof.
  exists (lit "0a1b2c3d_Beach.PNG"), Examples.beach,
    (ImageManager.to_result (lit "0a1b2c3d_Beach.PNG") Examples.beach).
  repeat split.
  - left. reflexivity.
  - vm_compute. right. left. reflexivity.
  - vm_compute. discriminate.
Qed.

(** ** File identifiers *)

Lemma md5_hexdigest_length (b : MD5.bytes) :
  List.length (MD5.hexdigest b) = 32%nat.
Proof.
  unfold MD5.hexdigest, MD5.digest.
  destruct (MD5.digest_regs b) as [[[a b'] c] d]. reflexivity.
Qed.

Lemma app_inv_same_length (A : Type) (a b x y : list A) :
  List.length a = List.length b -> a ++ x = b ++ y -> a = b /\ x = y.
Proof.
  revert b; induction a as [|h a IH]; intros [|h' b]; simpl;
    try discriminate; [auto|].
  intros Hl H. inversion H; subst. injection Hl as Hl.
  destruct (IH b Hl H2) as [-> ->]. auto.
Qed.

Lemma file_hash_length (b : MD5.bytes) :
  List.length (firstn 8 (MD5.hexdigest b)) = 8%nat.
Proof.
  rewrite length_firstn, md5_hexdigest_length. reflexivity.
Qed.

(** [hashlib.md5] on the test suite of RFC 1321. *)
Lemma md5_test_suite :
  MD5.hexdigest (MD5.bytes_of_string "")
  = lit "d41d8cd98f00b204e9800998ecf8427e"
  /\ MD5.hexdigest (MD5.bytes_of_string "a")
     = lit "0cc175b9c0f1b6a831c399e269772661"
  /\ MD5.hexdigest (MD5.bytes_of_string "abc")
     = lit "900150983cd24fb0d6963f7d28e17f72"
  /\ MD5.hexdigest (MD5.bytes_of_string "message digest")
     = lit "f96b697d7cb7938d525a2f31aaf161d0"
  /\ MD5.hexdigest
       (MD5.bytes_of_string
          "12345678901234567890123456789012345678901234567890123456789012345678901234567890")
     = lit "57edf4a22be3c955ac49da2e2107b67a".
Proof. repeat split; vm_compute; reflexivity. Qed.

(** The file id is a function of the content and the original name
    alone, and two uploads get the same id exactly when their names agree
    and the first eight hex digits of the MD5 digests of their contents
    agree. *)
Lemma file_id_deterministic (u1 u2 : ImageManager.uploaded_file) :
  (ImageManager.getvalue u1 = ImageManager.getvalue u2
   /\ ImageManager.name u1 = ImageManager.name u2 ->
   ImageManager.file_id u1 = ImageManager.file_id u2)
  /\ (ImageManager.file_id u1 = ImageManager.file_id u2 <->
      firstn 8 (MD5.hexdigest (ImageManager.getvalue u1))
      = firstn 8 (MD5.hexdigest (ImageManager.getvalue u2))
      /\ ImageManager.name u1 = ImageManager.name u2).
Proof.
  unfold ImageManager.file_id. split.
  - intros [-> ->]. reflexivity.
  - split.
    + intros H. apply app_inv_same_length in H.
      * destruct H as [H1 H2]. split; [exact H1|].
        inversion H2. reflexivity.
      * rewrite !file_hash_length. reflexivity.
    + intros [-> ->]. reflexivity.
Qed.

(** The bytes [25302] and [82945] differ, and under one name they get
    one file id: the MD5 digests agree in their first eight hex digits. *)
Lemma file_id_collision :
  ImageManager.getvalue Examples.cat_upload
  <> ImageManager.getvalue Examples.dog_upload
  /\ ImageManager.file_id Examples.cat_upload = lit "7b763dcb_cat.png"
  /\ ImageManager.file_id Examples.dog_upload = lit "7b763dcb_cat.png"
  /\ MD5.hexdigest (ImageManager.getvalue Examples.cat_upload)
     <> MD5.hexdigest (ImageManager.getvalue Examples.dog_upload).
Proof.
  split; [discriminate|].
  split; [vm_compute; reflexivity|].
  split; [vm_compute; reflexivity|].
  vm_compute. discriminate.
Qed.

(** ** Uploading and deleting images *)

Lemma get_del_None (V : Type) k k' (d : PyDict.dict V) :
  PyDict.get k d = None -> PyDict.get k (PyDict.del k' d) = None.
Proof.
  rewrite !get_None, keys_del, filter_In. tauto.
Qed.

Lemma path_exists_without p s :
  ImageManager.path_exists p (ImageManager.without_file p s) = false.
Proof.
  unfold ImageManager.path_exists, ImageManager.without_file, PyDict.has_key.
  cbn.
  rewrite get_del_same. reflexivity.
Qed.

Lemma path_exists_without_other p q s :
  ImageManager.path_exists p s = false ->
  ImageManager.path_exists p (ImageManager.without_file q s) = false.
Proof.
  unfold ImageManager.path_exists, ImageManager.without_file, PyDict.has_key.
  cbn.
  destruct (PyDict.get p (ImageManager.files s)) eqn:E; [discriminate|].
  rewrite (get_del_None _ q _ E). reflexivity.
Qed.

Section ImageStoreFacts.

Import ImageManager.

Variable data_dir : str.
Variable pil_thumbnail : str -> MD5.bytes -> outcome MD5.bytes.
Variable pil_info : MD5.bytes -> outcome image_info.
Variable open_error : str -> PyDict.dict MD5.bytes -> option str.
Variable remove_error : str -> PyDict.dict MD5.bytes -> option str.

Local Abbreviation add_image :=
  (add_image data_dir pil_thumbnail pil_info open_error).
Local Abbreviation delete_image :=
  (delete_image data_dir open_error remove_error).
Local Abbreviation _save_metadata := (_save_metadata data_dir open_error).

Lemma save_metadata_metadata s : metadata (_save_metadata s) = metadata s.
Proof.
  unfold ImageManager._save_metadata.
  destruct (open_error _ _); [reflexivity|].
  destruct (dumps (metadata_to_py (metadata s))); reflexivity.
Qed.

Lemma save_metadata_files s : files (_save_metadata s) = files s.
Proof.
  unfold ImageManager._save_metadata.
  destruct (open_error _ _); [reflexivity|].
  destruct (dumps (metadata_to_py (metadata s))); reflexivity.
Qed.

Lemma generate_thumbnail_metadata p s :
  metadata (snd (_generate_thumbnail data_dir pil_thumbnail p s)) = metadata s.
Proof.
  unfold _generate_thumbnail.
  destruct (OsPath.splitext (OsPath.basename p)) as [n e].
  destruct (PyDict.get p (files s)) as [b|]; [|reflexivity].
  destruct (pil_thumbnail _ b); reflexivity.
Qed.

Lemma extract_image_info_metadata p s :
  metadata (snd (_extract_image_info pil_info p s)) = metadata s.
Proof.
  unfold _extract_image_info.
  destruct (PyDict.get p (files s)) as [b|]; [|reflexivity].
  destruct (pil_info b); reflexivity.
Qed.

(** An upload is accepted exactly when its type is one of the image types
    and its image file can be written. *)
Lemma add_image_true u category tags now s :
  fst (add_image u category tags now s) = true
  <-> mem (type u) image_types = true
      /\ open_error (OsPath.join (images_dir data_dir) (file_id u)) (files s)
         = None.
Proof.
  unfold ImageManager.add_image, open_write.
  destruct (mem (type u) image_types); cbn [negb];
    [|split; [discriminate | intros [H _]; discriminate H]].
  destruct (open_error _ (files s));
    [split; [discriminate | intros [_ H]; discriminate H]|].
  destruct (_generate_thumbnail _ _ _ _) as [t s2].
  destruct (_extract_image_info _ _ s2) as [i s3].
  split; auto.
Qed.

(** An upload that is not accepted stores nothing. *)
Lemma add_image_false u category tags now s :
  fst (add_image u category tags now s) = false ->
  metadata (snd (add_image u category tags now s)) = metadata s
  /\ files (snd (add_image u category tags now s)) = files s
  /\ metadata_file (snd (add_image u category tags now s)) = metadata_file s.
Proof.
  unfold ImageManager.add_image, open_write.
  destruct (mem (type u) image_types); cbn [negb]; [|auto].
  destruct (open_error _ (files s)); [auto|].
  destruct (_generate_thumbnail _ _ _ _) as [t s2].
  destruct (_extract_image_info _ _ s2) as [i s3].
  discriminate.
Qed.

(** An accepted upload stores one record under its file id. *)
Lemma add_image_stores u category tags now s :
  fst (add_image u category tags now s) = true ->
  exists m,
    metadata (snd (add_image u category tags now s))
    = PyDict.set (file_id u) m (metadata s)
    /\ original_name m = name u
    /\ ImageManager.category m = category
    /\ upload_time m = Some now.
Proof.
  unfold ImageManager.add_image, open_write.
  destruct (mem (type u) image_types); cbn [negb]; [|discriminate].
  destruct (open_error _ (files s)); [discriminate|].
  set (s1 := write_file _ _ s).
  pose proof (generate_thumbnail_metadata
                (OsPath.join (images_dir data_dir) (file_id u)) s1) as Ht.
  destruct (_generate_thumbnail _ _ _ s1) as [t s2]. cbn [snd] in Ht.
  pose proof (extract_image_info_metadata
                (OsPath.join (images_dir data_dir) (file_id u)) s2) as Hi.
  destruct (_extract_image_info _ _ s2) as [i s3]. cbn [snd] in Hi.
  cbn [fst snd]. intros _.
  eexists. rewrite save_metadata_metadata. cbn [metadata set_metadata].
  rewrite Hi, Ht. subst s1. cbn [metadata write_file set_files].
  split; [reflexivity|]. cbn. auto.
Qed.

(** The mapping stays a dictionary: uploads and deletions keep its keys
    distinct. *)
Lemma add_image_wf u category tags now s :
  PyDict.wf (metadata s) ->
  PyDict.wf (metadata (snd (add_image u category tags now s))).
Proof.
  intros Hwf. destruct (fst (add_image u category tags now s)) eqn:Hok.
  - destruct (add_image_stores u category tags now s Hok)
      as (m & -> & _).
    apply wf_set. exact Hwf.
  - destruct (add_image_false u category tags now s Hok) as (-> & _).
    exact Hwf.
Qed.

(** The two removals leave the mapping alone. *)
Lemma remove_image_file_metadata m s s1 :
  remove_image_file remove_error m s = Ok s1 -> metadata s1 = metadata s.
Proof.
  unfold remove_image_file, os_remove.
  destruct (path_exists (path m) s);
    [destruct (remove_error _ _); [discriminate|]|];
    intros H; inversion H; reflexivity.
Qed.

Lemma remove_thumbnail_metadata m s s1 :
  remove_thumbnail remove_error m s = Ok s1 -> metadata s1 = metadata s.
Proof.
  unfold remove_thumbnail, os_remove.
  destruct (thumbnail_path m) as [t|];
    [destruct (path_exists t s);
       [destruct (remove_error _ _); [discriminate|]|]|];
    intros H; inversion H; reflexivity.
Qed.

(** What a deletion makes of the mapping: without the entry when it
    returns [True], as it was when it returns [False]. *)
Lemma delete_image_metadata file_name s :
  metadata (snd (delete_image file_name s))
  = if fst (delete_image file_name s) then PyDict.del file_name (metadata s)
    else metadata s.
Proof.
  unfold ImageManager.delete_image.
  destruct (PyDict.get file_name (metadata s)) as [m|]; [|reflexivity].
  destruct (remove_image_file remove_error m s) as [s1|e] eqn:E1;
    [|reflexivity].
  apply remove_image_file_metadata in E1.
  destruct (remove_thumbnail remove_error m s1) as [s2|e] eqn:E2.
  - apply remove_thumbnail_metadata in E2. cbn [fst snd].
    rewrite save_metadata_metadata. cbn [metadata set_metadata].
    rewrite E2, E1. reflexivity.
  - cbn [fst snd st_error metadata]. exact E1.
Qed.

Lemma delete_image_wf file_name s :
  PyDict.wf (metadata s) ->
  PyDict.wf (metadata (snd (delete_image file_name s))).
Proof.
  intros Hwf. rewrite delete_image_metadata.
  destruct (fst (delete_image file_name s)); [apply wf_del|]; exact Hwf.
Qed.


End ImageStoreFacts.

(** ** The JSON codec *)

Lemma dumps_PList_cons x r :
  dumps (PList (x :: r))
  = match dumps x, dumps (PList r) with
    | Some j, Some (JArr js) => Some (JArr (j :: js))
    | _, _ => None
    end.
Proof.
  simpl. destruct (dumps x); [|reflexivity].
  match goal with
  | |- option_map _ (match ?e with Some _ => _ | None => _ end) = _ =>
      destruct e
  end; reflexivity.
Qed.

Lemma dumps_PDict_cons k x r :
  dumps (PDict ((k, x) :: r))
  = match dumps x, dumps (PDict r) with
    | Some j, Some (JObj js) => Some (JObj ((key_text k, j) :: js))
    | _, _ => None
    end.
Proof.
  simpl. destruct (dumps x); [|reflexivity].
  match goal with
  | |- option_map _ (match ?e with Some _ => _ | None => _ end) = _ =>
      destruct e
  end; reflexivity.
Qed.

Lemma dumps_PDict_shape d j :
  dumps (PDict d) = Some j ->
  exists o, j = JObj o /\ map fst o = map (fun kv => key_text (fst kv)) d.
Proof.
  revert j; induction d as [|[k x] d IH]; intros j.
  - simpl. intros H. inversion H. exists []. auto.
  - rewrite dumps_PDict_cons.
    destruct (dumps x) as [jx|]; [|discriminate].
    destruct (dumps (PDict d)) as [jd|]; [|discriminate].
    destruct (IH jd eq_refl) as (o & -> & Ho).
    intros H. inversion H. exists ((key_text k, jx) :: o).
    split; [reflexivity|]. simpl. rewrite Ho. reflexivity.
Qed.

(** The members of an object are entered into the dict one by one. *)
Definition load_members (acc : list (pykey * pyval)) (o : list (str * json))
  : list (pykey * pyval) :=
  fold_left (fun acc kx => dict_set (KStr (fst kx)) (loads (snd kx)) acc)
            o acc.

Lemma loads_JObj o : loads (JObj o) = PDict (load_members [] o).
Proof.
  simpl. f_equal. unfold load_members. generalize (@nil (pykey * pyval)).
  induction o as [|[k x] o IH]; intros acc; [reflexivity|].
  cbn [fold_left fst snd]. rewrite <- IH. reflexivity.
Qed.

Lemma loads_JArr l : loads (JArr l) = PList (map loads l).
Proof.
  reflexivity.
Qed.

Lemma dict_set_keys k v d k' :
  In k' (map fst (dict_set k v d)) -> k' = k \/ In k' (map fst d).
Proof.
  induction d as [|[k0 v0] d IH]; simpl.
  - intros [<-|[]]. auto.
  - destruct (key_eqb k k0); simpl; intuition.
Qed.

Lemma load_members_keys o acc k :
  In k (map fst (load_members acc o)) ->
  In k (map fst acc) \/ exists s, k = KStr s /\ In s (map fst o).
Proof.
  unfold load_members. revert acc; induction o as [|[s x] o IH]; intros acc.
  - simpl. auto.
  - cbn [fold_left fst snd]. intros H. apply IH in H.
    destruct H as [H | (s' & -> & H)].
    + apply dict_set_keys in H. destruct H as [-> | H]; [|auto].
      right. exists s. simpl. auto.
    + right. exists s'. simpl. auto.
Qed.

(** ** The metadata file *)

Section MetadataFileFacts.

Import ImageManager.

Lemma metadata_to_py_keys (m : PyDict.dict image_record) j :
  dumps (metadata_to_py m) = Some j ->
  exists o, j = JObj o /\ map fst o = PyDict.keys m.
Proof.
  intros H. apply dumps_PDict_shape in H. destruct H as (o & -> & Ho).
  exists o. split; [reflexivity|].
  rewrite Ho, map_map. reflexivity.
Qed.

(** Whatever a save that could open the metadata file leaves in it, a
    load finds no key in it that the mapping did not have. *)
Lemma load_after_save_keys data_dir open_error s d k :
  open_error (metadata_path data_dir) (files s) = None ->
  _load_metadata (_save_metadata data_dir open_error s) = PDict d ->
  In (KStr k) (map fst d) -> In k (PyDict.keys (metadata s)).
Proof.
  intros Hop. unfold _save_metadata, _load_metadata. rewrite Hop.
  destruct (dumps (metadata_to_py (metadata s))) as [j|] eqn:E; cbn.
  - apply metadata_to_py_keys in E. destruct E as (o & -> & Ho).
    rewrite loads_JObj. intros H. inversion H; subst d. intros Hin.
    apply load_members_keys in Hin.
    destruct Hin as [[] | (s' & Hs & Hin)].
    inversion Hs; subst. rewrite <- Ho. exact Hin.
  - intros H. inversion H; subst d. intros [].
Qed.


End MetadataFileFacts.

Section DeleteFacts.

Import ImageManager.

Lemma search_images_file_names lower query category tags s res :
  In res (fst (search_images lower query category tags s)) ->
  In (r_file_name res) (PyDict.keys (metadata s)).
Proof.
  intros H. apply search_images_In in H.
  destruct H as (file_name & m & Hin & -> & _).
  apply (in_map fst) in Hin. exact Hin.
Qed.

Variable data_dir : str.
Variable open_error : str -> PyDict.dict MD5.bytes -> option str.
Variable remove_error : str -> PyDict.dict MD5.bytes -> option str.

Local Abbreviation delete_image :=
  (delete_image data_dir open_error remove_error).
Local Abbreviation _save_metadata := (_save_metadata data_dir open_error).

Lemma remove_image_file_gone m s s1 :
  remove_image_file remove_error m s = Ok s1 ->
  path_exists (path m) s1 = false.
Proof.
  unfold remove_image_file, os_remove.
  destruct (path_exists (path m) s) eqn:E.
  - destruct (remove_error _ _); [discriminate|].
    intros H. inversion H. apply path_exists_without.
  - intros H. inversion H; subst. exact E.
Qed.

Lemma remove_thumbnail_gone m s s1 :
  remove_thumbnail remove_error m s = Ok s1 ->
  (forall t, thumbnail_path m = Some t -> path_exists t s1 = false)
  /\ (forall p, path_exists p s = false -> path_exists p s1 = false).
Proof.
  unfold remove_thumbnail, os_remove.
  destruct (thumbnail_path m) as [t|].
  - destruct (path_exists t s) eqn:E.
    + destruct (remove_error _ _); [discriminate|].
      intros H. inversion H. split.
      * intros t' Ht. inversion Ht; subst. apply path_exists_without.
      * intros p. apply path_exists_without_other.
    + intros H. inversion H; subst. split; [|auto].
      intros t' Ht. inversion Ht; subst. exact E.
  - intros H. inversion H; subst. split; [discriminate | auto].
Qed.

(** The verdict of a deletion of a stored record: whether one of the two
    removals raised. *)
Lemma delete_image_cases file_name s m :
  PyDict.get file_name (metadata s) = Some m ->
  (exists s1 s2,
      remove_image_file remove_error m s = Ok s1
      /\ remove_thumbnail remove_error m s1 = Ok s2
      /\ delete_image file_name s
         = (true,
            _save_metadata
              (set_metadata (PyDict.del file_name (metadata s2)) s2)))
  \/ (exists e,
         remove_image_file remove_error m s = Raise e
         /\ delete_image file_name s
            = (false, st_error (msg_delete_image_failed ++ e) s))
  \/ (exists s1 e,
         remove_image_file remove_error m s = Ok s1
         /\ remove_thumbnail remove_error m s1 = Raise e
         /\ delete_image file_name s
            = (false, st_error (msg_delete_image_failed ++ e) s1)).
Proof.
  intros Hm. unfold ImageManager.delete_image. rewrite Hm.
  destruct (remove_image_file remove_error m s) as [s1|e] eqn:E1.
  - destruct (remove_thumbnail remove_error m s1) as [s2|e] eqn:E2.
    + left. exists s1, s2. auto.
    + right. right. exists s1, e. auto.
  - right. left. exists e. auto.
Qed.

(** C7, as the code has it.  For a stored file id: when [delete_image]
    returns [True], the entry is gone from the mapping (the other entries
    stay), the image file and the thumbnail file are gone, no search
    returns the id, and the entry is gone from what a later load of the
    metadata file returns, provided the file could be opened for the
    save; it returns [True] whenever the operating system lets the two
    files be removed; and when it returns [False], a removal raised: the
    failure is reported and the entry is still in the mapping.  Deleting
    an id that is not stored returns [False] and changes nothing. *)
Theorem delete_image_spec file_name s :
  (forall m,
      PyDict.get file_name (metadata s) = Some m ->
      (fst (delete_image file_name s) = true ->
       PyDict.get file_name (metadata (snd (delete_image file_name s)))
       = None
       /\ (forall k, k <> file_name ->
             PyDict.get k (metadata (snd (delete_image file_name s)))
             = PyDict.get k (metadata s))
       /\ (open_error (metadata_path data_dir)
             (files (snd (delete_image file_name s))) = None ->
           forall d,
             _load_metadata (snd (delete_image file_name s)) = PDict d ->
             ~ In (KStr file_name) (map fst d))
       /\ path_exists (path m) (snd (delete_image file_name s)) = false
       /\ (forall t, thumbnail_path m = Some t ->
             path_exists t (snd (delete_image file_name s)) = false)
       /\ (forall lower query category tags res,
             In res (fst (search_images lower query category tags
                            (snd (delete_image file_name s)))) ->
             r_file_name res <> file_name))
      /\ ((forall f, remove_error (path m) f = None) ->
          (forall t f, thumbnail_path m = Some t -> remove_error t f = None) ->
          fst (delete_image file_name s) = true)
      /\ (fst (delete_image file_name s) = false ->
          metadata (snd (delete_image file_name s)) = metadata s
          /\ metadata_file (snd (delete_image file_name s)) = metadata_file s
          /\ exists p e,
               (p = path m \/ thumbnail_path m = Some p)
               /\ remove_error p (files (snd (delete_image file_name s)))
                  = Some e
               /\ errors (snd (delete_image file_name s))
                  = errors s ++ [msg_delete_image_failed ++ e]))
  /\ (PyDict.get file_name (metadata s) = None ->
      delete_image file_name s = (false, s)).
Proof.
  split.
  - intros m Hm.
    destruct (delete_image_cases file_name s Hm)
      as [(s1 & s2 & E1 & E2 & ->) | [(e & E1 & ->) | (s1 & e & E1 & E2 & ->)]];
      cbn [fst snd].
    + pose proof (remove_image_file_metadata _ _ _ E1) as Hm1.
      pose proof (remove_thumbnail_metadata _ _ _ E2) as Hm2.
      pose proof (remove_image_file_gone _ _ E1) as Hp1.
      destruct (remove_thumbnail_gone _ _ E2) as [Ht2 Hp2].
      split; [intros _ | split; [auto | discriminate]].
      assert (Hk : ~ In file_name
                     (PyDict.keys (metadata (_save_metadata
                        (set_metadata (PyDict.del file_name (metadata s2))
                           s2))))).
      { rewrite save_metadata_metadata. cbn. apply del_not_In. }
      split; [apply get_None; exact Hk|].
      split.
      { intros k Hne. rewrite save_metadata_metadata. cbn.
        rewrite Hm2, Hm1. apply get_del_other. congruence. }
      split.
      { rewrite save_metadata_files. intros Hop d Hd Hin.
        eapply load_after_save_keys in Hin; [|exact Hop|exact Hd].
        cbn in Hin. apply del_not_In in Hin. exact Hin. }
      unfold path_exists in *. rewrite save_metadata_files.
      cbn [files set_metadata].
      split; [apply Hp2; exact Hp1|]. split; [exact Ht2|].
      intros lower query category tags res Hin Heq.
      apply search_images_file_names in Hin. rewrite Heq in Hin. tauto.
    + split; [discriminate|]. split.
      * intros Hp _. exfalso. revert E1.
        unfold remove_image_file, os_remove.
        destruct (path_exists (path m) s); [|discriminate].
        rewrite Hp. discriminate.
      * intros _. split; [reflexivity|]. split; [reflexivity|].
        exists (path m), e. split; [left; reflexivity|].
        split; [|reflexivity]. cbn [files st_error]. revert E1.
        unfold remove_image_file, os_remove.
        destruct (path_exists (path m) s); [|discriminate].
        destruct (remove_error (path m) (files s)); [|discriminate].
        intros H. inversion H. reflexivity.
    + pose proof (remove_image_file_metadata _ _ _ E1) as Hm1.
      split; [discriminate|]. split.
      * intros _ Ht. exfalso. revert E2.
        unfold remove_thumbnail, os_remove.
        destruct (thumbnail_path m) as [t|]; [|discriminate].
        destruct (path_exists t s1); [|discriminate].
        rewrite (Ht t _ eq_refl). discriminate.
      * intros _. split; [exact Hm1|].
        assert (Hf1 : metadata_file s1 = metadata_file s
                      /\ errors s1 = errors s).
        { revert E1. unfold remove_image_file, os_remove.
          destruct (path_exists (path m) s);
            [destruct (remove_error _ _); [discriminate|]|];
            intros H; inversion H; split; reflexivity. }
        destruct Hf1 as [Hf1 He1].
        split; [exact Hf1|]. revert E2.
        unfold remove_thumbnail, os_remove.
        destruct (thumbnail_path m) as [t|]; [|discriminate].
        destruct (path_exists t s1); [|discriminate].
        destruct (remove_error t (files s1)) as [e'|] eqn:Er; [|discriminate].
        intros H. inversion H; subst e'.
        exists t, e. split; [right; reflexivity|].
        split; [exact Er|]. cbn [errors st_error]. rewrite He1. reflexivity.
  - intros H. unfold ImageManager.delete_image. rewrite H. reflexivity.
Qed.

End DeleteFacts.

(** Closed instances on the example store. *)

Ltac nodup_closed :=
  vm_compute;
  repeat (constructor;
          [ let H := fresh in
            intros H; simpl in H;
            repeat (destruct H as [H|H]; [discriminate|]); exact H | ]);
  constructor.

Lemma example_store_wf : PyDict.wf (ImageManager.metadata Examples.store).
Proof. unfold PyDict.wf. nodup_closed. Qed.

Local Abbreviation example_add_image :=
  (ImageManager.add_image (lit "data") Examples.pil_thumbnail
     Examples.pil_info Examples.open_error).

Local Abbreviation example_delete_image :=
  (ImageManager.delete_image (lit "data") Examples.open_error
     Examples.remove_error).



Lemma delete_image_spec_witness :
  (fst (example_delete_image (lit "0a1b2c3d_Beach.PNG") Examples.store) = true
   /\ ImageManager.path_exists (ImageManager.path Examples.beach)
        (snd (example_delete_image (lit "0a1b2c3d_Beach.PNG")
                Examples.store)) = false
   /\ ImageManager.path_exists
        (lit "data/thumbnails/0a1b2c3d_Beach_thumb.PNG")
        (snd (example_delete_image (lit "0a1b2c3d_Beach.PNG")
                Examples.store)) = false)
  /\ ImageManager.metadata
       (snd (example_delete_image (lit "5a5a5a5a_map.png")
               Examples.locked_store))
     = ImageManager.metadata Examples.locked_store
  /\ example_delete_image (lit "ffffffff_none.png") Examples.store
     = (false, Examples.store).
Proof.
  split; [|split].
  - pose proof (proj1 (@delete_image_spec (lit "data")
                         Examples.open_error Examples.remove_error
                         (lit "0a1b2c3d_Beach.PNG") Examples.store)
                  Examples.beach eq_refl) as H.
    destruct H as (Hgone & _ & _).
    assert (Hok : fst (example_delete_image (lit "0a1b2c3d_Beach.PNG")
                         Examples.store) = true)
      by (vm_compute; reflexivity).
    destruct (Hgone Hok) as (_ & _ & _ & Hp & Ht & _).
    split; [exact Hok|]. split; [exact Hp|]. apply Ht. reflexivity.
  - pose proof (proj1 (@delete_image_spec (lit "data")
                         Examples.open_error Examples.remove_error
                         (lit "5a5a5a5a_map.png") Examples.locked_store)
                  Examples.locked eq_refl) as H.
    destruct H as (_ & _ & Hfail).
    assert (Hno : fst (example_delete_image (lit "5a5a5a5a_map.png")
                         Examples.locked_store) = false)
      by (vm_compute; reflexivity).
    destruct (Hfail Hno) as (Hm & _). exact Hm.
  - pose proof (proj2 (@delete_image_spec (lit "data")
                         Examples.open_error Examples.remove_error
                         (lit "ffffffff_none.png") Examples.store)) as H.
    apply H. reflexivity.
Defined.

(** C7 does not hold of every stored id: the image file of the record
    [locked] cannot be removed, and its deletion returns [False] with the
    entry and the file still there. *)
Lemma delete_image_locked_counterexample :
  PyDict.get (lit "5a5a5a5a_map.png")
    (ImageManager.metadata Examples.locked_store) = Some Examples.locked
  /\ fst (example_delete_image (lit "5a5a5a5a_map.png")
            Examples.locked_store) = false
  /\ PyDict.get (lit "5a5a5a5a_map.png")
       (ImageManager.metadata
          (snd (example_delete_image (lit "5a5a5a5a_map.png")
                  Examples.locked_store)))
     = Some Examples.locked
  /\ ImageManager.path_exists (ImageManager.path Examples.locked)
       (snd (example_delete_image (lit "5a5a5a5a_map.png")
               Examples.locked_store)) = true.
Proof. vm_compute. repeat split; reflexivity. Qed.

(** ** The category wildcard *)

Section WildcardFacts.

Variable lower : str -> str.
Variable query_engine :
  list DocumentManager.Document -> nat -> str
  -> outcome (list DocumentManager.node).

Lemma search_documents_category c query top_k d res :
  c <> [] -> c <> wildcard ->
  In res (fst (DocumentManager.search_documents query_engine query
                 (Some c) top_k d)) ->
  DocumentManager.r_category res = c.
Proof.
  intros Hne Hw. unfold DocumentManager.search_documents.
  destruct (DocumentManager.index d) as [idx|]; [|intros []].
  destruct (query_engine idx top_k query) as [nodes|e]; [|intros []].
  cbn [fst]. rewrite in_flat_map. intros (n & _ & H).
  unfold DocumentManager.search_step in H.
  destruct c as [|x c]; [congruence|].
  assert (E : eqb (x :: c) wildcard = false) by (apply eqb_neq; exact Hw).
  rewrite E in H. cbn [negb andb] in H.
  destruct (eqb (DocumentManager.r_category (DocumentManager.to_result n))
                (x :: c)) eqn:E'; cbn [negb] in H; [|destruct H].
  destruct H as [<-|[]]. apply eqb_eq. exact E'.
Qed.

(** C9, as the code has it: for both searches the category [wildcard]
    gives the results of a search without a category, and so does the
    empty string; every other category string leaves only results of
    that category. *)
Theorem wildcard_disables_category_filter query tags top_k
    (s : ImageManager.state) (d : DocumentManager.state) :
  ImageManager.search_images lower query (Some wildcard) tags s
  = ImageManager.search_images lower query None tags s
  /\ DocumentManager.search_documents query_engine query (Some wildcard)
       top_k d
     = DocumentManager.search_documents query_engine query None top_k d
  /\ ImageManager.search_images lower query (Some []) tags s
     = ImageManager.search_images lower query None tags s
  /\ DocumentManager.search_documents query_engine query (Some []) top_k d
     = DocumentManager.search_documents query_engine query None top_k d
  /\ (forall c res,
        c <> [] -> c <> wildcard ->
        In res (fst (ImageManager.search_images lower query (Some c) tags s))
        -> ImageManager.r_category res = c)
  /\ (forall c res,
        c <> [] -> c <> wildcard ->
        In res (fst (DocumentManager.search_documents query_engine query
                       (Some c) top_k d))
        -> DocumentManager.r_category res = c).
Proof.
  split; [reflexivity|]. split; [reflexivity|].
  split; [reflexivity|]. split; [reflexivity|]. split.
  - intros c res Hne Hw H.
    apply search_images_In in H.
    destruct H as (file_name & m & _ & -> & Hc & _).
    cbn. apply Hc; auto.
  - intros c res. apply search_documents_category.
Qed.

End WildcardFacts.

(** C9: the wildcard is not the only category string that excludes
    nothing: the empty string is not the wildcard, and a search for it
    returns a record of the category [general]. *)
Lemma empty_category_counterexample :
  [] <> wildcard
  /\ exists res,
       In res (fst (ImageManager.search_images ascii_lower [] (Some [])
                      None Examples.store))
       /\ ImageManager.r_category res <> [].
Proof.
  split; [discriminate|].
  exists (ImageManager.to_result (lit "0a1b2c3d_Beach.PNG") Examples.beach).
  split.
  - vm_compute. right. left. reflexivity.
  - vm_compute. discriminate.
Qed.

(** ** Saving and loading the metadata *)

(** Induction on Python values that reaches the elements of lists, tuples
    and dicts. *)
Section PyvalInduction.

Variable P : pyval -> Prop.
Hypothesis HNone : P PNone.
Hypothesis HBool : forall b, P (PBool b).
Hypothesis HInt : forall z, P (PInt z).
Hypothesis HStr : forall s, P (PStr s).
Hypothesis HBytes : forall b, P (PBytes b).
Hypothesis HList : forall l, Forall P l -> P (PList l).
Hypothesis HTuple : forall l, Forall P l -> P (PTuple l).
Hypothesis HDict : forall d, Forall (fun kv => P (snd kv)) d -> P (PDict d).

Fixpoint pyval_nested_ind (v : pyval) : P v :=
  match v with
  | PNone => HNone
  | PBool b => HBool b
  | PInt z => HInt z
  | PStr s => HStr s
  | PBytes b => HBytes b
  | PList l =>
      HList ((fix go (l : list pyval) : Forall P l :=
                match l with
                | [] => Forall_nil P
                | x :: r => Forall_cons x (pyval_nested_ind x) (go r)
                end) l)
  | PTuple l =>
      HTuple ((fix go (l : list pyval) : Forall P l :=
                 match l with
                 | [] => Forall_nil P
                 | x :: r => Forall_cons x (pyval_nested_ind x) (go r)
                 end) l)
  | PDict d =>
      HDict ((fix go (d : list (pykey * pyval))
                : Forall (fun kv => P (snd kv)) d :=
                match d with
                | [] => Forall_nil _
                | (k, x) :: r =>
                    Forall_cons (k, x) (pyval_nested_ind x) (go r)
                end) d)
  end.

End PyvalInduction.

(** The values [json] writes and reads back unchanged: no [bytes], no
    tuple, dict keys that are distinct strings. *)
Inductive native : pyval -> Prop :=
| native_None : native PNone
| native_Bool b : native (PBool b)
| native_Int z : native (PInt z)
| native_Str s : native (PStr s)
| native_List l : Forall native l -> native (PList l)
| native_Dict d :
    Forall (fun kv => native (snd kv)) d ->
    Forall (fun kv => exists s, fst kv = KStr s) d ->
    NoDup (map fst d) ->
    native (PDict d).

Lemma key_eqb_eq a b : key_eqb a b = true <-> a = b.
Proof.
  destruct a, b; simpl; try (split; [discriminate | discriminate]).
  - rewrite eqb_eq. split; [intros ->; reflexivity | intros H; inversion H; auto].
  - rewrite Z.eqb_eq. split; [intros ->; reflexivity | intros H; inversion H; auto].
Qed.

Lemma dict_set_fresh k v d :
  ~ In k (map fst d) -> dict_set k v d = d ++ [(k, v)].
Proof.
  induction d as [|[k' v'] d IH]; simpl; [reflexivity|].
  intros H. destruct (key_eqb k k') eqn:E.
  - apply key_eqb_eq in E. subst. tauto.
  - rewrite IH; [reflexivity | tauto].
Qed.

Definition load_member (kx : str * json) : pykey * pyval :=
  (KStr (fst kx), loads (snd kx)).

Lemma load_members_fresh o acc :
  NoDup (map fst acc ++ map (fun kx => KStr (fst kx)) o) ->
  load_members acc o = acc ++ map load_member o.
Proof.
  unfold load_members. revert acc; induction o as [|[k x] o IH]; intros acc H.
  - simpl. rewrite app_nil_r. reflexivity.
  - cbn [fold_left map fst snd] in *.
    assert (Hk : ~ In (KStr k) (map fst acc)).
    { apply NoDup_remove_2 in H. intros Hin. apply H.
      apply in_or_app. left. exact Hin. }
    rewrite dict_set_fresh by exact Hk. rewrite IH.
    + rewrite <- app_assoc. reflexivity.
    + rewrite map_app, <- app_assoc. exact H.
Qed.

Definition round_trips (v : pyval) : Prop :=
  exists j, dumps v = Some j /\ loads j = v.

Lemma round_trips_list l :
  Forall round_trips l ->
  exists js, dumps (PList l) = Some (JArr js) /\ map loads js = l.
Proof.
  induction 1 as [|x l (j & Hj & Hx) _ (js & Hjs & Hl)].
  - exists []. auto.
  - exists (j :: js). rewrite dumps_PList_cons, Hj, Hjs.
    simpl. rewrite Hx, Hl. auto.
Qed.

Lemma round_trips_dict d :
  Forall (fun kv => round_trips (snd kv)) d ->
  Forall (fun kv => exists s, fst kv = KStr s) d ->
  exists o, dumps (PDict d) = Some (JObj o) /\ map load_member o = d.
Proof.
  induction 1 as [|[k x] d (j & Hj & Hx) _ IH]; intros Hk.
  - exists []. auto.
  - inversion Hk as [|? ? (s & Hs) Hk']; subst. cbn [fst snd] in *. subst k.
    destruct (IH Hk') as (o & Ho & Hd).
    exists ((s, j) :: o). rewrite dumps_PDict_cons, Hj, Ho.
    split; [reflexivity|].
    cbn [map]. unfold load_member at 1. cbn [fst snd]. rewrite Hx, Hd.
    reflexivity.
Qed.

(** A value of the JSON kinds is written and read back as it was. *)
Lemma native_round_trips v : native v -> round_trips v.
Proof.
  induction v as [| b | z | s | b | l IH | l IH | d IH]
    using pyval_nested_ind; intros Hn; inversion Hn; subst.
  - exists JNull. auto.
  - exists (JBool b). auto.
  - exists (JInt z). auto.
  - exists (JStr s). auto.
  - assert (Hl : Forall round_trips l).
    { rewrite Forall_forall in *. auto. }
    destruct (round_trips_list Hl) as (js & Hjs & Hm).
    exists (JArr js). split; [exact Hjs|].
    rewrite loads_JArr, Hm. reflexivity.
  - assert (Hd : Forall (fun kv => round_trips (snd kv)) d).
    { rewrite Forall_forall in *. auto. }
    destruct (round_trips_dict Hd H1) as (o & Ho & Hm).
    exists (JObj o). split; [exact Ho|].
    rewrite loads_JObj, load_members_fresh.
    + simpl. rewrite Hm. reflexivity.
    + simpl. rewrite <- Hm in H2. rewrite map_map in H2. exact H2.
Qed.

Section SaveLoadFacts.

Import ImageManager.

Lemma native_strings (l : list str) : Forall native (map PStr l).
Proof.
  induction l; simpl; constructor; [constructor | assumption].
Qed.

Lemma native_record (r : image_record) :
  (forall i, info r = Some i -> native (PDict (exif i))) ->
  native (record_to_py r).
Proof.
  destruct r as [n p t c ts u z i]. cbn [info]. intros Hexif.
  assert (Hi : forall i', i = Some i' -> native (PDict (exif i')))
    by exact Hexif.
  unfold record_to_py, opt_item, info_to_py.
  cbn [original_name path thumbnail_path category tags upload_time size info].
  pose proof (native_strings ts) as Hts.
  destruct t, u, z, i as [i'|]; cbn [option_map app];
    try (specialize (Hi i' eq_refl));
    (constructor;
     [ repeat (constructor; cbn [snd]; try assumption);
       constructor; assumption
     | repeat (constructor; [eexists; reflexivity|]); constructor
     | nodup_closed ]).
Qed.

Lemma NoDup_map_KStr (l : list str) : NoDup l -> NoDup (map KStr l).
Proof.
  induction 1 as [|x l Hx _ IH]; simpl; constructor; [|exact IH].
  rewrite in_map_iff. intros (y & Hy & Hin). inversion Hy; subst. tauto.
Qed.

Lemma native_metadata (m : PyDict.dict image_record) :
  PyDict.wf m ->
  (forall k r i, In (k, r) m -> info r = Some i -> native (PDict (exif i))) ->
  native (metadata_to_py m).
Proof.
  intros Hwf Hexif. unfold metadata_to_py. constructor.
  - rewrite Forall_map, Forall_forall. intros [k r] Hin. cbn [snd].
    apply native_record. intros i. apply (Hexif k r i Hin).
  - rewrite Forall_map, Forall_forall. intros [k r] _. cbn [fst].
    exists k. reflexivity.
  - rewrite map_map. cbn [fst].
    rewrite <- (map_map fst KStr). apply NoDup_map_KStr. exact Hwf.
Qed.

(** The round trip holds for every mapping whose EXIF data is of the JSON
    kinds, when the metadata file can be opened for writing: the save
    succeeds and a load returns the mapping. *)
Lemma save_load_round_trip data_dir open_error s :
  open_error (metadata_path data_dir) (files s) = None ->
  PyDict.wf (metadata s) ->
  (forall k r i,
      In (k, r) (metadata s) -> info r = Some i -> native (PDict (exif i))) ->
  _load_metadata (_save_metadata data_dir open_error s)
  = metadata_to_py (metadata s)
  /\ errors (_save_metadata data_dir open_error s) = errors s.
Proof.
  intros Hop Hwf Hexif.
  destruct (native_round_trips (native_metadata Hwf Hexif)) as (j & Hj & Hl).
  unfold _save_metadata. rewrite Hop, Hj.
  unfold _load_metadata. cbn. split; [exact Hl | reflexivity].
Qed.

End SaveLoadFacts.

(** C3 on a camera photograph: the upload is accepted and its record,
    with the three records already there, is in the mapping; the EXIF
    block of the record holds a value of type [bytes], the encoder raises
    on it, the save reports the failure and leaves a metadata file that
    does not parse, and a load then returns the empty mapping instead of
    the mapping saved.  Saving once more changes nothing in that. *)
Theorem save_load_camera_photo :
  fst (ImageManager.add_image (lit "data") Examples.pil_thumbnail
         Examples.camera_pil_info Examples.open_error Examples.camera_upload
         (lit "general") None (lit "2024-05-01T09:30:00") Examples.store)
  = true
  /\ List.length (ImageManager.metadata Examples.camera_store) = 4%nat
  /\ ImageManager.metadata_file Examples.camera_store = Unparsable
  /\ ImageManager.errors Examples.camera_store
     = [msg_save_failed ++ msg_not_serializable]
  /\ ImageManager._load_metadata Examples.camera_store = PDict []
  /\ ImageManager._load_metadata
       (ImageManager._save_metadata (lit "data") Examples.open_error
          Examples.camera_store) = PDict []
  /\ ImageManager._load_metadata
       (ImageManager._save_metadata (lit "data") Examples.open_error
          Examples.camera_store)
     <> ImageManager.metadata_to_py
          (ImageManager.metadata Examples.camera_store).
Proof.
  repeat split; try (vm_compute; reflexivity).
  vm_compute. discriminate.
Qed.

(** ** Text extraction *)

Section ExtractFacts.

Import DocumentManager.

Variable lower : str -> str.
Variable decode_utf8 : MD5.bytes -> outcome str.
Variable pdf_pages : MD5.bytes -> outcome (list str).
Variable docx_paragraphs : MD5.bytes -> outcome (list str).

Local Abbreviation extract :=
  (_extract_text_from_file lower decode_utf8 pdf_pages docx_paragraphs).

Local Abbreviation body :=
  (extract_body decode_utf8 pdf_pages docx_paragraphs).

Lemma supported_cases (file_ext : str) :
  mem file_ext supported_extensions
  = mem file_ext [lit ".txt"; lit ".md"]
    || eqb file_ext (lit ".pdf") || eqb file_ext (lit ".docx").
Proof.
  change (mem file_ext supported_extensions)
    with (eqb file_ext (lit ".txt")
          || (eqb file_ext (lit ".md")
              || (eqb file_ext (lit ".pdf")
                  || (eqb file_ext (lit ".docx") || false)))).
  change (mem file_ext [lit ".txt"; lit ".md"])
    with (eqb file_ext (lit ".txt") || (eqb file_ext (lit ".md") || false)).
  destruct (eqb file_ext (lit ".txt")), (eqb file_ext (lit ".md")),
    (eqb file_ext (lit ".pdf")), (eqb file_ext (lit ".docx")); reflexivity.
Qed.

Lemma extract_body_unsupported file_ext file_path s :
  mem file_ext supported_extensions = false ->
  body file_ext file_path s = Ok (msg_unsupported_format ++ file_ext).
Proof.
  rewrite supported_cases, !orb_false_iff. intros [[H1 H2] H3].
  unfold extract_body. rewrite H1, H2, H3. reflexivity.
Qed.

Lemma extract_body_read_error file_ext file_path s e :
  mem file_ext supported_extensions = true ->
  read_file file_path s = Raise e ->
  body file_ext file_path s = Raise e.
Proof.
  rewrite supported_cases, !orb_true_iff. intros H Hr.
  unfold extract_body. rewrite Hr.
  destruct (mem file_ext [lit ".txt"; lit ".md"]); [reflexivity|].
  destruct (eqb file_ext (lit ".pdf")); [reflexivity|].
  destruct (eqb file_ext (lit ".docx")); [reflexivity|].
  destruct H as [[H|H]|H]; discriminate.
Qed.

(** C5, as the code has it: the extraction has a string as its result in
    every case.  For an extension outside the four supported ones the
    result is the fixed message followed by the extension; when reading or
    decoding the file raises, the result is the fixed message followed by
    the text of the exception; otherwise it is the text of the file. *)
Theorem extract_text_results file_path s :
  let file_ext := lower (snd (OsPath.splitext file_path)) in
  (mem file_ext supported_extensions = false ->
   extract file_path s = msg_unsupported_format ++ file_ext)
  /\ (forall e,
        mem file_ext supported_extensions = true ->
        read_file file_path s = Raise e ->
        extract file_path s = msg_read_error ++ e)
  /\ (forall e, body file_ext file_path s = Raise e ->
                extract file_path s = msg_read_error ++ e)
  /\ (forall t, body file_ext file_path s = Ok t -> extract file_path s = t)
  /\ (forall b,
        read_file file_path s = Ok b ->
        (mem file_ext [lit ".txt"; lit ".md"] = true ->
         body file_ext file_path s = decode_utf8 b)
        /\ (file_ext = lit ".pdf" ->
            body file_ext file_path s
            = (pages <- pdf_pages b ;; Ok (join_lines pages)))
        /\ (file_ext = lit ".docx" ->
            body file_ext file_path s
            = (paragraphs <- docx_paragraphs b ;; Ok (join_lines paragraphs)))).
Proof.
  cbv zeta. unfold _extract_text_from_file.
  set (file_ext := lower (snd (OsPath.splitext file_path))).
  split; [|split; [|split; [|split]]].
  - intros H. rewrite (extract_body_unsupported _ file_path s H). reflexivity.
  - intros e H Hr. rewrite (extract_body_read_error _ _ _ H Hr). reflexivity.
  - intros e H. rewrite H. reflexivity.
  - intros t H. rewrite H. reflexivity.
  - intros b Hr. unfold extract_body. rewrite Hr. split; [|split].
    + intros H. rewrite H. reflexivity.
    + intros H. rewrite H. reflexivity.
    + intros H. rewrite H. reflexivity.
Qed.

End ExtractFacts.

(** C5: an error result cannot be told from extracted content: reading a
    missing text file and reading a text file that holds the words of the
    error message give the same result. *)
Lemma extract_error_counterexample :
  let extract :=
    DocumentManager._extract_text_from_file ascii_lower Examples.decode_utf8
      Examples.pdf_pages Examples.docx_paragraphs (lit "in/notes.txt") in
  DocumentManager.read_file (lit "in/notes.txt") Examples.empty_library
  = Raise (no_such_file (lit "in/notes.txt"))
  /\ DocumentManager.extract_body Examples.decode_utf8 Examples.pdf_pages
       Examples.docx_paragraphs (lit ".txt") (lit "in/notes.txt")
       Examples.library
     = Ok (msg_read_error ++ no_such_file (lit "in/notes.txt"))
  /\ extract Examples.empty_library = extract Examples.library.
Proof.
  cbv zeta. repeat split; vm_compute; reflexivity.
Qed.

(** ** Adding documents *)

Lemma lstrip_nil (s : str) : lstrip s = [] <-> forallb isspace s = true.
Proof.
  induction s as [|c s IH]; simpl; [tauto|].
  destruct (isspace c); simpl; [exact IH|].
  split; discriminate.
Qed.

Lemma lstrip_head (s : str) :
  match lstrip s with
  | [] => True
  | c :: _ => isspace c = false
  end.
Proof.
  induction s as [|c s IH]; simpl; [exact I|].
  destruct (isspace c) eqn:E; [exact IH | exact E].
Qed.

(** [s.strip()] is empty exactly when [s] holds white space only. *)
Lemma strip_nil (s : str) : strip s = [] <-> forallb isspace s = true.
Proof.
  unfold strip. split.
  - intros H. apply (f_equal (@rev char)) in H.
    rewrite rev_involutive in H. simpl in H.
    apply lstrip_nil in H. rewrite forallb_forall in H.
    pose proof (lstrip_head s) as Hh.
    destruct (lstrip s) as [|c t] eqn:E.
    + apply lstrip_nil. exact E.
    + rewrite (H c) in Hh; [discriminate|].
      apply -> in_rev. left. reflexivity.
  - intros H. apply lstrip_nil in H. rewrite H. reflexivity.
Qed.

Lemma strip_nonblank_nonempty (s : str) : strip s <> [] -> s <> [].
Proof. intros H ->. apply H. reflexivity. Qed.

Section AddDocumentFacts.

Import DocumentManager.

Variable lower : str -> str.
Variable data_dir : str.
Variable decode_utf8 : MD5.bytes -> outcome str.
Variable pdf_pages : MD5.bytes -> outcome (list str).
Variable docx_paragraphs : MD5.bytes -> outcome (list str).
Variable insert_error : Document -> option str.
Variable copy_error : str -> str -> PyDict.dict MD5.bytes -> option str.

Local Abbreviation extract :=
  (_extract_text_from_file lower decode_utf8 pdf_pages docx_paragraphs).

Local Abbreviation add_document :=
  (add_document lower data_dir decode_utf8 pdf_pages docx_paragraphs
     insert_error copy_error).

(** A text of white space only comes from a file of a supported
    extension: the message for the others starts with a letter. *)
Lemma blank_text_supported file_path s :
  strip (extract file_path s) = [] ->
  mem (lower (snd (OsPath.splitext file_path))) supported_extensions = true.
Proof.
  intros H.
  destruct (mem (lower (snd (OsPath.splitext file_path)))
                supported_extensions) eqn:E; [reflexivity|].
  apply strip_nil in H.
  unfold _extract_text_from_file in H.
  rewrite (extract_body_unsupported decode_utf8 pdf_pages docx_paragraphs
             _ file_path s E) in H.
  discriminate.
Qed.

(** What one call does to the index: nothing, or one more document, whose
    text is not blank. *)
Lemma add_document_index file_path category s idx :
  index s = Some idx ->
  index (snd (add_document file_path category s)) = Some idx
  \/ exists d,
       index (snd (add_document file_path category s)) = Some (idx ++ [d])
       /\ text d = extract file_path s
       /\ strip (text d) <> [].
Proof.
  intros Hi. unfold DocumentManager.add_document. rewrite Hi.
  destruct (negb (mem _ supported_extensions)); [left; exact Hi|].
  unfold add_body.
  destruct (strip (extract file_path s)) as [|c t] eqn:Es; [left; exact Hi|].
  destruct (getsize file_path s) as [z|e] eqn:Eg; [|left; exact Hi].
  destruct (insert_error _) as [e|]; [left; exact Hi|].
  right. eexists.
  destruct (eqb file_path _).
  - cbn [fst snd index set_index]. repeat split.
    cbn [text]. intros Hc. congruence.
  - unfold copy2. cbn [files set_index].
    destruct (copy_error _ _ _);
      [cbn [snd index st_error set_index]; repeat split;
       cbn [text]; intros Hc; congruence|].
    unfold getsize, read_file in Eg. unfold read_file.
    cbn [files set_index].
    destruct (PyDict.get file_path (files s)) as [b|]; [|discriminate].
    cbn [bind fst snd index set_index set_files]. repeat split.
    cbn [text]. intros Hc. congruence.
Qed.

(** C8, as the code has it: when the extracted text is empty or white
    space only, the call returns [False] and leaves the index and the
    files as they were; it reports the empty content when the index is
    ready, and reports nothing when the index is not, the call returning
    before the extraction.  Whatever the file, a call leaves the index as
    it was or adds one document, whose text is not blank, so an index of
    documents with non-empty text stays one. *)
Theorem add_document_rejects_blank file_path category s :
  (strip (extract file_path s) = [] ->
   fst (add_document file_path category s) = false
   /\ index (snd (add_document file_path category s)) = index s
   /\ files (snd (add_document file_path category s)) = files s
   /\ (index s <> None ->
       errors (snd (add_document file_path category s))
       = errors s ++ [msg_empty_content])
   /\ (index s = None ->
       errors (snd (add_document file_path category s)) = errors s))
  /\ (forall idx,
        index s = Some idx ->
        Forall (fun d => strip (text d) <> [] /\ text d <> []) idx ->
        exists idx',
          index (snd (add_document file_path category s)) = Some idx'
          /\ Forall (fun d => strip (text d) <> [] /\ text d <> []) idx').
Proof.
  split.
  - intros Hb. pose proof (blank_text_supported _ _ Hb) as Hs.
    unfold DocumentManager.add_document.
    destruct (index s) as [idx|] eqn:Ei;
      [|repeat split; try assumption; intros H; congruence].
    rewrite Hs. cbn [negb]. unfold add_body. rewrite Hb.
    repeat split;
      first [exact Ei | intros _; reflexivity | intros H; discriminate H].
  - intros idx Hi Hall.
    destruct (add_document_index file_path category s Hi)
      as [H | (d & H & _ & Hd)].
    + exists idx. auto.
    + exists (idx ++ [d]). split; [exact H|].
      apply Forall_app. split; [exact Hall|].
      constructor; [|constructor].
      split; [exact Hd | apply strip_nonblank_nonempty; exact Hd].
Qed.

End AddDocumentFacts.

(** ** Document search *)

Section SearchDocumentsFacts.

Import DocumentManager.

Variable query_engine : list Document -> nat -> str -> outcome (list node).

(** The nodes a search works on: the answer of the query engine for the
    index, [similarity_top_k] and the query; none when there is no index
    or the engine raises. *)
Definition answer (query : str) (top_k : nat) (s : state) : list node :=
  match index s with
  | Some idx =>
      match query_engine idx top_k query with
      | Ok nodes => nodes
      | Raise _ => []
      end
  | None => []
  end.

(** What the claim says of a result made from a node: the preview of the
    text, the four metadata values (the defaults of [get] where the node
    has none) and the score. *)
Definition shows (n : node) (r : result) : Prop :=
  ((List.length (node_text n) <= 300)%nat -> content r = node_text n)
  /\ ((300 < List.length (node_text n))%nat ->
      content r = firstn 300 (node_text n) ++ ellipsis)
  /\ r_file_name r = match node_file_name n with Some x => x | None => [] end
  /\ r_category r = match node_category n with Some x => x | None => [] end
  /\ r_file_type r = match node_file_type n with Some x => x | None => [] end
  /\ r_file_size r
     = match node_file_size n with Some x => x | None => 0%Z end
  /\ score r = node_score n.

(** The nodes a category lets through: all of them for no category, the
    empty string and the wildcard, those of the category otherwise. *)
Definition node_passes (category : option str) (n : node) : bool :=
  match category with
  | Some ((_ :: _) as c) =>
      eqb c wildcard
      || eqb (match node_category n with Some x => x | None => [] end) c
  | _ => true
  end.

Lemma search_step_length category nodes :
  (List.length (flat_map (search_step category) nodes)
   <= List.length nodes)%nat.
Proof.
  induction nodes as [|n nodes IH]; simpl; [lia|].
  rewrite length_app.
  assert (List.length (search_step category n) <= 1)%nat; [|lia].
  unfold search_step.
  destruct category as [[|x c]|]; [simpl; lia | | simpl; lia].
  destruct (negb (eqb (x :: c) wildcard)
            && negb (eqb (r_category (to_result n)) (x :: c))); simpl; lia.
Qed.

Lemma search_step_In category nodes r :
  In r (flat_map (search_step category) nodes) ->
  exists n, In n nodes /\ r = to_result n.
Proof.
  rewrite in_flat_map. intros (n & Hin & H). exists n. split; [exact Hin|].
  unfold search_step in H. destruct category as [[|x c]|];
    try (destruct H as [<-|[]]; reflexivity).
  destruct (negb (eqb (x :: c) wildcard)
            && negb (eqb (r_category (to_result n)) (x :: c)));
    [destruct H | destruct H as [<-|[]]; reflexivity].
Qed.

Lemma search_step_sorted category nodes :
  StronglySorted (fun a b => (node_score b <= node_score a)%Q) nodes ->
  StronglySorted (fun a b => (score b <= score a)%Q)
    (flat_map (search_step category) nodes).
Proof.
  induction 1 as [|n nodes Hs IH Hall]; simpl; [constructor|].
  assert (Hrest : Forall (fun b => (score b <= score (to_result n))%Q)
                         (flat_map (search_step category) nodes)).
  { rewrite Forall_forall. intros r Hr.
    apply search_step_In in Hr. destruct Hr as (n' & Hin & ->).
    rewrite Forall_forall in Hall. exact (Hall n' Hin). }
  unfold search_step at 1. destruct category as [[|x c]|];
    try (constructor; assumption).
  destruct (negb (eqb (x :: c) wildcard)
            && negb (eqb (r_category (to_result n)) (x :: c)));
    [exact IH | constructor; assumption].
Qed.

Lemma to_result_shows n : shows n (to_result n).
Proof.
  unfold shows, to_result, preview.
  cbn [content r_file_name r_category r_file_type r_file_size score].
  repeat split.
  - intros H. apply Nat.ltb_ge in H. rewrite H. reflexivity.
  - intros H. apply Nat.ltb_lt in H. rewrite H. reflexivity.
Qed.

Lemma search_step_shows category nodes :
  Forall2 shows (filter (node_passes category) nodes)
          (flat_map (search_step category) nodes).
Proof.
  induction nodes as [|n nodes IH]; [constructor|].
  cbn [filter flat_map]. unfold search_step at 1, node_passes at 1.
  destruct category as [[|x c]|];
    try (constructor; [apply to_result_shows | exact IH]).
  cbn [to_result r_category].
  destruct (eqb (x :: c) wildcard); cbn [negb andb orb];
    [constructor; [apply to_result_shows | exact IH]|].
  destruct (eqb (match node_category n with Some x0 => x0 | None => [] end)
                (x :: c)); cbn [negb];
    [constructor; [apply to_result_shows | exact IH] | exact IH].
Qed.


End SearchDocumentsFacts.

(** Closed instances on the example library. *)

Lemma example_engine_top_k idx k q nodes :
  Examples.query_engine idx k q = Ok nodes -> (List.length nodes <= k)%nat.
Proof.
  unfold Examples.query_engine. intros H. inversion H.
  rewrite length_firstn. apply Nat.le_min_l.
Qed.

Lemma example_engine_ranked idx k q nodes :
  Examples.query_engine idx k q = Ok nodes ->
  StronglySorted
    (fun a b =>
       (DocumentManager.node_score b <= DocumentManager.node_score a)%Q)
    nodes.
Proof.
  unfold Examples.query_engine. intros H. inversion H.
  destruct k as [|[|k]]; simpl; rewrite ?firstn_nil; repeat constructor;
    unfold Qle; vm_compute; intros E; discriminate E.
Qed.


Local Abbreviation example_add_document :=
  (DocumentManager.add_document ascii_lower (lit "data") Examples.decode_utf8
     Examples.pdf_pages Examples.docx_paragraphs Examples.insert_error
     Examples.copy_error).

Local Abbreviation example_extract :=
  (DocumentManager._extract_text_from_file ascii_lower Examples.decode_utf8
     Examples.pdf_pages Examples.docx_paragraphs).

Lemma add_document_rejects_blank_witness :
  fst (example_add_document (lit "in/blank.txt") (lit "general")
         Examples.library) = false
  /\ DocumentManager.index
       (snd (example_add_document (lit "in/blank.txt") (lit "general")
               Examples.library))
     = DocumentManager.index Examples.library
  /\ DocumentManager.errors
       (snd (example_add_document (lit "in/blank.txt") (lit "general")
               Examples.library))
     = DocumentManager.errors Examples.library ++ [msg_empty_content].
Proof.
  pose proof (proj1 (@add_document_rejects_blank ascii_lower (lit "data")
                       Examples.decode_utf8 Examples.pdf_pages
                       Examples.docx_paragraphs Examples.insert_error
                       Examples.copy_error
                       (lit "in/blank.txt") (lit "general") Examples.library))
    as H.
  assert (Hb : strip (example_extract (lit "in/blank.txt") Examples.library)
               = [])
    by (vm_compute; reflexivity).
  destruct (H Hb) as (Hok & Hi & _ & He & _).
  split; [exact Hok|]. split; [exact Hi|]. apply He. discriminate.
Defined.

(** C8 does not hold of every state: with an index that is not ready, the
    blank file is refused without the empty-content reason, no message at
    all being given. *)
Lemma add_document_blank_silent_counterexample :
  strip (example_extract (lit "in/blank.txt") Examples.unready_library) = []
  /\ fst (example_add_document (lit "in/blank.txt") (lit "general")
            Examples.unready_library) = false
  /\ DocumentManager.errors
       (snd (example_add_document (lit "in/blank.txt") (lit "general")
               Examples.unready_library)) = []
  /\ ~ In msg_empty_content
       (DocumentManager.errors
          (snd (example_add_document (lit "in/blank.txt") (lit "general")
                  Examples.unready_library))).
Proof.
  repeat split; try (vm_compute; reflexivity).
  vm_compute. intros [].
Qed.

Lemma extract_text_results_witness :
  DocumentManager._extract_text_from_file ascii_lower Examples.decode_utf8
    Examples.pdf_pages Examples.docx_paragraphs (lit "in/scan.JPG")
    Examples.library
  = msg_unsupported_format ++ ascii_lower (lit ".JPG")
  /\ DocumentManager._extract_text_from_file ascii_lower Examples.decode_utf8
       Examples.pdf_pages Examples.docx_paragraphs (lit "in/lost.md")
       Examples.library
     = msg_read_error ++ no_such_file (lit "in/lost.md").
Proof.
  split.
  - pose proof (proj1 (@extract_text_results ascii_lower
                         Examples.decode_utf8 Examples.pdf_pages
                         Examples.docx_paragraphs (lit "in/scan.JPG")
                         Examples.library)) as H.
    cbv zeta in H.
    assert (E : snd (OsPath.splitext (lit "in/scan.JPG")) = lit ".JPG")
      by (vm_compute; reflexivity).
    rewrite E in H. apply H. vm_compute. reflexivity.
  - pose proof (proj1 (proj2 (@extract_text_results ascii_lower
                         Examples.decode_utf8 Examples.pdf_pages
                         Examples.docx_paragraphs (lit "in/lost.md")
                         Examples.library))) as H.
    cbv zeta in H. apply H; vm_compute; reflexivity.
Defined.

(** * Further properties of the managers, the engine and the pages *)

(** ** More on dictionaries and paths *)

Section MoreDictFacts.

Variable V : Type.
Implicit Types (d : PyDict.dict V) (k : str) (v : V).

Lemma get_set k k' v d :
  PyDict.get k (PyDict.set k' v d)
  = if eqb k k' then Some v else PyDict.get k d.
Proof.
  induction d as [|[k0 v0] d IH]; simpl.
  - rewrite (eqb_refl k') || idtac. destruct (eqb k k'); reflexivity.
  - destruct (eqb k' k0) eqn:E; simpl.
    + apply eqb_eq in E. subst k0. destruct (eqb k k'); reflexivity.
    + rewrite IH. destruct (eqb k k0) eqn:E0; [|reflexivity].
      apply eqb_eq in E0. subst k0.
      destruct (eqb k k') eqn:E1; [|reflexivity].
      apply eqb_eq in E1. subst k'. rewrite eqb_refl in E. discriminate.
Qed.

Lemma has_key_set k k' v d :
  PyDict.has_key k (PyDict.set k' v d)
  = eqb k k' || PyDict.has_key k d.
Proof.
  unfold PyDict.has_key. rewrite get_set. destruct (eqb k k'); reflexivity.
Qed.

Lemma In_set k v k' v' d :
  In (k, v) (PyDict.set k' v' d) -> (k, v) = (k', v') \/ In (k, v) d.
Proof.
  induction d as [|[k0 v0] d IH]; simpl.
  - intros [H|[]]. left. congruence.
  - destruct (eqb k' k0) eqn:E; simpl.
    + apply eqb_eq in E. subst k0. intros [H|H]; [left; congruence | auto].
    + intros [H|H]; [auto | destruct (IH H); auto].
Qed.

Lemma In_del k v k' d : In (k, v) (PyDict.del k' d) -> In (k, v) d.
Proof. unfold PyDict.del. rewrite filter_In. tauto. Qed.

Lemma del_set_fresh k v d :
  PyDict.get k d = None -> PyDict.del k (PyDict.set k v d) = d.
Proof.
  unfold PyDict.del.
  induction d as [|[k0 v0] d IH]; simpl.
  - rewrite eqb_refl. reflexivity.
  - destruct (eqb k k0) eqn:E; [discriminate|]. simpl. rewrite E. simpl.
    intros H. rewrite IH; auto.
Qed.

End MoreDictFacts.

(** The directory part that [os.path.join] puts before a relative name. *)
Definition join_prefix (a : str) : str :=
  match a with
  | [] => []
  | _ :: _ => if endswith_char a OsPath.sep then a else a ++ [OsPath.sep]
  end.

Lemma join_relative (a b : str) :
  startswith b [OsPath.sep] = false -> OsPath.join a b = join_prefix a ++ b.
Proof.
  intros H. unfold OsPath.join, join_prefix. rewrite H.
  destruct a as [|x a]; [reflexivity|].
  destruct (endswith_char (x :: a) OsPath.sep); [reflexivity|].
  rewrite <- app_assoc. reflexivity.
Qed.

Lemma endswith_char_app (a b : str) (x c : char) :
  endswith_char (a ++ b ++ [x]) c = char_eqb x c.
Proof.
  unfold endswith_char. rewrite !rev_app_distr. reflexivity.
Qed.

(** The basename of a path holds no separator. *)
Lemma split_last_no_sep (c : char) (s a b : str) :
  OsPath.split_last c s = Some (a, b) -> s = a ++ c :: b /\ ~ In c b.
Proof.
  revert a b; induction s as [|x s IH]; intros a b; simpl; [discriminate|].
  destruct (OsPath.split_last c s) as [[a' b']|] eqn:E.
  - intros H. inversion H; subst. destruct (IH a' b eq_refl) as [-> Hb].
    auto.
  - destruct (char_eqb x c) eqn:Ex; [|discriminate].
    apply N.eqb_eq in Ex. subst x. intros H. inversion H; subst.
    split; [reflexivity|].
    clear -E. revert E. induction b as [|y b IHb]; simpl; [tauto|].
    destruct (OsPath.split_last c b) as [[? ?]|]; [discriminate|].
    destruct (char_eqb y c) eqn:Ey; [discriminate|].
    intros _ [H|H].
    + subst y. unfold char_eqb in Ey. rewrite N.eqb_refl in Ey. discriminate.
    + apply IHb; auto.
Qed.

Lemma split_last_None (c : char) (s : str) :
  OsPath.split_last c s = None <-> ~ In c s.
Proof.
  induction s as [|x s IH]; simpl; [tauto|].
  destruct (OsPath.split_last c s) as [[a b]|] eqn:E.
  - split; [discriminate|]. intros H. exfalso. apply H. right.
    apply split_last_no_sep in E. destruct E as [-> _].
    apply in_or_app. right. left. reflexivity.
  - destruct (char_eqb x c) eqn:Ex.
    + apply N.eqb_eq in Ex. split; [discriminate | intros H; tauto].
    + split; [|reflexivity]. intros _ [H|H].
      * subst. unfold char_eqb in Ex. rewrite N.eqb_refl in Ex. discriminate.
      * apply IH in H; auto.
Qed.

Lemma basename_no_sep (p : str) : ~ In OsPath.sep (OsPath.basename p).
Proof.
  unfold OsPath.basename.
  destruct (OsPath.split_last OsPath.sep p) as [[a b]|] eqn:E.
  - apply split_last_no_sep in E. tauto.
  - apply split_last_None. exact E.
Qed.

Lemma startswith_sep_false (s : str) :
  ~ In OsPath.sep s -> startswith s [OsPath.sep] = false.
Proof.
  destruct s as [|x s]; [reflexivity|]. simpl. intros H.
  destruct (char_eqb x OsPath.sep) eqn:E; [|reflexivity].
  apply N.eqb_eq in E. tauto.
Qed.

Lemma splitext_concat (p : str) :
  fst (OsPath.splitext p) ++ snd (OsPath.splitext p) = p.
Proof.
  unfold OsPath.splitext.
  destruct (OsPath.split_last OsPath.sep p) as [[a b]|] eqn:E.
  - apply split_last_no_sep in E. destruct E as [-> _].
    destruct (OsPath.split_last OsPath.extsep b) as [[n e]|] eqn:E';
      [|simpl; apply app_nil_r].
    destruct (forallb (char_eqb OsPath.extsep) n); [simpl; apply app_nil_r|].
    apply split_last_no_sep in E'. destruct E' as [-> _].
    simpl. rewrite <- !app_assoc. reflexivity.
  - destruct (OsPath.split_last OsPath.extsep p) as [[n e]|] eqn:E';
      [|simpl; apply app_nil_r].
    destruct (forallb (char_eqb OsPath.extsep) n); [simpl; apply app_nil_r|].
    apply split_last_no_sep in E'. destruct E' as [-> _]. reflexivity.
Qed.

(** ** The digits of a digest *)

Definition is_hex (c : char) : bool :=
  ((48 <=? c) && (c <=? 57) || (97 <=? c) && (c <=? 102))%N.

Lemma hex_digit_is_hex (n : N) : (n < 16)%N -> is_hex (MD5.hex_digit n) = true.
Proof.
  intros H. unfold is_hex, MD5.hex_digit.
  destruct (n <? 10)%N eqn:E.
  - apply N.ltb_lt in E. apply orb_true_iff. left.
    apply andb_true_iff. split; apply N.leb_le; lia.
  - apply N.ltb_ge in E. apply orb_true_iff. right.
    apply andb_true_iff. split; apply N.leb_le; lia.
Qed.

Lemma land_255_lt (x : N) : (N.land x 255 < 256)%N.
Proof.
  change 255%N with (N.ones 8). rewrite N.land_ones.
  apply N.mod_lt. discriminate.
Qed.

Lemma hex_byte_is_hex (b : N) :
  (b < 256)%N -> Forall (fun c => is_hex c = true) (MD5.hex_byte b).
Proof.
  intros H. unfold MD5.hex_byte. repeat constructor.
  - apply hex_digit_is_hex. rewrite N.shiftr_div_pow2.
    apply N.Div0.div_lt_upper_bound. exact H.
  - apply hex_digit_is_hex. change 15%N with (N.ones 4).
    rewrite N.land_ones. apply N.mod_lt. discriminate.
Qed.

Lemma digest_bytes (m : MD5.bytes) :
  Forall (fun b => (b < 256)%N) (MD5.digest m).
Proof.
  unfold MD5.digest. destruct (MD5.digest_regs m) as [[[a b] c] d].
  unfold MD5.word_bytes. repeat (constructor; [apply land_255_lt|]).
  constructor.
Qed.

(** [hexdigest()] is made of the digits [0-9] and [a-f]. *)
Lemma hexdigest_is_hex (m : MD5.bytes) :
  Forall (fun c => is_hex c = true) (MD5.hexdigest m).
Proof.
  unfold MD5.hexdigest. apply Forall_flat_map.
  eapply Forall_impl; [|apply digest_bytes].
  intros b. apply hex_byte_is_hex.
Qed.

Lemma file_hash_shape (m : MD5.bytes) :
  exists a b c d e f g h,
    firstn 8 (MD5.hexdigest m) = [a; b; c; d; e; f; g; h]
    /\ Forall (fun x => is_hex x = true) [a; b; c; d; e; f; g; h].
Proof.
  pose proof (file_hash_length m) as Hl.
  assert (Hh : Forall (fun x => is_hex x = true) (firstn 8 (MD5.hexdigest m))).
  { apply Forall_forall. intros x Hx.
    pose proof (hexdigest_is_hex m) as H. rewrite Forall_forall in H.
    apply H. rewrite <- (firstn_skipn 8 (MD5.hexdigest m)).
    apply in_or_app. left. exact Hx. }
  destruct (firstn 8 (MD5.hexdigest m))
    as [|a [|b [|c [|d [|e [|f [|g [|h [|i l]]]]]]]]]; try discriminate.
  exists a, b, c, d, e, f, g, h. auto.
Qed.

(** X1: a file id can be taken apart again: its first eight characters
    are hex digits, the ninth is an underscore, and what follows is the
    original name of the upload. *)
Theorem file_id_shape (u : ImageManager.uploaded_file) :
  Forall (fun c => is_hex c = true) (firstn 8 (ImageManager.file_id u))
  /\ nth_error (ImageManager.file_id u) 8 = Some 95%N
  /\ skipn 9 (ImageManager.file_id u) = ImageManager.name u
  /\ List.length (ImageManager.file_id u)
     = (9 + List.length (ImageManager.name u))%nat.
Proof.
  unfold ImageManager.file_id.
  destruct (file_hash_shape (ImageManager.getvalue u))
    as (a & b & c & d & e & f & g & h & -> & Hh).
  repeat split; try reflexivity. exact Hh.
Qed.

Lemma file_id_relative (u : ImageManager.uploaded_file) :
  startswith (ImageManager.file_id u) [OsPath.sep] = false.
Proof.
  unfold ImageManager.file_id.
  destruct (file_hash_shape (ImageManager.getvalue u))
    as (a & b & c & d & e & f & g & h & -> & Hh).
  inversion Hh as [|? ? Ha _]; subst. simpl.
  destruct (char_eqb a OsPath.sep) eqn:E; [|reflexivity].
  apply N.eqb_eq in E. subst a. discriminate.
Qed.

(** ** Where an upload is stored *)

(** The path of the image file of an upload, and of its thumbnail. *)
Definition image_path (data_dir : str) (u : ImageManager.uploaded_file)
  : str :=
  join_prefix data_dir ++ lit "images/" ++ ImageManager.file_id u.

Definition thumbnail_name (p : str) : str :=
  fst (OsPath.splitext (OsPath.basename p)) ++ lit "_thumb"
  ++ snd (OsPath.splitext (OsPath.basename p)).

Definition thumbnail_path_of (data_dir : str)
    (u : ImageManager.uploaded_file) : str :=
  join_prefix data_dir ++ lit "thumbnails/"
  ++ thumbnail_name (image_path data_dir u).

Lemma images_dir_eq (data_dir : str) :
  join_prefix (ImageManager.images_dir data_dir)
  = join_prefix data_dir ++ lit "images/".
Proof.
  unfold ImageManager.images_dir. rewrite join_relative by reflexivity.
  unfold join_prefix at 1.
  change (lit "images") with (lit "image" ++ [115%N]).
  rewrite endswith_char_app.
  destruct (join_prefix data_dir ++ lit "image" ++ [115%N]) eqn:E.
  - destruct (join_prefix data_dir); discriminate.
  - rewrite <- E, <- !app_assoc. reflexivity.
Qed.

Lemma thumbnails_dir_eq (data_dir : str) :
  join_prefix (ImageManager.thumbnails_dir data_dir)
  = join_prefix data_dir ++ lit "thumbnails/".
Proof.
  unfold ImageManager.thumbnails_dir. rewrite join_relative by reflexivity.
  unfold join_prefix at 1.
  change (lit "thumbnails") with (lit "thumbnail" ++ [115%N]).
  rewrite endswith_char_app.
  destruct (join_prefix data_dir ++ lit "thumbnail" ++ [115%N]) eqn:E.
  - destruct (join_prefix data_dir); discriminate.
  - rewrite <- E, <- !app_assoc. reflexivity.
Qed.

Lemma dest_path_eq (data_dir : str) (u : ImageManager.uploaded_file) :
  OsPath.join (ImageManager.images_dir data_dir) (ImageManager.file_id u)
  = image_path data_dir u.
Proof.
  rewrite join_relative by apply file_id_relative.
  rewrite images_dir_eq, <- app_assoc. reflexivity.
Qed.

Lemma thumbnail_name_relative (p : str) :
  startswith (thumbnail_name p) [OsPath.sep] = false.
Proof.
  unfold thumbnail_name.
  pose proof (splitext_concat (OsPath.basename p)) as Hc.
  pose proof (basename_no_sep p) as Hn.
  destruct (fst (OsPath.splitext (OsPath.basename p))) as [|x n];
    [reflexivity|].
  simpl. destruct (char_eqb x OsPath.sep) eqn:E; [|reflexivity].
  apply N.eqb_eq in E. subst x. exfalso. apply Hn.
  rewrite <- Hc. left. reflexivity.
Qed.

Lemma thumbnail_path_eq (data_dir : str) (u : ImageManager.uploaded_file) :
  OsPath.join (ImageManager.thumbnails_dir data_dir)
    (thumbnail_name (image_path data_dir u))
  = thumbnail_path_of data_dir u.
Proof.
  rewrite join_relative by apply thumbnail_name_relative.
  rewrite thumbnails_dir_eq, <- app_assoc. reflexivity.
Qed.

(** The image file and its thumbnail are different files. *)
Lemma image_path_not_thumbnail (data_dir : str)
    (u : ImageManager.uploaded_file) :
  eqb (image_path data_dir u) (thumbnail_path_of data_dir u) = false.
Proof.
  apply eqb_neq. unfold image_path, thumbnail_path_of. intros H.
  apply app_inv_head in H. discriminate.
Qed.

Lemma thumbnail_not_image_path (data_dir : str)
    (u : ImageManager.uploaded_file) :
  eqb (thumbnail_path_of data_dir u) (image_path data_dir u) = false.
Proof.
  apply eqb_neq. intros H. symmetry in H. apply eqb_neq in H; [exact H|].
  apply image_path_not_thumbnail.
Qed.

Section UploadFacts.

Import ImageManager.

Variable data_dir : str.
Variable pil_thumbnail : str -> MD5.bytes -> outcome MD5.bytes.
Variable pil_info : MD5.bytes -> outcome image_info.
Variable open_error : str -> PyDict.dict MD5.bytes -> option str.

Local Abbreviation add_image :=
  (add_image data_dir pil_thumbnail pil_info open_error).
Local Abbreviation _save_metadata := (_save_metadata data_dir open_error).

(** The record an accepted upload stores, and the files it leaves. *)
Definition stored_record (u : uploaded_file) (category : str)
    (tags : option (list str)) (now : str) : image_record :=
  {| original_name := name u;
     path := image_path data_dir u;
     thumbnail_path :=
       Some match pil_thumbnail (thumbnail_path_of data_dir u) (getvalue u)
            with
            | Ok _ => thumbnail_path_of data_dir u
            | Raise _ => image_path data_dir u
            end;
     category := category;
     tags := match tags with Some l => l | None => [] end;
     upload_time := Some now;
     size := Some (upload_size u);
     info := match pil_info (getvalue u) with
             | Ok i => Some i
             | Raise _ => None
             end |}.

Definition stored_files (u : uploaded_file) (f : PyDict.dict MD5.bytes)
  : PyDict.dict MD5.bytes :=
  match pil_thumbnail (thumbnail_path_of data_dir u) (getvalue u) with
  | Ok t =>
      PyDict.set (thumbnail_path_of data_dir u) t
        (PyDict.set (image_path data_dir u) (getvalue u) f)
  | Raise _ => PyDict.set (image_path data_dir u) (getvalue u) f
  end.

Definition upload_errors (u : uploaded_file) : list str :=
  match pil_thumbnail (thumbnail_path_of data_dir u) (getvalue u) with
  | Ok _ => []
  | Raise e => [msg_thumbnail_failed ++ e]
  end
  ++ match pil_info (getvalue u) with
     | Ok _ => []
     | Raise e => [msg_info_failed ++ e]
     end.

(** What an upload of an image type does when its file can be written,
    step by step. *)
Lemma add_image_written u category tags now s :
  mem (type u) image_types = true ->
  open_error (image_path data_dir u) (files s) = None ->
  add_image u category tags now s
  = (true,
     _save_metadata
       {| metadata :=
            PyDict.set (file_id u) (stored_record u category tags now)
              (metadata s);
          files := stored_files u (files s);
          metadata_file := metadata_file s;
          errors := errors s ++ upload_errors u |}).
Proof.
  intros Hty Hop. unfold ImageManager.add_image. rewrite Hty. cbn [negb].
  rewrite dest_path_eq. unfold open_write. rewrite Hop.
  unfold _generate_thumbnail.
  pose proof (thumbnail_path_eq data_dir u) as Ht. unfold thumbnail_name in Ht.
  destruct (OsPath.splitext (OsPath.basename (image_path data_dir u)))
    as [n e]. cbn [fst snd] in Ht. rewrite Ht.
  unfold write_file at 1. cbn [files set_files].
  rewrite get_set, eqb_refl.
  unfold stored_record, stored_files, upload_errors.
  assert (Htags : match tags with Some ((_ :: _) as l) => l | _ => [] end
                  = match tags with Some l => l | None => [] end)
    by (destruct tags as [[|? ?]|]; reflexivity).
  rewrite Htags.
  destruct (pil_thumbnail (thumbnail_path_of data_dir u) (getvalue u))
    as [t|e1]; unfold _extract_image_info; cbn [files write_file set_files st_error].
  - rewrite get_set, image_path_not_thumbnail, get_set, eqb_refl.
    destruct (pil_info (getvalue u)) as [i|e2];
      unfold set_metadata, st_error, write_file, set_files;
      cbn [metadata files metadata_file errors app];
      rewrite ?app_nil_r, <- ?app_assoc; reflexivity.
  - rewrite get_set, eqb_refl.
    destruct (pil_info (getvalue u)) as [i|e2];
      unfold set_metadata, st_error, write_file, set_files;
      cbn [metadata files metadata_file errors app];
      rewrite ?app_nil_r, <- ?app_assoc; reflexivity.
Qed.

(** An upload returns [True] exactly when its type is an image type and
    its image file can be written. *)
Lemma add_image_verdict u category tags now s :
  fst (add_image u category tags now s) = true
  <-> mem (type u) image_types = true
      /\ open_error (image_path data_dir u) (files s) = None.
Proof.
  rewrite <- dest_path_eq. apply add_image_true.
Qed.

(** What an accepted upload did. *)
Lemma add_image_accepted u category tags now s :
  fst (add_image u category tags now s) = true ->
  add_image u category tags now s
  = (true,
     _save_metadata
       {| metadata :=
            PyDict.set (file_id u) (stored_record u category tags now)
              (metadata s);
          files := stored_files u (files s);
          metadata_file := metadata_file s;
          errors := errors s ++ upload_errors u |}).
Proof.
  intros Hok. apply add_image_verdict in Hok. destruct Hok as [Hty Hop].
  apply add_image_written; assumption.
Qed.

(** X2: an upload of a type that is not accepted returns [False] and
    leaves the mapping, the files and the metadata file as they were; an
    upload, accepted or not, changes no entry of the mapping but the one
    of its file id, and no file but its image file and its thumbnail
    file. *)
Theorem add_image_frame u category tags now s :
  (mem (type u) image_types = false ->
   fst (add_image u category tags now s) = false
   /\ metadata (snd (add_image u category tags now s)) = metadata s
   /\ files (snd (add_image u category tags now s)) = files s
   /\ metadata_file (snd (add_image u category tags now s))
      = metadata_file s)
  /\ (forall k,
        k <> file_id u ->
        PyDict.get k (metadata (snd (add_image u category tags now s)))
        = PyDict.get k (metadata s))
  /\ (forall p,
        p <> image_path data_dir u ->
        p <> thumbnail_path_of data_dir u ->
        PyDict.get p (files (snd (add_image u category tags now s)))
        = PyDict.get p (files s)).
Proof.
  destruct (fst (add_image u category tags now s)) eqn:Hok.
  - pose proof (proj1 (add_image_verdict u category tags now s) Hok)
      as [Hty _].
    rewrite (add_image_accepted u category tags now s Hok). cbn [fst snd].
    rewrite save_metadata_metadata, save_metadata_files. cbn [metadata files].
    split; [rewrite Hty; discriminate|]. split.
    + intros k Hk. rewrite get_set.
      apply eqb_neq in Hk. rewrite Hk. reflexivity.
    + intros p Hp Ht. apply eqb_neq in Hp, Ht. unfold stored_files.
      destruct (pil_thumbnail _ _);
        rewrite ?get_set, ?Ht, ?get_set, Hp; reflexivity.
  - destruct (add_image_false data_dir pil_thumbnail pil_info open_error
                u category tags now s Hok) as (Hm & Hf & Hmf).
    rewrite Hm, Hf, Hmf. repeat split; reflexivity.
Qed.

(** X3: after an upload that returned [True], a search without filters
    returns the upload, under its file id, with the name, category, tags,
    time and size it was uploaded with. *)
Theorem add_image_then_search lower u category tags now s :
  fst (add_image u category tags now s) = true ->
  exists res,
    In res (fst (search_images lower [] None None
                   (snd (add_image u category tags now s))))
    /\ r_file_name res = file_id u
    /\ r_original_name res = name u
    /\ r_category res = category
    /\ r_tags res = match tags with Some l => l | None => [] end
    /\ r_upload_time res = now
    /\ r_size res = Z.of_nat (List.length (getvalue u)).
Proof.
  intros Hok. rewrite (add_image_accepted u category tags now s Hok).
  cbn [snd].
  exists (to_result (file_id u) (stored_record u category tags now)).
  split; [|cbn; repeat split; reflexivity].
  apply search_images_In.
  exists (file_id u), (stored_record u category tags now).
  split; [|split; [reflexivity|]].
  - rewrite save_metadata_metadata. cbn [metadata].
    apply get_In. apply get_set_same.
  - split; [intros c Hc; discriminate|].
    split; [intros ts Hts; discriminate|].
    split; [intros H; congruence|].
    unfold path_exists. rewrite save_metadata_files. cbn [files path stored_record].
    unfold stored_files.
    destruct (pil_thumbnail _ _);
      rewrite ?has_key_set, eqb_refl, ?orb_true_r; reflexivity.
Qed.

(** X4: a failure of Pillow does not make an upload fail: the call
    returns [True] exactly when the type is an image type and the image
    file can be written, whatever Pillow makes of the bytes.  After such a
    call, when the thumbnail could not be made, the record names the image
    file itself as its thumbnail and no thumbnail file is written; when
    the image could not be read, the record has no width, height or
    format, and a search shows them as [0], [0] and the empty string.
    Each failure is reported. *)
Theorem add_image_degrades u category tags now s :
  (fst (add_image u category tags now s) = true
   <-> mem (type u) image_types = true
       /\ open_error (image_path data_dir u) (files s) = None)
  /\ (fst (add_image u category tags now s) = true ->
      forall e,
        pil_thumbnail (thumbnail_path_of data_dir u) (getvalue u) = Raise e ->
        exists m,
          PyDict.get (file_id u)
            (metadata (snd (add_image u category tags now s))) = Some m
          /\ thumbnail_path m = Some (path m)
          /\ PyDict.get (thumbnail_path_of data_dir u)
               (files (snd (add_image u category tags now s)))
             = PyDict.get (thumbnail_path_of data_dir u) (files s)
          /\ In (msg_thumbnail_failed ++ e)
                (errors (snd (add_image u category tags now s))))
  /\ (fst (add_image u category tags now s) = true ->
      forall e,
        pil_info (getvalue u) = Raise e ->
        exists m,
          PyDict.get (file_id u)
            (metadata (snd (add_image u category tags now s))) = Some m
          /\ info m = None
          /\ r_width (to_result (file_id u) m) = 0%Z
          /\ r_height (to_result (file_id u) m) = 0%Z
          /\ r_format (to_result (file_id u) m) = []
          /\ In (msg_info_failed ++ e)
                (errors (snd (add_image u category tags now s)))).
Proof.
  split; [apply add_image_verdict|].
  assert (Herr : forall x,
             In x (upload_errors u) ->
             In x (errors (_save_metadata
                     {| metadata :=
                          PyDict.set (file_id u)
                            (stored_record u category tags now) (metadata s);
                        files := stored_files u (files s);
                        metadata_file := metadata_file s;
                        errors := errors s ++ upload_errors u |}))).
  { intros x Hx. unfold ImageManager._save_metadata.
    destruct (open_error _ _); [cbn; rewrite ?in_app_iff; auto|].
    destruct (dumps _); cbn; rewrite ?in_app_iff; auto. }
  split; intros Hok; rewrite (add_image_accepted u category tags now s Hok);
    cbn [fst snd];
    rewrite ?save_metadata_metadata, ?save_metadata_files;
    cbn [metadata files].
  - intros e He. exists (stored_record u category tags now).
    rewrite get_set_same. split; [reflexivity|].
    unfold stored_record, stored_files, upload_errors in *.
    rewrite He in *. cbn [thumbnail_path path].
    split; [reflexivity|]. split.
    + rewrite get_set, thumbnail_not_image_path. reflexivity.
    + apply Herr. left. reflexivity.
  - intros e He. exists (stored_record u category tags now).
    rewrite get_set_same. split; [reflexivity|].
    unfold stored_record, upload_errors in *. rewrite He in *.
    cbn. repeat split. apply Herr. apply in_or_app. right. left. reflexivity.
Qed.

End UploadFacts.

(** ** Deleting, and what is persisted *)

Lemma del_absent (V : Type) (k : str) (d : PyDict.dict V) :
  PyDict.get k d = None -> PyDict.del k d = d.
Proof.
  unfold PyDict.del.
  induction d as [|[k' v'] d IH]; simpl; [reflexivity|].
  destruct (eqb k k') eqn:E; [discriminate|]. simpl.
  intros H. rewrite IH; auto.
Qed.

Lemma remove_if_exists (p : str) (s : ImageManager.state) :
  ImageManager.path_exists p s = false -> ImageManager.without_file p s = s.
Proof.
  unfold ImageManager.path_exists, PyDict.has_key, ImageManager.without_file,
    ImageManager.set_files.
  destruct (PyDict.get p (ImageManager.files s)) eqn:E; [discriminate|].
  intros _. rewrite (del_absent _ _ E). destruct s; reflexivity.
Qed.

Section DeleteMoreFacts.

Import ImageManager.

Variable data_dir : str.
Variable open_error : str -> PyDict.dict MD5.bytes -> option str.
Variable remove_error : str -> PyDict.dict MD5.bytes -> option str.

Local Abbreviation delete_image :=
  (delete_image data_dir open_error remove_error).
Local Abbreviation _save_metadata := (_save_metadata data_dir open_error).

(** The files left when the image file and the thumbnail of a record are
    removed. *)
Definition files_without (m : image_record) (f : PyDict.dict MD5.bytes)
  : PyDict.dict MD5.bytes :=
  match thumbnail_path m with
  | Some t => PyDict.del t (PyDict.del (path m) f)
  | None => PyDict.del (path m) f
  end.

Lemma remove_image_file_ok m s s1 :
  remove_image_file remove_error m s = Ok s1 ->
  s1 = without_file (path m) s.
Proof.
  unfold remove_image_file, os_remove.
  destruct (path_exists (path m) s) eqn:E.
  - destruct (remove_error _ _); [discriminate|].
    intros H. inversion H. reflexivity.
  - intros H. inversion H; subst. symmetry. apply remove_if_exists. exact E.
Qed.

Lemma remove_thumbnail_ok m s s1 :
  remove_thumbnail remove_error m s = Ok s1 ->
  s1 = match thumbnail_path m with
       | Some t => without_file t s
       | None => s
       end.
Proof.
  unfold remove_thumbnail, os_remove.
  destruct (thumbnail_path m) as [t|]; [|intros H; inversion H; reflexivity].
  destruct (path_exists t s) eqn:E.
  - destruct (remove_error _ _); [discriminate|].
    intros H. inversion H. reflexivity.
  - intros H. inversion H; subst. symmetry. apply remove_if_exists. exact E.
Qed.

(** What a deletion that returned [True] did. *)
Lemma delete_image_stored file_name s m :
  PyDict.get file_name (metadata s) = Some m ->
  fst (delete_image file_name s) = true ->
  delete_image file_name s
  = (true,
     _save_metadata
       {| metadata := PyDict.del file_name (metadata s);
          files := files_without m (files s);
          metadata_file := metadata_file s;
          errors := errors s |}).
Proof.
  intros Hm.
  destruct (delete_image_cases data_dir open_error remove_error file_name s Hm)
    as [(s1 & s2 & E1 & E2 & ->) | [(e & E1 & ->) | (s1 & e & E1 & E2 & ->)]];
    cbn [fst]; try discriminate.
  intros _. apply remove_image_file_ok in E1. apply remove_thumbnail_ok in E2.
  subst s2 s1. unfold files_without.
  destruct (thumbnail_path m) as [t|]; reflexivity.
Qed.

(** X5: after a deletion that returned [True], deleting the id once more
    returns [False] and changes nothing; and a deletion, whatever it
    returns, touches no file but the image file and the thumbnail file of
    the record. *)
Theorem delete_image_twice file_name s :
  (fst (delete_image file_name s) = true ->
   delete_image file_name (snd (delete_image file_name s))
   = (false, snd (delete_image file_name s)))
  /\ (forall m p,
        PyDict.get file_name (metadata s) = Some m ->
        p <> path m -> thumbnail_path m <> Some p ->
        PyDict.get p (files (snd (delete_image file_name s)))
        = PyDict.get p (files s)).
Proof.
  split.
  - intros Hok.
    destruct (PyDict.get file_name (metadata s)) as [m|] eqn:Hm.
    + rewrite (delete_image_stored _ _ Hm Hok). cbn [snd].
      unfold ImageManager.delete_image at 1. rewrite save_metadata_metadata.
      cbn [metadata]. rewrite get_del_same. reflexivity.
    + unfold ImageManager.delete_image in Hok. rewrite Hm in Hok.
      discriminate.
  - intros m p Hm Hp Ht.
    destruct (delete_image_cases data_dir open_error remove_error file_name s Hm)
      as [(s1 & s2 & E1 & E2 & ->) | [(e & E1 & ->) | (s1 & e & E1 & E2 & ->)]];
      cbn [snd]; rewrite ?save_metadata_files;
      cbn [files set_metadata st_error]; [| reflexivity |].
    + apply remove_image_file_ok in E1. apply remove_thumbnail_ok in E2.
      subst s2 s1. destruct (thumbnail_path m) as [t|];
        cbn [files without_file set_files].
      * rewrite get_del_other by congruence.
        apply get_del_other. congruence.
      * apply get_del_other. congruence.
    + apply remove_image_file_ok in E1. subst s1.
      cbn [files without_file set_files].
      apply get_del_other. congruence.
Qed.

End DeleteMoreFacts.

Section UploadDeleteFacts.

Import ImageManager.

Variable data_dir : str.
Variable pil_thumbnail : str -> MD5.bytes -> outcome MD5.bytes.
Variable pil_info : MD5.bytes -> outcome image_info.
Variable open_error : str -> PyDict.dict MD5.bytes -> option str.
Variable remove_error : str -> PyDict.dict MD5.bytes -> option str.

Local Abbreviation add_image :=
  (add_image data_dir pil_thumbnail pil_info open_error).
Local Abbreviation delete_image :=
  (delete_image data_dir open_error remove_error).
Local Abbreviation _save_metadata := (_save_metadata data_dir open_error).

(** X6: when an upload under an id that was not in the mapping returned
    [True] and the deletion of that id right after it returned [True] as
    well, the mapping is as it was before the two calls, with its entries
    in their order, and the image file and the thumbnail that was made
    for it are gone. *)
Theorem add_then_delete u category tags now s :
  fst (add_image u category tags now s) = true ->
  PyDict.get (file_id u) (metadata s) = None ->
  fst (delete_image (file_id u) (snd (add_image u category tags now s)))
  = true ->
  metadata
    (snd (delete_image (file_id u)
            (snd (add_image u category tags now s))))
  = metadata s
  /\ path_exists (image_path data_dir u)
       (snd (delete_image (file_id u)
               (snd (add_image u category tags now s)))) = false
  /\ (forall t,
        pil_thumbnail (thumbnail_path_of data_dir u) (getvalue u) = Ok t ->
        path_exists (thumbnail_path_of data_dir u)
          (snd (delete_image (file_id u)
                  (snd (add_image u category tags now s)))) = false).
Proof.
  intros Hok Hfresh.
  rewrite (add_image_accepted data_dir pil_thumbnail pil_info open_error
             u category tags now s Hok). cbn [snd].
  set (s1 := _save_metadata _).
  assert (Hget : PyDict.get (file_id u) (metadata s1)
                 = Some (stored_record data_dir pil_thumbnail pil_info
                           u category tags now)).
  { subst s1. rewrite save_metadata_metadata. cbn [metadata].
    apply get_set_same. }
  intros Hdel.
  rewrite (delete_image_stored data_dir open_error remove_error _ _ Hget Hdel). cbn [fst snd].
  rewrite save_metadata_metadata. unfold path_exists.
  rewrite save_metadata_files. cbn [metadata files].
  subst s1. rewrite save_metadata_metadata, save_metadata_files.
  cbn [metadata files].
  split; [apply del_set_fresh; exact Hfresh|].
  unfold files_without, stored_record, stored_files, PyDict.has_key.
  cbn [thumbnail_path path].
  destruct (pil_thumbnail (thumbnail_path_of data_dir u) (getvalue u))
    as [t|e].
  - split; [|intros _ _; rewrite get_del_same; reflexivity].
    rewrite get_del_other, get_del_same; [reflexivity|].
    intros H. symmetry in H. apply eqb_neq in H; [exact H|].
    apply image_path_not_thumbnail.
  - split; [|intros t H; discriminate].
    rewrite get_del_same. reflexivity.
Qed.

(** The records whose EXIF data is of the JSON kinds. *)
Definition exif_native (m : PyDict.dict image_record) : Prop :=
  forall k r i, In (k, r) m -> info r = Some i -> native (PDict (exif i)).


End UploadDeleteFacts.

(** ** More on image search *)

Section SearchMoreFacts.

Import ImageManager.

Variable lower : str -> str.

Lemma search_step_names query category tags s l k :
  In k (map r_file_name (flat_map (search_step lower query category tags s) l))
  -> In k (PyDict.keys l).
Proof.
  rewrite in_map_iff. intros (res & <- & H). apply in_flat_map in H.
  destruct H as ([k' m] & Hin & H). apply search_step_spec in H.
  destruct H as (-> & _). cbn. apply (in_map fst) in Hin. exact Hin.
Qed.

(** X8: a search returns each record at most once: the file names of the
    results are distinct. *)
Theorem search_images_distinct query category tags s :
  PyDict.wf (metadata s) ->
  NoDup (map r_file_name (fst (search_images lower query category tags s))).
Proof.
  intros Hwf. unfold search_images. cbn [fst].
  eapply Permutation_NoDup.
  - apply Permutation_map. apply sort_desc_perm.
  - unfold PyDict.wf in Hwf.
    induction (metadata s) as [|[k m] l IH]; [constructor|].
    cbn [flat_map]. rewrite map_app. inversion Hwf as [|? ? Hk Hl]; subst.
    apply NoDup_app; [| apply IH; exact Hl |].
    + unfold search_step.
      repeat match goal with
             | |- context [if ?c then _ else _] => destruct c
             end; repeat constructor; intros [].
    + intros x Hx Hx'. apply search_step_names in Hx'.
      apply in_map_iff in Hx. destruct Hx as (res & <- & Hres).
      unfold search_step in Hres.
      repeat match goal with
             | H : context [if ?c then _ else _] |- _ => destruct c
             end; try destruct Hres as [<-|[]]; try destruct Hres.
      cbn in Hx'. tauto.
Qed.

End SearchMoreFacts.

(** ** Filtering before or after the sort *)

Lemma leb_ltb_false (a b : str) : leb b a = true -> ltb a b = false.
Proof.
  unfold leb, ltb. rewrite (compare_antisym a b).
  destruct (PyStr.compare a b); simpl; congruence.
Qed.

Section FilterSort.

Variable A : Type.
Variable key : A -> str.
Variable p : A -> bool.

Lemma insert_desc_front (x : A) (l : list A) :
  Forall (fun z => leb (key z) (key x) = true) l ->
  insert_desc key x l = x :: l.
Proof.
  destruct l as [|y l]; [reflexivity|]. intros H. simpl.
  inversion H as [|? ? Hy _]; subst.
  rewrite (leb_ltb_false _ _ Hy). reflexivity.
Qed.

Lemma filter_insert_desc (x : A) (l : list A) :
  StronglySorted (desc key) l ->
  filter p (insert_desc key x l)
  = if p x then insert_desc key x (filter p l) else filter p l.
Proof.
  induction 1 as [|y l Hs IH Hall]; simpl.
  - destruct (p x); reflexivity.
  - destruct (ltb (key x) (key y)) eqn:E.
    + simpl. rewrite IH. destruct (p y), (p x); simpl; rewrite ?E; reflexivity.
    + simpl. destruct (p x); [|reflexivity].
      symmetry. apply insert_desc_front.
      assert (Hxy : leb (key y) (key x) = true)
        by (apply ltb_false_leb; exact E).
      assert (Hl : Forall (fun z => leb (key z) (key x) = true) (y :: l)).
      { constructor; [exact Hxy|]. eapply Forall_impl; [|exact Hall].
        intros z Hz. unfold desc in Hz. eapply leb_trans; eassumption. }
      change (Forall (fun z => leb (key z) (key x) = true)
                     (filter p (y :: l))).
      exact (incl_Forall (incl_filter p (y :: l)) Hl).
Qed.

(** Filtering the sorted list gives the sorted filtered list. *)
Lemma filter_sort_desc (l : list A) :
  filter p (sort_desc key l) = sort_desc key (filter p l).
Proof.
  induction l as [|x l IH]; simpl; [reflexivity|].
  rewrite filter_insert_desc by apply sort_desc_sorted.
  rewrite IH. destruct (p x); reflexivity.
Qed.

End FilterSort.

Section TagFilterFacts.

Import ImageManager.

Variable lower : str -> str.
Variable query_engine :
  list DocumentManager.Document -> nat -> str
  -> outcome (list DocumentManager.node).

(** The test the search page applies to a result. *)
Definition result_has_tag (selected_tags : list str) (img : image_result)
  : bool :=
  existsb (fun tag => mem (lower tag) (map lower (r_tags img))) selected_tags.

Lemma search_step_tags query category ts s item :
  ts <> [] ->
  search_step lower query category (Some ts) s item
  = filter (result_has_tag ts) (search_step lower query category None s item).
Proof.
  intros Hts. destruct item as [k m]. unfold search_step.
  destruct ts as [|t ts]; [congruence|].
  change (tags_pass lower None m) with true.
  change (tags_pass lower (Some (t :: ts)) m)
    with (result_has_tag (t :: ts) (to_result k m)).
  cbn [negb].
  destruct (category_passes category m), (query_passes lower query m),
    (path_exists (path m) s), (result_has_tag (t :: ts) (to_result k m)) eqn:E;
    cbn [negb filter]; rewrite ?E; reflexivity.
Qed.

(** Asking [search_images] for tags gives the list that a search without
    tags gives once it is filtered by the tags afterwards, in the same
    order. *)
Lemma tags_filter_after_search query category ts s :
  fst (search_images lower query category (Some ts) s)
  = match ts with
    | [] => fst (search_images lower query category None s)
    | _ :: _ =>
        filter (result_has_tag ts)
               (fst (search_images lower query category None s))
    end.
Proof.
  destruct ts as [|t ts]; [reflexivity|].
  unfold search_images. cbn [fst]. rewrite filter_sort_desc. f_equal.
  induction (metadata s) as [|item l IH]; [reflexivity|].
  cbn [flat_map]. rewrite filter_app, <- IH.
  rewrite search_step_tags by discriminate. reflexivity.
Qed.

End TagFilterFacts.

(** ** Counting *)

(** [d.get(k, 0)] and the sum of the values of a dict of counts. *)
Definition count_of (k : str) (d : PyDict.dict Z) : Z :=
  match PyDict.get k d with Some n => n | None => 0%Z end.

Definition sum_values (d : PyDict.dict Z) : Z :=
  fold_right Z.add 0%Z (map snd d).

(** The dict of counts a loop of [d[k] = d.get(k, 0) + 1] builds. *)
Definition histogram (ks : list str) (d : PyDict.dict Z) : PyDict.dict Z :=
  fold_left (fun d k => ImageManager.count_up k d) ks d.

Lemma sum_values_set k v d :
  sum_values (PyDict.set k v d) = (sum_values d - count_of k d + v)%Z.
Proof.
  unfold sum_values, count_of.
  induction d as [|[k0 v0] d IH]; simpl; [lia|].
  destruct (eqb k k0); simpl; [lia|]. rewrite IH. lia.
Qed.

Lemma count_of_count_up k k' d :
  count_of k (ImageManager.count_up k' d)
  = (count_of k d + if eqb k k' then 1 else 0)%Z.
Proof.
  unfold ImageManager.count_up, count_of at 1. rewrite get_set.
  destruct (eqb k k') eqn:E.
  - apply eqb_eq in E. subst. unfold count_of. reflexivity.
  - unfold count_of. lia.
Qed.

Lemma histogram_count ks d k :
  count_of k (histogram ks d)
  = (count_of k d + Z.of_nat (count_occ str_eq_dec ks k))%Z.
Proof.
  unfold histogram. revert d; induction ks as [|k' ks IH]; intros d; simpl.
  - lia.
  - rewrite IH, count_of_count_up.
    destruct (str_eq_dec k' k) as [->|Hne].
    + rewrite eqb_refl. lia.
    + assert (E : eqb k k' = false) by (apply eqb_neq; congruence).
      rewrite E. lia.
Qed.

Lemma histogram_sum ks d :
  sum_values (histogram ks d)
  = (sum_values d + Z.of_nat (List.length ks))%Z.
Proof.
  unfold histogram. revert d; induction ks as [|k' ks IH]; intros d; simpl.
  - lia.
  - rewrite IH. unfold ImageManager.count_up. rewrite sum_values_set.
    fold (count_of k' d). lia.
Qed.

Lemma histogram_keys ks d k :
  In k (PyDict.keys (histogram ks d)) <-> In k (PyDict.keys d) \/ In k ks.
Proof.
  unfold histogram. revert d; induction ks as [|k' ks IH]; intros d; simpl.
  - tauto.
  - rewrite IH. unfold ImageManager.count_up.
    rewrite <- !has_key_In, has_key_set, orb_true_iff, eqb_eq.
    intuition congruence.
Qed.

Lemma histogram_wf ks d : PyDict.wf d -> PyDict.wf (histogram ks d).
Proof.
  unfold histogram. revert d; induction ks as [|k' ks IH]; intros d H; simpl.
  - exact H.
  - apply IH. apply wf_set. exact H.
Qed.

Lemma histogram_app ks1 ks2 d :
  histogram (ks1 ++ ks2) d = histogram ks2 (histogram ks1 d).
Proof. unfold histogram. apply fold_left_app. Qed.

(** ** Image statistics, categories and tags *)

Section ImageStatsFacts.

Import ImageManager.

Definition categories_of (m : PyDict.dict image_record) : list str :=
  map (fun item => category (snd item)) m.

Definition formats_of (m : PyDict.dict image_record) : list str :=
  map (fun item => match info (snd item) with
                   | Some i => format i
                   | None => lit "unknown"
                   end) m.

Definition sizes_of (m : PyDict.dict image_record) : list Z :=
  map (fun item => match size (snd item) with
                   | Some z => z
                   | None => 0%Z
                   end) m.

Definition tags_of (m : PyDict.dict image_record) : list str :=
  flat_map (fun item => tags (snd item)) m.

Lemma stats_fold l acc :
  fold_left stats_step l acc
  = {| total_images := total_images acc;
       stats_categories := histogram (categories_of l) (stats_categories acc);
       stats_formats := histogram (formats_of l) (stats_formats acc);
       total_size := (total_size acc + fold_right Z.add 0 (sizes_of l))%Z;
       stats_tags := histogram (tags_of l) (stats_tags acc) |}.
Proof.
  revert acc; induction l as [|item l IH]; intros acc.
  - destruct acc. cbn. rewrite Z.add_0_r. reflexivity.
  - cbn [fold_left]. rewrite IH. unfold stats_step at 1 2 3 4 5.
    cbn [total_images stats_categories stats_formats total_size stats_tags
         categories_of formats_of sizes_of tags_of map flat_map fold_right].
    rewrite histogram_app. f_equal. fold (sizes_of l). lia.
Qed.

(** X9: the statistics count what is stored: the number of records; for
    each category and each format the number of records that have it, the
    counts of all categories (and of all formats) adding up to the number
    of records; and the sum of the sizes.  A record without image
    information counts under the format [unknown], one without a size as
    size zero. *)
Theorem image_stats_counts s :
  total_images (get_image_stats s) = List.length (metadata s)
  /\ (forall c,
        count_of c (stats_categories (get_image_stats s))
        = Z.of_nat (count_occ str_eq_dec (categories_of (metadata s)) c))
  /\ sum_values (stats_categories (get_image_stats s))
     = Z.of_nat (List.length (metadata s))
  /\ (forall f,
        count_of f (stats_formats (get_image_stats s))
        = Z.of_nat (count_occ str_eq_dec (formats_of (metadata s)) f))
  /\ sum_values (stats_formats (get_image_stats s))
     = Z.of_nat (List.length (metadata s))
  /\ total_size (get_image_stats s)
     = fold_right Z.add 0%Z (sizes_of (metadata s))
  /\ PyDict.wf (stats_categories (get_image_stats s))
  /\ PyDict.wf (stats_formats (get_image_stats s)).
Proof.
  unfold get_image_stats. rewrite stats_fold.
  cbn [total_images stats_categories stats_formats total_size stats_tags].
  repeat split.
  - intros c. rewrite histogram_count. reflexivity.
  - rewrite histogram_sum. unfold categories_of.
    rewrite length_map. reflexivity.
  - intros f. rewrite histogram_count. reflexivity.
  - rewrite histogram_sum. unfold formats_of.
    rewrite length_map. reflexivity.
  - apply histogram_wf. constructor.
  - apply histogram_wf. constructor.
Qed.

Lemma set_add_In x l y : In y (set_add x l) <-> In y l \/ y = x.
Proof.
  unfold set_add. destruct (mem x l) eqn:E.
  - apply mem_In in E. intuition congruence.
  - rewrite in_app_iff. simpl. intuition congruence.
Qed.

Lemma set_add_NoDup x l : NoDup l -> NoDup (set_add x l).
Proof.
  intros H. unfold set_add. destruct (mem x l) eqn:E; [exact H|].
  apply NoDup_app; [exact H | repeat constructor; intros [] |].
  intros y Hy [<-|[]]. apply mem_In in Hy. congruence.
Qed.

Lemma set_update_In xs l y : In y (set_update xs l) <-> In y l \/ In y xs.
Proof.
  unfold set_update. revert l; induction xs as [|x xs IH]; intros l; simpl.
  - tauto.
  - rewrite IH, set_add_In. intuition congruence.
Qed.

Lemma set_update_NoDup xs l : NoDup l -> NoDup (set_update xs l).
Proof.
  unfold set_update. revert l; induction xs as [|x xs IH]; intros l H; simpl.
  - exact H.
  - apply IH. apply set_add_NoDup. exact H.
Qed.

Lemma categories_fold (m : PyDict.dict image_record) l :
  fold_left (fun acc item => set_add (category (snd item)) acc) m l
  = set_update (categories_of m) l.
Proof.
  unfold set_update, categories_of.
  revert l; induction m as [|item m IH]; intros l; simpl; [reflexivity|].
  apply IH.
Qed.

Lemma tags_fold (m : PyDict.dict image_record) l :
  fold_left (fun acc item => set_update (tags (snd item)) acc) m l
  = set_update (tags_of m) l.
Proof.
  unfold tags_of.
  revert l; induction m as [|item m IH]; intros l; simpl; [reflexivity|].
  rewrite IH. unfold set_update. rewrite fold_left_app. reflexivity.
Qed.

(** X10: the tag statistics count, for each tag, its occurrences in the
    tag lists of the records, and their keys are the tags that
    [get_all_tags] lists; that list has no tag twice and holds exactly
    the tags of the records. *)
Theorem image_tags_counts s :
  (forall t,
      count_of t (stats_tags (get_image_stats s))
      = Z.of_nat (count_occ str_eq_dec (tags_of (metadata s)) t))
  /\ sum_values (stats_tags (get_image_stats s))
     = Z.of_nat (List.length (tags_of (metadata s)))
  /\ PyDict.wf (stats_tags (get_image_stats s))
  /\ NoDup (get_all_tags s)
  /\ (forall t, In t (get_all_tags s) <-> In t (tags_of (metadata s)))
  /\ (forall t,
        In t (PyDict.keys (stats_tags (get_image_stats s)))
        <-> In t (get_all_tags s)).
Proof.
  unfold get_image_stats, get_all_tags. rewrite stats_fold, tags_fold.
  cbn [stats_tags].
  split; [intros t; rewrite histogram_count; reflexivity|].
  split; [rewrite histogram_sum; reflexivity|].
  split; [apply histogram_wf; constructor|].
  split; [apply set_update_NoDup; constructor|].
  split.
  - intros t. rewrite set_update_In. simpl. tauto.
  - intros t. rewrite histogram_keys, set_update_In. reflexivity.
Qed.

(** X11: the list of categories is never empty and names no category
    twice; for an empty mapping it is the single category [general],
    otherwise it holds exactly the categories of the records, which are
    also the keys of the category statistics. *)
Theorem get_categories_spec s :
  get_categories s <> []
  /\ NoDup (get_categories s)
  /\ (metadata s = [] -> get_categories s = [lit "general"])
  /\ (metadata s <> [] ->
      forall c,
        (In c (get_categories s) <-> In c (categories_of (metadata s)))
        /\ (In c (get_categories s)
            <-> In c (PyDict.keys (stats_categories (get_image_stats s))))).
Proof.
  unfold get_categories, get_image_stats.
  rewrite categories_fold, stats_fold. cbn [stats_categories].
  pose proof (set_update_NoDup (categories_of (metadata s)) (NoDup_nil _))
    as Hnd.
  pose proof (fun c => set_update_In (categories_of (metadata s)) [] c)
    as Hin.
  destruct (set_update (categories_of (metadata s)) []) as [|c0 l] eqn:E.
  - split; [discriminate|]. split; [repeat constructor; intros []|].
    split; [reflexivity|]. intros Hne. exfalso.
    destruct (metadata s) as [|item m]; [congruence|].
    apply (proj2 (Hin (category (snd item)))). right. left. reflexivity.
  - split; [discriminate|]. split; [exact Hnd|].
    split; [intros H; rewrite H in E; discriminate|].
    intros _ c. rewrite histogram_keys, Hin. simpl. tauto.
Qed.

End ImageStatsFacts.

(** ** More on adding documents *)

Lemma nonspace_head_not_blank (c : char) (t : str) :
  isspace c = false -> strip (c :: t) <> [].
Proof.
  intros Hc H. apply strip_nil in H. simpl in H. rewrite Hc in H.
  discriminate.
Qed.

Section AddDocumentMoreFacts.

Import DocumentManager.

Variable lower : str -> str.
Variable data_dir : str.
Variable decode_utf8 : MD5.bytes -> outcome str.
Variable pdf_pages : MD5.bytes -> outcome (list str).
Variable docx_paragraphs : MD5.bytes -> outcome (list str).
Variable insert_error : Document -> option str.
Variable copy_error : str -> str -> PyDict.dict MD5.bytes -> option str.

Local Abbreviation extract :=
  (_extract_text_from_file lower decode_utf8 pdf_pages docx_paragraphs).

Local Abbreviation add_document :=
  (add_document lower data_dir decode_utf8 pdf_pages docx_paragraphs
     insert_error copy_error).

(** The document made of a file, and where its copy goes. *)
Definition made_document (file_path category : str) (s : state)
    (b : MD5.bytes) : Document :=
  {| text := extract file_path s;
     metadata :=
       {| file_path := file_path;
          file_name := OsPath.basename file_path;
          category := category;
          file_type := lower (snd (OsPath.splitext file_path));
          file_size := Z.of_nat (List.length b) |} |}.

Definition copy_path (file_path : str) : str :=
  OsPath.join (documents_dir data_dir) (OsPath.basename file_path).

(** The state a call leaves when the file was read and inserted: the
    document is in the index, and the copy is made unless the file is its
    own copy or the copy raises. *)
Definition inserted (file_path category : str) (s : state)
    (idx : list Document) (b : MD5.bytes) : state :=
  {| index := Some (idx ++ [made_document file_path category s b]);
     files := files s;
     errors := errors s |}.

(** What a call does once the index is there, the extension is supported,
    the file can be read, its text is not blank and the insertion does
    not raise. *)
Lemma add_document_inserts file_path category s idx b :
  index s = Some idx ->
  mem (lower (snd (OsPath.splitext file_path))) supported_extensions = true ->
  PyDict.get file_path (files s) = Some b ->
  strip (extract file_path s) <> [] ->
  insert_error (made_document file_path category s b) = None ->
  add_document file_path category s
  = if eqb file_path (copy_path file_path) then
      (true, inserted file_path category s idx b)
    else
      match copy_error file_path (copy_path file_path) (files s) with
      | Some e =>
          (false,
           st_error (msg_add_document_failed ++ e)
             (inserted file_path category s idx b))
      | None =>
          (true,
           set_files (PyDict.set (copy_path file_path) b (files s))
             (inserted file_path category s idx b))
      end.
Proof.
  intros Hi Hs Hg Hne He.
  unfold DocumentManager.add_document. rewrite Hi, Hs. cbn [negb].
  unfold add_body.
  destruct (strip (extract file_path s)) as [|c t] eqn:Es; [congruence|].
  unfold getsize, read_file. rewrite Hg. cbn [bind].
  fold (made_document file_path category s b). rewrite He.
  fold (copy_path file_path).
  destruct (eqb file_path (copy_path file_path)); [reflexivity|].
  unfold copy2, read_file. cbn [set_index files].
  destruct (copy_error file_path (copy_path file_path) (files s));
    [reflexivity|].
  rewrite Hg. reflexivity.
Qed.

(** A call gets as far as the insertion, or returns [False] and leaves
    the index and the files alone. *)
Lemma add_document_cases file_path category s :
  (exists idx b,
      index s = Some idx
      /\ mem (lower (snd (OsPath.splitext file_path))) supported_extensions
         = true
      /\ PyDict.get file_path (files s) = Some b
      /\ strip (extract file_path s) <> []
      /\ insert_error (made_document file_path category s b) = None)
  \/ (fst (add_document file_path category s) = false
      /\ index (snd (add_document file_path category s)) = index s
      /\ files (snd (add_document file_path category s)) = files s).
Proof.
  unfold DocumentManager.add_document.
  destruct (index s) as [idx|] eqn:Hi; [|right; auto].
  destruct (mem (lower (snd (OsPath.splitext file_path)))
                supported_extensions) eqn:Hs; cbn [negb];
    [|right; cbn; auto].
  unfold add_body.
  destruct (strip (extract file_path s)) as [|c t] eqn:Es;
    [right; cbn; auto|].
  unfold getsize, read_file.
  destruct (PyDict.get file_path (files s)) as [b|] eqn:Hg;
    [|right; cbn; auto].
  cbn [bind].
  fold (made_document file_path category s b).
  destruct (insert_error (made_document file_path category s b)) eqn:He;
    [right; cbn; auto|].
  left. exists idx, b. repeat split; try reflexivity; try assumption.
  discriminate.
Qed.

(** A call that returns [True] went through every step. *)
Lemma add_document_success file_path category s :
  fst (add_document file_path category s) = true ->
  exists idx b,
    index s = Some idx
    /\ PyDict.get file_path (files s) = Some b
    /\ mem (lower (snd (OsPath.splitext file_path))) supported_extensions
       = true
    /\ strip (extract file_path s) <> []
    /\ insert_error (made_document file_path category s b) = None
    /\ snd (add_document file_path category s)
       = {| index := Some (idx ++ [made_document file_path category s b]);
            files :=
              if eqb file_path (copy_path file_path) then files s
              else PyDict.set (copy_path file_path) b (files s);
            errors := errors s |}.
Proof.
  destruct (add_document_cases file_path category s)
    as [(idx & b & Hi & Hs & Hg & Hne & He) | (-> & _)]; [|discriminate].
  rewrite (add_document_inserts Hi Hs Hg Hne He).
  intros Hok. exists idx, b.
  split; [exact Hi|]. split; [exact Hg|]. split; [exact Hs|].
  split; [exact Hne|]. split; [exact He|].
  destruct (eqb file_path (copy_path file_path)); [reflexivity|].
  destruct (copy_error file_path (copy_path file_path) (files s));
    [discriminate Hok | reflexivity].
Qed.

(** A call that returns [False] leaves the files alone, and the index as
    well unless the copy raised: the document is then in the index. *)
Lemma add_document_failure file_path category s :
  fst (add_document file_path category s) = false ->
  files (snd (add_document file_path category s)) = files s
  /\ (index (snd (add_document file_path category s)) = index s
      \/ exists idx b e,
           index s = Some idx
           /\ PyDict.get file_path (files s) = Some b
           /\ file_path <> copy_path file_path
           /\ copy_error file_path (copy_path file_path) (files s) = Some e
           /\ index (snd (add_document file_path category s))
              = Some (idx ++ [made_document file_path category s b])
           /\ errors (snd (add_document file_path category s))
              = errors s ++ [msg_add_document_failed ++ e]).
Proof.
  destruct (add_document_cases file_path category s)
    as [(idx & b & Hi & Hs & Hg & Hne & He) | (_ & Hidx & Hf)];
    [|intros _; split; [exact Hf | left; exact Hidx]].
  rewrite (add_document_inserts Hi Hs Hg Hne He).
  destruct (eqb file_path (copy_path file_path)) eqn:Ee; [discriminate|].
  destruct (copy_error file_path (copy_path file_path) (files s)) as [e|]
    eqn:Ec; [|discriminate].
  intros _. split; [reflexivity|]. right. exists idx, b, e.
  apply eqb_neq in Ee. repeat split; try assumption; reflexivity.
Qed.

(** X12: when [add_document] returns [True], exactly one document was
    added to the index: its text is the extracted text, which is not
    blank, its file name the base name of the path, its category the
    one given, its type the lowered extension and its size the length of
    the file; a copy with the content of the file is in the documents
    directory, the file itself is still there, and nothing is reported. *)
Theorem add_document_success_spec file_path category s :
  fst (add_document file_path category s) = true ->
  exists idx b d,
    index s = Some idx
    /\ PyDict.get file_path (files s) = Some b
    /\ index (snd (add_document file_path category s)) = Some (idx ++ [d])
    /\ text d = extract file_path s
    /\ strip (text d) <> []
    /\ file_name (metadata d) = OsPath.basename file_path
    /\ DocumentManager.category (metadata d) = category
    /\ file_type (metadata d) = lower (snd (OsPath.splitext file_path))
    /\ file_size (metadata d) = Z.of_nat (List.length b)
    /\ PyDict.get (copy_path file_path)
         (files (snd (add_document file_path category s))) = Some b
    /\ PyDict.get file_path
         (files (snd (add_document file_path category s))) = Some b
    /\ errors (snd (add_document file_path category s)) = errors s.
Proof.
  intros H. destruct (add_document_success _ _ _ H)
    as (idx & b & Hi & Hg & _ & Hs & _ & ->).
  exists idx, b, (made_document file_path category s b).
  cbn [index files errors made_document text metadata file_name
       DocumentManager.category file_type file_size].
  repeat split; try assumption; try reflexivity.
  - destruct (eqb file_path (copy_path file_path)) eqn:E.
    + apply eqb_eq in E. rewrite <- E. exact Hg.
    + apply get_set_same.
  - destruct (eqb file_path (copy_path file_path)) eqn:E; [exact Hg|].
    rewrite get_set, E. exact Hg.
Qed.


(** X14: a file of a supported type that exists but cannot be decoded is
    not rejected: the text of the error message is indexed as its
    content, and the call returns [True] unless the copy into the
    documents directory raises. *)
Theorem add_document_indexes_error_text file_path category s idx b e :
  index s = Some idx ->
  mem (lower (snd (OsPath.splitext file_path))) supported_extensions = true ->
  PyDict.get file_path (files s) = Some b ->
  extract_body decode_utf8 pdf_pages docx_paragraphs
    (lower (snd (OsPath.splitext file_path))) file_path s = Raise e ->
  insert_error (made_document file_path category s b) = None ->
  (fst (add_document file_path category s) = true
   <-> file_path = copy_path file_path
       \/ copy_error file_path (copy_path file_path) (files s) = None)
  /\ exists d,
       index (snd (add_document file_path category s)) = Some (idx ++ [d])
       /\ text d = msg_read_error ++ e.
Proof.
  intros Hi Hs Hg Hb He.
  assert (Ht : extract file_path s = msg_read_error ++ e).
  { unfold _extract_text_from_file. rewrite Hb. reflexivity. }
  assert (Hne : strip (extract file_path s) <> []).
  { rewrite Ht. apply nonspace_head_not_blank. reflexivity. }
  rewrite (add_document_inserts Hi Hs Hg Hne He).
  destruct (eqb file_path (copy_path file_path)) eqn:Ee.
  - apply eqb_eq in Ee. cbn [fst snd inserted index]. split.
    + split; [intros _; left; exact Ee | reflexivity].
    + eexists. split; [reflexivity | exact Ht].
  - apply eqb_neq in Ee.
    destruct (copy_error file_path (copy_path file_path) (files s)) as [e'|];
      cbn [fst snd inserted index st_error set_files]; split.
    + split; [discriminate | intros [H|H]; [congruence | discriminate H]].
    + eexists. split; [reflexivity | exact Ht].
    + split; [intros _; right; reflexivity | reflexivity].
    + eexists. split; [reflexivity | exact Ht].
Qed.

(** X15: two files with the same base name share one copy: when both are
    added, the index holds both documents, under the same file name, and
    the documents directory holds one file, with the content of the
    second. *)
Theorem add_document_same_basename p1 p2 c1 c2 s :
  OsPath.basename p1 = OsPath.basename p2 ->
  fst (add_document p1 c1 s) = true ->
  fst (add_document p2 c2 (snd (add_document p1 c1 s))) = true ->
  exists idx b2 d1 d2,
    index s = Some idx
    /\ index (snd (add_document p2 c2 (snd (add_document p1 c1 s))))
       = Some (idx ++ [d1; d2])
    /\ file_name (metadata d1) = file_name (metadata d2)
    /\ copy_path p1 = copy_path p2
    /\ PyDict.get p2 (files (snd (add_document p1 c1 s))) = Some b2
    /\ PyDict.get (copy_path p1)
         (files (snd (add_document p2 c2 (snd (add_document p1 c1 s)))))
       = Some b2
    /\ PyDict.keys
         (files (snd (add_document p2 c2 (snd (add_document p1 c1 s)))))
       = PyDict.keys (files (snd (add_document p1 c1 s))).
Proof.
  intros Hb H1 H2.
  destruct (add_document_success _ _ _ H1)
    as (idx & b1 & Hi & Hg1 & _ & _ & _ & E1).
  destruct (add_document_success _ _ _ H2)
    as (idx' & b2 & Hi' & Hg2 & _ & _ & _ & E2).
  assert (Hc : copy_path p1 = copy_path p2)
    by (unfold copy_path; rewrite Hb; reflexivity).
  set (s1 := snd (add_document p1 c1 s)) in *.
  assert (Hidx : idx' = idx ++ [made_document p1 c1 s b1]).
  { rewrite E1 in Hi'. cbn in Hi'. congruence. }
  assert (Hcopy : PyDict.has_key (copy_path p2) (files s1) = true).
  { rewrite <- Hc. rewrite E1. cbn [files]. unfold PyDict.has_key.
    destruct (eqb p1 (copy_path p1)) eqn:E.
    - apply eqb_eq in E. rewrite <- E, Hg1. reflexivity.
    - rewrite get_set_same. reflexivity. }
  exists idx, b2, (made_document p1 c1 s b1), (made_document p2 c2 s1 b2).
  rewrite E2. cbn [index files].
  split; [exact Hi|]. split; [rewrite Hidx, <- app_assoc; reflexivity|].
  split; [cbn; exact Hb|]. split; [exact Hc|]. split; [exact Hg2|].
  rewrite Hc. destruct (eqb p2 (copy_path p2)) eqn:E.
  - apply eqb_eq in E. split; [rewrite <- E; exact Hg2 | reflexivity].
  - split; [apply get_set_same|].
    rewrite keys_set, Hcopy. reflexivity.
Qed.

End AddDocumentMoreFacts.

(** ** More on document search *)

Lemma preview_length (t : str) :
  (List.length (DocumentManager.preview t) <= 303)%nat.
Proof.
  unfold DocumentManager.preview.
  destruct (300 <? List.length t)%nat eqn:E.
  - rewrite length_app, length_firstn.
    change (List.length ellipsis) with 3%nat.
    pose proof (Nat.le_min_l 300 (List.length t)). lia.
  - apply Nat.ltb_ge in E. lia.
Qed.

Section SearchDocumentsMoreFacts.

Import DocumentManager.

Variable query_engine : list Document -> nat -> str -> outcome (list node).

(** Whether a result stays under a category argument. *)
Definition category_keeps (category : option str) (r : result) : bool :=
  match category with
  | Some ((_ :: _) as c) => eqb c wildcard || eqb (r_category r) c
  | _ => true
  end.

Lemma search_step_filter category n :
  search_step category n
  = filter (category_keeps category) (search_step None n).
Proof.
  unfold search_step, category_keeps. cbn [filter].
  destruct category as [[|x c]|]; try reflexivity.
  destruct (eqb (x :: c) wildcard), (eqb (r_category (to_result n)) (x :: c));
    reflexivity.
Qed.

(** X16: a document search changes neither the index nor the files.  With
    no index it returns the empty list; when the query engine raises it
    returns the empty list and reports the failure.  The content of every
    result has at most 303 characters, and a search with a category gives
    the results of the search without one that are of that category, in
    the same order. *)
Theorem search_documents_quiet query category top_k s :
  index (snd (search_documents query_engine query category top_k s))
  = index s
  /\ files (snd (search_documents query_engine query category top_k s))
     = files s
  /\ (index s = None ->
      search_documents query_engine query category top_k s = ([], s))
  /\ (forall idx e,
        index s = Some idx -> query_engine idx top_k query = Raise e ->
        fst (search_documents query_engine query category top_k s) = []
        /\ errors (snd (search_documents query_engine query category top_k s))
           = errors s ++ [msg_search_failed ++ e])
  /\ (forall r,
        In r (fst (search_documents query_engine query category top_k s)) ->
        (List.length (content r) <= 303)%nat)
  /\ fst (search_documents query_engine query category top_k s)
     = filter (category_keeps category)
         (fst (search_documents query_engine query None top_k s)).
Proof.
  unfold search_documents.
  destruct (index s) as [idx|] eqn:Hi.
  - destruct (query_engine idx top_k query) as [nodes|e] eqn:E; cbn [fst snd].
    + split; [exact Hi|]. split; [reflexivity|]. split; [discriminate|].
      split; [intros idx' e' H1 H2; inversion H1; subst; congruence|].
      split.
      * intros r Hr. apply in_flat_map in Hr. destruct Hr as (n & _ & Hr).
        rewrite search_step_filter in Hr. apply filter_In in Hr.
        destruct Hr as [[<-|[]] _]. apply preview_length.
      * clear E. induction nodes as [|n nodes IH]; [reflexivity|].
        cbn [flat_map]. rewrite filter_app, <- IH. f_equal.
        apply search_step_filter.
    + split; [exact Hi|]. split; [reflexivity|]. split; [discriminate|].
      split; [|split; [intros r []|reflexivity]].
      intros idx' e' H1 H2. inversion H1; subst.
      rewrite E in H2. inversion H2; subst. split; reflexivity.
  - cbn [fst snd]. split; [exact Hi|]. split; [reflexivity|].
    split; [reflexivity|]. split; [discriminate|].
    split; [intros r []|reflexivity].
Qed.

End SearchDocumentsMoreFacts.

(** ** Document statistics *)

Lemma strip_prefix_app (pre s : str) :
  DocumentManager.strip_prefix pre (pre ++ s) = Some s.
Proof.
  induction pre as [|x pre IH]; simpl; [destruct s; reflexivity|].
  unfold char_eqb. rewrite N.eqb_refl. exact IH.
Qed.

Lemma first_component_no_sep (s : str) :
  ~ In OsPath.sep s -> DocumentManager.first_component s = s.
Proof.
  induction s as [|x s IH]; simpl; [reflexivity|]. intros H.
  destruct (char_eqb x OsPath.sep) eqn:E.
  - apply N.eqb_eq in E. tauto.
  - rewrite IH; tauto.
Qed.

Section ListdirFacts.

Import DocumentManager.

(** The name under which a path of the file map is listed in [d]. *)
Definition listed_as (d : str) (p name : str) : Prop :=
  name <> []
  /\ exists rest,
       strip_prefix (d ++ [OsPath.sep]) p = Some rest
       /\ first_component rest = name.

Lemma add_name_In x l y : In y (add_name x l) <-> In y l \/ y = x.
Proof.
  unfold add_name. destruct (mem x l) eqn:E.
  - apply mem_In in E. intuition congruence.
  - rewrite in_app_iff. simpl. intuition congruence.
Qed.

Lemma add_name_NoDup x l : NoDup l -> NoDup (add_name x l).
Proof.
  intros H. unfold add_name. destruct (mem x l) eqn:E; [exact H|].
  apply NoDup_app; [exact H | repeat constructor; intros [] |].
  intros y Hy [<-|[]]. apply mem_In in Hy. congruence.
Qed.

Lemma listdir_In d s name :
  In name (listdir d s)
  <-> exists p (b : MD5.bytes), In (p, b) (files s) /\ listed_as d p name.
Proof.
  unfold listdir.
  assert (H : forall (l : list (str * MD5.bytes)) acc,
             In name
               (fold_left
                  (fun acc item =>
                     match strip_prefix (d ++ [OsPath.sep]) (fst item) with
                     | Some rest =>
                         match first_component rest with
                         | [] => acc
                         | (_ :: _) as name => add_name name acc
                         end
                     | None => acc
                     end) l acc)
             <-> In name acc
                 \/ exists p b, In (p, b) l /\ listed_as d p name).
  { induction l as [|[p b] l IH]; intros acc; cbn [fold_left fst].
    - split; [auto | intros [H | (p & b & [] & _)]; exact H].
    - rewrite IH. unfold listed_as.
      destruct (strip_prefix (d ++ [OsPath.sep]) p) as [rest|] eqn:E.
      + destruct (first_component rest) as [|x n] eqn:E'.
        * split.
          -- intros [H | (p' & b' & Hin & Hl)]; [auto|].
             right. exists p', b'. split; [right; exact Hin | exact Hl].
          -- intros [H | (p' & b' & [Heq|Hin] & Hne & rest' & H1 & H2)];
               [auto | | right; exists p', b'; eauto].
             inversion Heq; subst. rewrite E in H1. inversion H1; subst.
             rewrite E' in Hne. congruence.
        * rewrite add_name_In. split.
          -- intros [[H | ->] | (p' & b' & Hin & Hl)]; [auto | |].
             ++ right. exists p, b. split; [left; reflexivity|].
                split; [discriminate|]. exists rest. auto.
             ++ right. exists p', b'. split; [right; exact Hin | exact Hl].
          -- intros [H | (p' & b' & [Heq|Hin] & Hne & rest' & H1 & H2)];
               [auto | | right; exists p', b'; eauto].
             inversion Heq; subst. rewrite E in H1. inversion H1; subst.
             left. right. congruence.
      + split.
        * intros [H | (p' & b' & Hin & Hl)]; [auto|].
          right. exists p', b'. split; [right; exact Hin | exact Hl].
        * intros [H | (p' & b' & [Heq|Hin] & Hne & rest' & H1 & H2)];
            [auto | | right; exists p', b'; eauto].
          inversion Heq; subst. congruence. }
  rewrite H. simpl. tauto.
Qed.

Lemma listdir_NoDup d s : NoDup (listdir d s).
Proof.
  unfold listdir. generalize (NoDup_nil str). generalize (@nil str).
  induction (files s) as [|[p b] l IH]; intros acc Hacc; cbn [fold_left fst].
  - exact Hacc.
  - apply IH. destruct (strip_prefix _ p) as [rest|]; [|exact Hacc].
    destruct (first_component rest); [exact Hacc|].
    apply add_name_NoDup. exact Hacc.
Qed.

End ListdirFacts.

Section DocumentStatsFacts.

Import DocumentManager.

Variable lower : str -> str.
Variable data_dir : str.

(** Whether a listed name is a file of the documents directory. *)
Definition is_document (s : state) (name : str) : bool :=
  PyDict.has_key (OsPath.join (documents_dir data_dir) name) (files s).

Lemma document_stats_step s acc name :
  DocumentManager.stats_categories acc = [] ->
  sum_values (file_types acc) = Z.of_nat (total_files acc) ->
  PyDict.wf (file_types acc) ->
  DocumentManager.stats_categories (stats_step lower data_dir s acc name) = []
  /\ sum_values (file_types (stats_step lower data_dir s acc name))
     = Z.of_nat (total_files (stats_step lower data_dir s acc name))
  /\ PyDict.wf (file_types (stats_step lower data_dir s acc name))
  /\ total_files (stats_step lower data_dir s acc name)
     = (total_files acc + if is_document s name then 1 else 0)%nat.
Proof.
  intros Hc Hs Hw. unfold stats_step, is_document, PyDict.has_key.
  destruct (PyDict.get (OsPath.join (documents_dir data_dir) name)
                       (files s)) as [b|].
  - cbn [file_types total_files DocumentManager.stats_categories].
    split; [exact Hc|]. split.
    + rewrite sum_values_set.
      fold (count_of (lower (snd (OsPath.splitext name))) (file_types acc)).
      lia.
    + split; [apply wf_set; exact Hw | lia].
  - repeat split; auto.
Qed.

Lemma document_stats_fold s names acc :
  DocumentManager.stats_categories acc = [] ->
  sum_values (file_types acc) = Z.of_nat (total_files acc) ->
  PyDict.wf (file_types acc) ->
  DocumentManager.stats_categories
    (fold_left (stats_step lower data_dir s) names acc) = []
  /\ sum_values (file_types (fold_left (stats_step lower data_dir s) names acc))
     = Z.of_nat (total_files
                   (fold_left (stats_step lower data_dir s) names acc))
  /\ PyDict.wf (file_types (fold_left (stats_step lower data_dir s) names acc))
  /\ total_files (fold_left (stats_step lower data_dir s) names acc)
     = (total_files acc + List.length (filter (is_document s) names))%nat.
Proof.
  revert acc; induction names as [|name names IH]; intros acc Hc Hs Hw.
  - cbn. repeat split; auto.
  - cbn [fold_left filter].
    destruct (@document_stats_step s acc name Hc Hs Hw) as (H1 & H2 & H3 & H4).
    destruct (IH _ H1 H2 H3) as (K1 & K2 & K3 & K4).
    repeat split; try assumption.
    rewrite K4, H4. destruct (is_document s name); cbn [List.length]; lia.
Qed.

(** X17: the document statistics count the files that lie directly in the
    documents directory, each once; the counts per file type add up to
    that number; and the statistics per category are always empty. *)
Theorem document_stats_counts s :
  DocumentManager.stats_categories (get_document_stats lower data_dir s) = []
  /\ total_files (get_document_stats lower data_dir s)
     = List.length (filter (is_document s)
                      (listdir (documents_dir data_dir) s))
  /\ NoDup (listdir (documents_dir data_dir) s)
  /\ sum_values (file_types (get_document_stats lower data_dir s))
     = Z.of_nat (total_files (get_document_stats lower data_dir s))
  /\ PyDict.wf (file_types (get_document_stats lower data_dir s)).
Proof.
  unfold get_document_stats.
  match goal with
  | |- context [fold_left _ ?names ?a] =>
      destruct (document_stats_fold s names a) as (H1 & H2 & H3 & H4)
  end; try reflexivity; [constructor|].
  split; [exact H1|]. split; [rewrite H4; reflexivity|].
  split; [apply listdir_NoDup|]. split; assumption.
Qed.

End DocumentStatsFacts.

Lemma documents_dir_prefix (data_dir : str) :
  join_prefix (DocumentManager.documents_dir data_dir)
  = DocumentManager.documents_dir data_dir ++ [OsPath.sep].
Proof.
  unfold DocumentManager.documents_dir. rewrite join_relative by reflexivity.
  unfold join_prefix at 1.
  change (lit "documents") with (lit "document" ++ [115%N]).
  rewrite endswith_char_app.
  destruct (join_prefix data_dir ++ lit "document" ++ [115%N]) eqn:E.
  - destruct (join_prefix data_dir); discriminate.
  - reflexivity.
Qed.

Section AddedDocumentListed.

Import DocumentManager.

Variable lower : str -> str.
Variable data_dir : str.
Variable decode_utf8 : MD5.bytes -> outcome str.
Variable pdf_pages : MD5.bytes -> outcome (list str).
Variable docx_paragraphs : MD5.bytes -> outcome (list str).
Variable insert_error : Document -> option str.
Variable copy_error : str -> str -> PyDict.dict MD5.bytes -> option str.

Local Abbreviation add_document :=
  (add_document lower data_dir decode_utf8 pdf_pages docx_paragraphs
     insert_error copy_error).

(** X18: a document that was added is in the listing of the documents
    directory under its base name, the copy is a file there, and the
    statistics count at least one file. *)
Theorem added_document_counted file_path category s :
  fst (add_document file_path category s) = true ->
  OsPath.basename file_path <> [] ->
  In (OsPath.basename file_path)
     (listdir (documents_dir data_dir)
        (snd (add_document file_path category s)))
  /\ is_document data_dir (snd (add_document file_path category s))
       (OsPath.basename file_path) = true
  /\ (1 <= total_files
            (get_document_stats lower data_dir
               (snd (add_document file_path category s))))%nat.
Proof.
  intros Ht Hne.
  destruct (add_document_success _ _ _ _ _ _ _ _ _ _ Ht)
    as (idx & b & _ & Hg & _ & _ & _ & E).
  set (s' := snd (add_document file_path category s)) in *.
  assert (Hcopy : PyDict.get (copy_path data_dir file_path) (files s')
                  = Some b).
  { rewrite E. cbn [files].
    destruct (eqb file_path (copy_path data_dir file_path)) eqn:Ee.
    - apply eqb_eq in Ee. rewrite <- Ee. exact Hg.
    - apply get_set_same. }
  assert (Hl : In (OsPath.basename file_path)
                  (listdir (documents_dir data_dir) s')).
  { apply (proj2 (@listdir_In (documents_dir data_dir) s'
                       (OsPath.basename file_path))).
    exists (copy_path data_dir file_path), b.
    split; [apply get_In; exact Hcopy|].
    split; [exact Hne|]. exists (OsPath.basename file_path).
    split; [|apply first_component_no_sep, basename_no_sep].
    unfold copy_path.
    rewrite join_relative
      by apply startswith_sep_false, basename_no_sep.
    rewrite documents_dir_prefix. apply strip_prefix_app. }
  assert (Hd : is_document data_dir s' (OsPath.basename file_path) = true).
  { unfold is_document, PyDict.has_key. fold (copy_path data_dir file_path).
    rewrite Hcopy. reflexivity. }
  split; [exact Hl|]. split; [exact Hd|].
  unfold get_document_stats.
  match goal with
  | |- context [fold_left _ ?names ?a] =>
      destruct (@document_stats_fold lower data_dir s' names a)
        as (_ & _ & _ & H4)
  end; try reflexivity; [constructor|].
  rewrite H4. cbn [total_files plus].
  assert (Hf : In (OsPath.basename file_path)
                  (filter (is_document data_dir s')
                     (listdir (documents_dir data_dir) s'))).
  { apply filter_In. split; assumption. }
  destruct (filter (is_document data_dir s')
              (listdir (documents_dir data_dir) s')); [destruct Hf|].
  cbn [List.length]. lia.
Qed.

End AddedDocumentListed.

(** ** The search engine *)

Section SearchAllFacts.

Variable lower : str -> str.
Variable query_engine :
  list DocumentManager.Document -> nat -> str
  -> outcome (list DocumentManager.node).

Local Abbreviation search_all := (SearchEngine.search_all lower query_engine).

Lemma search_documents_length query category top_k s :
  (forall idx k q nodes,
      query_engine idx k q = Ok nodes -> (List.length nodes <= k)%nat) ->
  (List.length
     (fst (DocumentManager.search_documents query_engine query category
             top_k s)) <= top_k)%nat.
Proof.
  intros Hk. unfold DocumentManager.search_documents.
  destruct (DocumentManager.index s) as [idx|]; [|cbn; lia].
  destruct (query_engine idx top_k query) as [nodes|e] eqn:E; [|cbn; lia].
  cbn [fst]. pose proof (search_step_length category nodes).
  pose proof (Hk _ _ _ _ E). lia.
Qed.

Lemma search_all_documents query search_type category s :
  SearchEngine.documents (fst (search_all query search_type category s))
  = if mem search_type [lit "all"; lit "documents"] then
      fst (DocumentManager.search_documents query_engine query category 5
             (SearchEngine.doc_manager s))
    else [].
Proof.
  unfold SearchEngine.search_all.
  destruct (mem search_type [lit "all"; lit "documents"]);
    [destruct (DocumentManager.search_documents _ _ _ _ _)|];
    destruct (mem search_type [lit "all"; lit "images"]); reflexivity.
Qed.

Lemma search_all_images query search_type category s :
  SearchEngine.images (fst (search_all query search_type category s))
  = if mem search_type [lit "all"; lit "images"] then
      fst (ImageManager.search_images lower query category None
             (SearchEngine.img_manager s))
    else [].
Proof.
  unfold SearchEngine.search_all.
  destruct (mem search_type [lit "all"; lit "documents"]);
    [destruct (DocumentManager.search_documents _ _ _ _ _)|];
    destruct (mem search_type [lit "all"; lit "images"]); reflexivity.
Qed.

Lemma search_all_state query search_type category s :
  snd (search_all query search_type category s)
  = {| SearchEngine.doc_manager :=
         if mem search_type [lit "all"; lit "documents"] then
           snd (DocumentManager.search_documents query_engine query category
                  5 (SearchEngine.doc_manager s))
         else SearchEngine.doc_manager s;
       SearchEngine.img_manager := SearchEngine.img_manager s |}.
Proof.
  unfold SearchEngine.search_all.
  destruct (mem search_type [lit "all"; lit "documents"]);
    [destruct (DocumentManager.search_documents _ _ _ _ _)|];
    destruct (mem search_type [lit "all"; lit "images"]); reflexivity.
Qed.

Lemma search_documents_frame query category top_k s :
  DocumentManager.index
    (snd (DocumentManager.search_documents query_engine query category top_k
            s))
  = DocumentManager.index s
  /\ DocumentManager.files
       (snd (DocumentManager.search_documents query_engine query category
               top_k s))
     = DocumentManager.files s.
Proof.
  unfold DocumentManager.search_documents.
  destruct (DocumentManager.index s) eqn:Hi;
    [|cbn [snd]; rewrite Hi; split; reflexivity].
  destruct (query_engine _ top_k query);
    cbn [snd DocumentManager.st_error DocumentManager.index
         DocumentManager.files];
    rewrite ?Hi; split; reflexivity.
Qed.

(** X19: [search_all] by scope.  It returns at most five documents and
    never changes the images, the index or the files; the scope of the
    images searches no document and changes nothing, the scope of the
    documents searches no image, and any other scope than the three gives
    two empty lists.  With a category that is neither empty nor the
    wildcard, every document and every image returned is of that
    category. *)
Theorem search_all_scope query search_type category s :
  (forall idx k q nodes,
      query_engine idx k q = Ok nodes -> (List.length nodes <= k)%nat) ->
  (List.length
     (SearchEngine.documents (fst (search_all query search_type category s)))
   <= 5)%nat
  /\ SearchEngine.img_manager (snd (search_all query search_type category s))
     = SearchEngine.img_manager s
  /\ DocumentManager.index
       (SearchEngine.doc_manager
          (snd (search_all query search_type category s)))
     = DocumentManager.index (SearchEngine.doc_manager s)
  /\ DocumentManager.files
       (SearchEngine.doc_manager
          (snd (search_all query search_type category s)))
     = DocumentManager.files (SearchEngine.doc_manager s)
  /\ (search_type = lit "images" ->
      SearchEngine.documents (fst (search_all query search_type category s))
      = []
      /\ snd (search_all query search_type category s) = s)
  /\ (search_type = lit "documents" ->
      SearchEngine.images (fst (search_all query search_type category s))
      = [])
  /\ (search_type <> lit "all" -> search_type <> lit "documents" ->
      search_type <> lit "images" ->
      search_all query search_type category s
      = ({| SearchEngine.documents := []; SearchEngine.images := [] |}, s))
  /\ (forall c, category = Some c -> c <> [] -> c <> wildcard ->
      (forall d,
          In d (SearchEngine.documents
                  (fst (search_all query search_type category s))) ->
          DocumentManager.r_category d = c)
      /\ (forall i,
             In i (SearchEngine.images
                     (fst (search_all query search_type category s))) ->
             ImageManager.r_category i = c)).
Proof.
  intros Hk.
  rewrite search_all_documents, search_all_images, search_all_state.
  cbn [SearchEngine.doc_manager SearchEngine.img_manager].
  pose proof (@search_documents_length query category 5
                (SearchEngine.doc_manager s) Hk) as Hlen.
  pose proof (search_documents_frame query category 5
                (SearchEngine.doc_manager s)) as [Hq1 Hq2].
  split; [destruct (mem search_type _); [exact Hlen | cbn; lia]|].
  split; [reflexivity|].
  split; [destruct (mem search_type _); [exact Hq1 | reflexivity]|].
  split; [destruct (mem search_type _); [exact Hq2 | reflexivity]|].
  split; [intros ->; split; [reflexivity | destruct s; reflexivity]|].
  split; [intros ->; reflexivity|].
  split.
  - intros H1 H2 H3.
    assert (E1 : mem search_type [lit "all"; lit "documents"] = false).
    { destruct (mem search_type [lit "all"; lit "documents"]) eqn:E;
        [|reflexivity].
      apply mem_In in E. destruct E as [E|[E|[]]]; congruence. }
    assert (E2 : mem search_type [lit "all"; lit "images"] = false).
    { destruct (mem search_type [lit "all"; lit "images"]) eqn:E;
        [|reflexivity].
      apply mem_In in E. destruct E as [E|[E|[]]]; congruence. }
    unfold SearchEngine.search_all. rewrite E1, E2.
    destruct s; reflexivity.
  - intros c -> Hc Hw. split.
    + intros d. destruct (mem search_type _); [|intros []].
      apply search_documents_category; assumption.
    + intros i. destruct (mem search_type [lit "all"; lit "images"]);
        [|intros []].
      intros Hin. apply search_images_In in Hin.
      destruct Hin as (fn & m & _ & -> & Hsel & _).
      cbn. apply Hsel; auto.
Qed.

End SearchAllFacts.

Lemma del_set_other (V : Type) (k k' : str) (v : V) (d : PyDict.dict V) :
  k <> k' ->
  PyDict.del k (PyDict.set k' v d) = PyDict.set k' v (PyDict.del k d).
Proof.
  intros Hne. apply eqb_neq in Hne. unfold PyDict.del.
  induction d as [|[k0 v0] d IH]; cbn [PyDict.set filter fst].
  - rewrite Hne. reflexivity.
  - destruct (eqb k' k0) eqn:E.
    + apply eqb_eq in E. subst k0. cbn [filter fst]. rewrite Hne.
      cbn [negb PyDict.set]. rewrite eqb_refl. reflexivity.
    + cbn [filter fst]. destruct (eqb k k0); cbn [negb PyDict.set].
      * exact IH.
      * rewrite E, IH. reflexivity.
Qed.

Section UploadDocumentFacts.

Variable lower : str -> str.
Variable data_dir : str.
Variable decode_utf8 : MD5.bytes -> outcome str.
Variable pdf_pages : MD5.bytes -> outcome (list str).
Variable docx_paragraphs : MD5.bytes -> outcome (list str).
Variable insert_error : DocumentManager.Document -> option str.
Variable copy_error : str -> str -> PyDict.dict MD5.bytes -> option str.
Variable open_error : str -> PyDict.dict MD5.bytes -> option str.
Variable remove_error : str -> PyDict.dict MD5.bytes -> option str.

Local Abbreviation add_document_from_upload :=
  (SearchEngine.add_document_from_upload lower data_dir decode_utf8 pdf_pages
     docx_paragraphs insert_error copy_error open_error remove_error).

Local Abbreviation add_document :=
  (DocumentManager.add_document lower data_dir decode_utf8 pdf_pages
     docx_paragraphs insert_error copy_error).

(** The manager with the temporary file written. *)
Definition with_upload (u : ImageManager.uploaded_file) (tmp : str)
    (s : SearchEngine.state) : DocumentManager.state :=
  DocumentManager.set_files
    (PyDict.set (tmp ++ ImageManager.name u) (ImageManager.getvalue u)
       (DocumentManager.files (SearchEngine.doc_manager s)))
    (SearchEngine.doc_manager s).


End UploadDocumentFacts.

(** ** The pages *)

(** *** The tags typed into the upload form *)

Lemma lstrip_suffix (s : str) :
  exists pre, s = pre ++ lstrip s /\ forallb isspace pre = true.
Proof.
  induction s as [|c s (pre & E & H)]; [exists []; auto|].
  simpl. destruct (isspace c) eqn:Ec.
  - exists (c :: pre). simpl. rewrite Ec, H. split; [f_equal; exact E | auto].
  - exists []. auto.
Qed.

Lemma lstrip_fixed (s : str) :
  match s with [] => True | c :: _ => isspace c = false end -> lstrip s = s.
Proof. destruct s as [|c s]; simpl; [auto | intros ->; reflexivity]. Qed.

Lemma lstrip_idem (s : str) : lstrip (lstrip s) = lstrip s.
Proof. apply lstrip_fixed, lstrip_head. Qed.

(** [s.strip()] is a piece of [s] between white space. *)
Lemma strip_middle (s : str) :
  exists pre post,
    s = pre ++ strip s ++ post
    /\ forallb isspace pre = true /\ forallb isspace post = true.
Proof.
  unfold strip.
  destruct (lstrip_suffix s) as (pre & E & Hpre).
  destruct (lstrip_suffix (rev (lstrip s))) as (q & E' & Hq).
  exists pre, (rev q). split; [|split; [exact Hpre|]].
  - rewrite <- rev_app_distr, <- E', rev_involutive. exact E.
  - rewrite forallb_forall in *. intros x Hx. apply Hq, in_rev. exact Hx.
Qed.

Lemma strip_idem (s : str) : strip (strip s) = strip s.
Proof.
  unfold strip at 1.
  assert (H : lstrip (strip s) = strip s).
  { apply lstrip_fixed. unfold strip.
    destruct (lstrip_suffix (rev (lstrip s))) as (q & E & Hq).
    pose proof (lstrip_head s) as Hh.
    destruct (rev (lstrip (rev (lstrip s)))) as [|c t] eqn:Er; [exact I|].
    apply (f_equal (@rev char)) in E. rewrite rev_involutive in E.
    rewrite rev_app_distr, Er in E. rewrite E in Hh. exact Hh. }
  rewrite H. unfold strip at 1. rewrite rev_involutive, lstrip_idem.
  reflexivity.
Qed.

Lemma split_not_nil (c : char) (s : str) : Pages.split c s <> [].
Proof.
  destruct s as [|x s]; simpl; [discriminate|].
  destruct (char_eqb x c); [discriminate|].
  destruct (Pages.split c s); discriminate.
Qed.

(** Joining the pieces with the separator gives the string back. *)
Lemma join_split (c : char) (s : str) : join [c] (Pages.split c s) = s.
Proof.
  induction s as [|x s IH]; [reflexivity|]. simpl.
  destruct (char_eqb x c) eqn:E.
  - apply N.eqb_eq in E. subst x.
    pose proof (split_not_nil c s) as Hn.
    destruct (Pages.split c s) as [|p r]; [congruence|].
    cbn [join app] in *. rewrite IH. reflexivity.
  - destruct (Pages.split c s) as [|p r]; [simpl in IH; subst; reflexivity|].
    destruct r as [|p' r]; cbn [join app] in *; rewrite <- IH; reflexivity.
Qed.

Lemma join_piece (sep : str) (l : list str) (piece : str) :
  In piece l -> exists a b, join sep l = a ++ piece ++ b.
Proof.
  induction l as [|x l IH]; [intros []|].
  intros [<-|H].
  - destruct l as [|y l].
    + exists [], []. simpl. rewrite app_nil_r. reflexivity.
    + exists [], (sep ++ join sep (y :: l)). reflexivity.
  - destruct (IH H) as (a & b & E). destruct l as [|y l]; [destruct H|].
    exists (x ++ sep ++ a), b. cbn [join] in *. rewrite E, <- !app_assoc.
    reflexivity.
Qed.

Lemma split_no_sep (c : char) (s piece : str) :
  In piece (Pages.split c s) -> ~ In c piece.
Proof.
  revert piece; induction s as [|x s IH]; intros piece; simpl.
  - intros [<-|[]] [].
  - destruct (char_eqb x c) eqn:E.
    + intros [<-|H]; [intros [] | apply IH; exact H].
    + apply N.eqb_neq in E.
      destruct (Pages.split c s) as [|p r].
      * intros [<-|[]] [H|[]]. congruence.
      * intros [<-|H].
        -- intros [H|H]; [congruence|]. exact (IH p (or_introl eq_refl) H).
        -- apply IH. right. exact H.
Qed.

Lemma split_piece (c : char) (s piece : str) :
  In piece (Pages.split c s) ->
  ~ In c piece /\ exists a b, s = a ++ piece ++ b.
Proof.
  intros H. split; [exact (split_no_sep _ _ _ H)|].
  destruct (join_piece [c] _ _ H) as (a & b & E).
  rewrite join_split in E. exists a, b. exact E.
Qed.

Lemma split_forall (P : char -> bool) (c : char) (s : str) :
  Forall (fun piece => forallb P piece = true) (Pages.split c s)
  <-> forallb (fun x => P x || char_eqb x c) s = true.
Proof.
  induction s as [|x s IH]; simpl.
  - split; [reflexivity | intros _; repeat constructor].
  - destruct (char_eqb x c) eqn:E.
    + rewrite orb_true_r. cbn [andb]. rewrite <- IH. split.
      * intros H. inversion H; assumption.
      * intros H. constructor; [reflexivity | exact H].
    + rewrite orb_false_r, andb_true_iff, <- IH.
      pose proof (@split_not_nil c s) as Hn.
      destruct (Pages.split c s) as [|p r]; [congruence|]. split.
      * intros H. inversion H as [|? ? Hp Hr]; subst. simpl in Hp.
        apply andb_true_iff in Hp. destruct Hp as [Hx Hp].
        split; [exact Hx | constructor; assumption].
      * intros [Hx H]. inversion H as [|? ? Hp Hr]; subst.
        constructor; [simpl; rewrite Hx, Hp; reflexivity | exact Hr].
Qed.

(** X21: the tags read from the upload form.  Every tag is a piece of the
    input that holds no comma, is not empty and has no white space at
    either end; and there is no tag exactly when the input holds nothing
    but white space and commas.  Joining the pieces of a split with the
    separator gives the input back. *)
Theorem parse_tags_spec (tags_input : str) :
  join [Pages.comma] (Pages.split Pages.comma tags_input) = tags_input
  /\ (forall t,
        In t (Pages.parse_tags tags_input) ->
        t <> [] /\ ~ In Pages.comma t /\ strip t = t
        /\ exists a b, tags_input = a ++ t ++ b)
  /\ (Pages.parse_tags tags_input = []
      <-> forallb (fun c => isspace c || char_eqb c Pages.comma) tags_input
          = true).
Proof.
  split; [apply join_split|]. split.
  - intros t. unfold Pages.parse_tags. rewrite in_flat_map.
    intros (piece & Hin & Ht).
    assert (E : strip piece = t /\ t <> []).
    { destruct (strip piece) as [|x r]; [destruct Ht|].
      destruct Ht as [<-|[]]. split; [reflexivity | discriminate]. }
    destruct E as [<- Hne]. clear Ht.
    destruct (split_piece _ _ _ Hin) as (Hc & a & b & ->).
    destruct (strip_middle piece) as (pre & post & E & _ & _).
    split; [exact Hne|]. split.
    + intros H. apply Hc. rewrite E, !in_app_iff. auto.
    + split; [apply strip_idem|].
      exists (a ++ pre), (post ++ b). rewrite E at 1.
      rewrite <- !app_assoc. reflexivity.
  - rewrite <- split_forall. unfold Pages.parse_tags.
    induction (Pages.split Pages.comma tags_input) as [|piece l IH];
      cbn [flat_map].
    + split; [constructor | reflexivity].
    + destruct (strip piece) as [|x r] eqn:E.
      * cbn [app]. rewrite IH. apply strip_nil in E. split.
        -- intros H. constructor; assumption.
        -- intros H. inversion H; assumption.
      * split; [discriminate|]. intros H. inversion H as [|? ? Hp _]; subst.
        apply strip_nil in Hp. congruence.
Qed.

(** *** The pages of the image gallery *)

Lemma pages_concat (A : Type) (n k : nat) (l : list A) :
  (List.length l <= k * n)%nat ->
  List.concat (map (fun p => firstn n (skipn ((p - 1) * n) l)) (seq 1 k)) = l.
Proof.
  revert l; induction k as [|k IH]; intros l Hl.
  - destruct l; [reflexivity | simpl in Hl; lia].
  - cbn [seq map List.concat]. rewrite <- seq_shift, map_map.
    change (skipn ((1 - 1) * n) l) with l.
    transitivity (firstn n l ++ skipn n l); [|apply firstn_skipn].
    f_equal.
    rewrite <- (IH (skipn n l)) by (rewrite length_skipn; lia).
    f_equal. apply map_ext_in. intros p Hp. apply in_seq in Hp.
    rewrite skipn_skipn. do 2 f_equal.
    destruct p as [|p]; [lia|]. cbn [Nat.sub]. rewrite !Nat.sub_0_r.
    cbn [Nat.mul]. lia.
Qed.

(** X22: the gallery shows a non-empty list of images on pages numbered
    from one; every page holds at least one and at most
    [images_per_row * 4] images, and the pages taken in order give the
    list back, so every image is on exactly one page. *)
Theorem gallery_pages (A : Type) (images : list A) (images_per_row : nat) :
  (0 < images_per_row)%nat ->
  images <> [] ->
  List.concat (map (Pages.page_images images images_per_row)
              (Pages.page_numbers images images_per_row))
  = images
  /\ Pages.page_numbers images images_per_row
     = seq 1 (List.length (Pages.page_numbers images images_per_row))
  /\ ((List.length (Pages.page_numbers images images_per_row) - 1)
      * (images_per_row * 4) < List.length images
      <= List.length (Pages.page_numbers images images_per_row)
         * (images_per_row * 4))%nat
  /\ forall page,
       In page (Pages.page_numbers images images_per_row) ->
       (1 <= List.length (Pages.page_images images images_per_row page)
        <= images_per_row * 4)%nat.
Proof.
  intros Hr Hne. unfold Pages.page_numbers, Pages.page_images.
  destruct images as [|x l] eqn:El; [congruence|]. rewrite <- El. clear Hne.
  assert (Hlen : (1 <= List.length images)%nat) by (subst; simpl; lia).
  clear El x l.
  set (n := (images_per_row * 4)%nat).
  assert (Hn : n <> 0%nat) by (unfold n; lia).
  pose proof (Nat.Div0.mul_div_le (List.length images - 1) n) as H1.
  pose proof (Nat.mul_succ_div_gt (List.length images - 1) n Hn) as H2.
  set (q := ((List.length images - 1) / n)%nat) in *.
  replace (q + 2 - 1)%nat with (S q) by lia.
  rewrite length_seq.
  split.
  - transitivity
      (List.concat
         (map (fun p => firstn n (skipn ((p - 1) * n) images)) (seq 1 (S q))));
      [|apply pages_concat; lia].
    f_equal. apply map_ext. intros p. f_equal. lia.
  - split; [reflexivity|]. split; [lia|].
    intros page Hp. apply in_seq in Hp.
    rewrite length_firstn, length_skipn.
    replace ((page - 1) * n + n - (page - 1) * n)%nat with n by lia.
    assert ((page - 1) * n <= q * n)%nat by (apply Nat.mul_le_mono_r; lia).
    lia.
Qed.

(** *** The search page *)

Section SearchPageFacts.

Variable lower : str -> str.
Variable query_engine :
  list DocumentManager.Document -> nat -> str
  -> outcome (list DocumentManager.node).

Local Abbreviation search_center := (Pages.search_center lower query_engine).
Local Abbreviation search_all := (SearchEngine.search_all lower query_engine).

(** The category the page hands to the engine. *)
Definition page_category (search_type doc_category img_category : str)
  : option str :=
  if eqb search_type (lit "documents") && negb (eqb doc_category wildcard)
  then Some doc_category
  else if eqb search_type (lit "images") && negb (eqb img_category wildcard)
       then Some img_category
       else None.

Lemma search_center_results x q search_type doc_category img_category
    selected_tags s :
  search_center (x :: q) search_type doc_category img_category selected_tags
    s
  = (Some
       {| SearchEngine.documents :=
            SearchEngine.documents
              (fst (search_all (x :: q) search_type
                      (page_category search_type doc_category img_category)
                      s));
          SearchEngine.images :=
            match selected_tags with
            | [] =>
                SearchEngine.images
                  (fst (search_all (x :: q) search_type
                          (page_category search_type doc_category
                             img_category) s))
            | _ :: _ =>
                filter (result_has_tag lower selected_tags)
                  (SearchEngine.images
                     (fst (search_all (x :: q) search_type
                             (page_category search_type doc_category
                                img_category) s)))
            end |},
     snd (search_all (x :: q) search_type
            (page_category search_type doc_category img_category) s)).
Proof.
  unfold Pages.search_center. fold (page_category search_type doc_category
                                      img_category).
  destruct (search_all (x :: q) search_type _ s) as [results s'].
  cbn [fst snd]. do 3 f_equal.
  destruct selected_tags as [|t ts]; [reflexivity|].
  destruct (SearchEngine.images results); reflexivity.
Qed.

(** X23: the search page.  An empty query searches nothing.  Otherwise,
    in the scope of the images the page shows what the image manager
    finds for the query, the chosen image category and the selected tags,
    so filtering by tags after the search is the same as searching with
    the tags; in the scope of the documents it shows the documents of the
    chosen document category; and in the scope of both it ignores both
    chosen categories. *)
Theorem search_center_spec search_query search_type doc_category
    img_category selected_tags s :
  (search_query = [] ->
   search_center search_query search_type doc_category img_category
     selected_tags s = (None, s))
  /\ (search_query <> [] ->
      exists r,
        fst (search_center search_query search_type doc_category img_category
               selected_tags s) = Some r
        /\ (search_type = lit "images" ->
            SearchEngine.documents r = []
            /\ SearchEngine.images r
               = fst (ImageManager.search_images lower search_query
                        (Some img_category) (Some selected_tags)
                        (SearchEngine.img_manager s)))
        /\ (search_type = lit "documents" ->
            SearchEngine.images r = []
            /\ SearchEngine.documents r
               = fst (DocumentManager.search_documents query_engine
                        search_query (Some doc_category) 5
                        (SearchEngine.doc_manager s)))
        /\ (search_type = lit "all" ->
            SearchEngine.documents r
            = fst (DocumentManager.search_documents query_engine search_query
                     None 5 (SearchEngine.doc_manager s))
            /\ SearchEngine.images r
               = fst (ImageManager.search_images lower search_query None
                        (Some selected_tags) (SearchEngine.img_manager s)))).
Proof.
  split; [intros ->; reflexivity|]. intros Hq.
  destruct search_query as [|x q]; [congruence|]. clear Hq.
  rewrite search_center_results. cbn [fst]. eexists. split; [reflexivity|].
  cbn [SearchEngine.documents SearchEngine.images].
  rewrite search_all_documents, search_all_images.
  split; [|split]; intros ->.
  - change (mem (lit "images") [lit "all"; lit "documents"]) with false.
    change (mem (lit "images") [lit "all"; lit "images"]) with true.
    cbv iota. split; [destruct selected_tags; reflexivity|].
    rewrite tags_filter_after_search.
    unfold page_category.
    change (eqb (lit "images") (lit "documents")) with false.
    change (eqb (lit "images") (lit "images")) with true.
    cbn [andb]. destruct (eqb img_category wildcard) eqn:E; cbn [negb].
    + apply eqb_eq in E. subst img_category. reflexivity.
    + reflexivity.
  - change (mem (lit "documents") [lit "all"; lit "documents"]) with true.
    change (mem (lit "documents") [lit "all"; lit "images"]) with false.
    cbv iota. split; [destruct selected_tags; reflexivity|].
    unfold page_category.
    change (eqb (lit "documents") (lit "documents")) with true.
    cbn [andb]. destruct (eqb doc_category wildcard) eqn:E; cbn [negb].
    + apply eqb_eq in E. subst doc_category. reflexivity.
    + reflexivity.
  - change (mem (lit "all") [lit "all"; lit "documents"]) with true.
    change (mem (lit "all") [lit "all"; lit "images"]) with true.
    cbv iota. unfold page_category.
    change (eqb (lit "all") (lit "documents")) with false.
    change (eqb (lit "all") (lit "images")) with false.
    cbn [andb]. split; [reflexivity|].
    rewrite tags_filter_after_search. reflexivity.
Qed.

End SearchPageFacts.

(** ** Counting after an upload *)

Lemma total_images_length (s : ImageManager.state) :
  ImageManager.total_images (ImageManager.get_image_stats s)
  = List.length (ImageManager.metadata s).
Proof.
  unfold ImageManager.get_image_stats. rewrite stats_fold. reflexivity.
Qed.

Lemma length_set (V : Type) (k : str) (v : V) (d : PyDict.dict V) :
  List.length (PyDict.set k v d)
  = (List.length d + if PyDict.has_key k d then 0 else 1)%nat.
Proof.
  pose proof (keys_set k v d) as H.
  apply (f_equal (@List.length str)) in H. unfold PyDict.keys in H.
  rewrite length_map in H. rewrite H.
  destruct (PyDict.has_key k d); rewrite ?length_app, length_map; simpl; lia.
Qed.

Section UploadImageFacts.

Variable lower : str -> str.
Variable data_dir : str.
Variable pil_thumbnail : str -> MD5.bytes -> outcome MD5.bytes.
Variable pil_info : MD5.bytes -> outcome ImageManager.image_info.
Variable open_error : str -> PyDict.dict MD5.bytes -> option str.

Local Abbreviation add_image_from_upload :=
  (SearchEngine.add_image_from_upload data_dir pil_thumbnail pil_info
     open_error).
Local Abbreviation get_stats := (SearchEngine.get_stats lower data_dir).

(** X24: what an upload does to the figures of the start page.  An
    upload that returns [True] under a new file id raises the number of
    images and the total number of items by one; one that returns [True]
    under a file id that is already stored leaves both as they were; an
    upload that returns [False] (its type is not an image type, or its
    file cannot be written) changes nothing.  The document statistics are
    the same in all cases. *)
Theorem upload_image_counts u category tags now s :
  SearchEngine.stats_documents
    (get_stats (snd (add_image_from_upload u category tags now s)))
  = SearchEngine.stats_documents (get_stats s)
  /\ (fst (add_image_from_upload u category tags now s) = true
      <-> mem (ImageManager.type u) image_types = true
          /\ open_error (image_path data_dir u)
               (ImageManager.files (SearchEngine.img_manager s)) = None)
  /\ (fst (add_image_from_upload u category tags now s) = true ->
      SearchEngine.total_items
        (get_stats (snd (add_image_from_upload u category tags now s)))
      = (SearchEngine.total_items (get_stats s)
         + if PyDict.has_key (ImageManager.file_id u)
                (ImageManager.metadata (SearchEngine.img_manager s))
           then 0 else 1)%nat)
  /\ (fst (add_image_from_upload u category tags now s) = false ->
      SearchEngine.total_items
        (get_stats (snd (add_image_from_upload u category tags now s)))
      = SearchEngine.total_items (get_stats s)).
Proof.
  unfold SearchEngine.add_image_from_upload.
  pose proof (add_image_verdict data_dir pil_thumbnail pil_info open_error
                u category tags now (SearchEngine.img_manager s)) as Hv.
  pose proof (@add_image_accepted data_dir pil_thumbnail pil_info open_error
                u category tags now (SearchEngine.img_manager s)) as Ha.
  pose proof (@add_image_false data_dir pil_thumbnail pil_info open_error
                u category tags now (SearchEngine.img_manager s)) as Hf.
  destruct (ImageManager.add_image data_dir pil_thumbnail pil_info open_error
              u category tags now (SearchEngine.img_manager s))
    as [result i] eqn:E.
  cbn [fst snd] in *. split; [reflexivity|]. split; [exact Hv|].
  unfold SearchEngine.get_stats.
  cbn [SearchEngine.total_items SearchEngine.doc_manager
       SearchEngine.img_manager].
  rewrite !total_images_length. split; intros Hok.
  - specialize (Ha Hok). inversion Ha; subst i.
    rewrite save_metadata_metadata. cbn [ImageManager.metadata].
    rewrite length_set. lia.
  - destruct (Hf Hok) as (-> & _). reflexivity.
Qed.

End UploadImageFacts.

(** ** Closed instances of the further properties *)

Lemma add_image_then_search_witness :
  exists res,
    In res
       (fst (ImageManager.search_images ascii_lower [] None None
               (snd (example_add_image Examples.cat_upload (lit "pets")
                       (Some [lit "cat"]) (lit "2024-06-01T08:00:00")
                       Examples.empty_store))))
    /\ ImageManager.r_file_name res = ImageManager.file_id Examples.cat_upload
    /\ ImageManager.r_tags res = [lit "cat"].
Proof.
  assert (Hok : fst (example_add_image Examples.cat_upload (lit "pets")
                       (Some [lit "cat"]) (lit "2024-06-01T08:00:00")
                       Examples.empty_store) = true)
    by (vm_compute; reflexivity).
  pose proof (@add_image_then_search (lit "data") Examples.pil_thumbnail
                Examples.pil_info Examples.open_error ascii_lower
                Examples.cat_upload
                (lit "pets") (Some [lit "cat"]) (lit "2024-06-01T08:00:00")
                Examples.empty_store Hok) as H.
  destruct H as (res & Hin & Hn & _ & _ & Ht & _).
  exists res. split; [exact Hin|]. split; [exact Hn | exact Ht].
Defined.

Lemma add_image_degrades_witness :
  fst (example_add_image MoreExamples.empty_upload (lit "general") None
         (lit "2024-06-01T08:00:00") Examples.empty_store) = true
  /\ (exists m,
        PyDict.get (ImageManager.file_id MoreExamples.empty_upload)
          (ImageManager.metadata
             (snd (example_add_image MoreExamples.empty_upload
                     (lit "general") None (lit "2024-06-01T08:00:00")
                     Examples.empty_store))) = Some m
        /\ ImageManager.thumbnail_path m = Some (ImageManager.path m))
  /\ (exists m,
        PyDict.get (ImageManager.file_id MoreExamples.empty_upload)
          (ImageManager.metadata
             (snd (example_add_image MoreExamples.empty_upload
                     (lit "general") None (lit "2024-06-01T08:00:00")
                     Examples.empty_store))) = Some m
        /\ ImageManager.info m = None)
  /\ fst (example_add_image Examples.long_upload (lit "general") None
            (lit "2024-06-01T08:00:00") Examples.empty_store) = false.
Proof.
  pose proof (@add_image_degrades (lit "data") Examples.pil_thumbnail
                Examples.pil_info Examples.open_error
                MoreExamples.empty_upload (lit "general")
                None (lit "2024-06-01T08:00:00") Examples.empty_store) as H.
  destruct H as (Hiff & Ht & Hi).
  assert (Hok : fst (example_add_image MoreExamples.empty_upload
                       (lit "general") None (lit "2024-06-01T08:00:00")
                       Examples.empty_store) = true)
    by (apply Hiff; split; vm_compute; reflexivity).
  split; [exact Hok|]. split; [|split].
  - destruct (Ht Hok (lit "cannot identify image file") eq_refl)
      as (m & Hg & Hp & _).
    exists m. split; [exact Hg | exact Hp].
  - destruct (Hi Hok (lit "cannot identify image file") eq_refl)
      as (m & Hg & Hn & _).
    exists m. split; [exact Hg | exact Hn].
  - vm_compute. reflexivity.
Defined.

Lemma add_then_delete_witness :
  ImageManager.metadata
    (snd (example_delete_image
            (ImageManager.file_id Examples.cat_upload)
            (snd (example_add_image Examples.cat_upload (lit "pets") None
                    (lit "2024-06-01T08:00:00") Examples.store))))
  = ImageManager.metadata Examples.store
  /\ ImageManager.path_exists
       (thumbnail_path_of (lit "data") Examples.cat_upload)
       (snd (example_delete_image
               (ImageManager.file_id Examples.cat_upload)
               (snd (example_add_image Examples.cat_upload (lit "pets") None
                       (lit "2024-06-01T08:00:00") Examples.store))))
     = false.
Proof.
  assert (Hok : fst (example_add_image Examples.cat_upload (lit "pets") None
                       (lit "2024-06-01T08:00:00") Examples.store) = true)
    by (vm_compute; reflexivity).
  assert (Hfresh : PyDict.get (ImageManager.file_id Examples.cat_upload)
                     (ImageManager.metadata Examples.store) = None)
    by (vm_compute; reflexivity).
  assert (Hdel : fst (example_delete_image
                        (ImageManager.file_id Examples.cat_upload)
                        (snd (example_add_image Examples.cat_upload
                                (lit "pets") None (lit "2024-06-01T08:00:00")
                                Examples.store))) = true)
    by (vm_compute; reflexivity).
  pose proof (@add_then_delete (lit "data") Examples.pil_thumbnail
                Examples.pil_info Examples.open_error Examples.remove_error
                Examples.cat_upload (lit "pets") None
                (lit "2024-06-01T08:00:00") Examples.store Hok Hfresh Hdel)
    as H.
  destruct H as (Hm & _ & Ht).
  split; [exact Hm|]. exact (Ht _ eq_refl).
Defined.

Lemma example_store_exif_native :
  exif_native (ImageManager.metadata Examples.store).
Proof.
  intros k r i Hin Hi. simpl in Hin.
  destruct Hin as [H|[H|[H|[]]]]; inversion H; subst r; discriminate Hi.
Qed.

Lemma example_pil_info_native (b : MD5.bytes) (i : ImageManager.image_info) :
  Examples.pil_info b = Ok i -> native (PDict (ImageManager.exif i)).
Proof.
  unfold Examples.pil_info. destruct b; [discriminate|].
  intros H. inversion H. cbn. constructor; constructor.
Qed.


Lemma search_images_distinct_witness :
  NoDup (map ImageManager.r_file_name
           (fst (ImageManager.search_images ascii_lower (lit "city") None
                   None Examples.store))).
Proof.
  exact (@search_images_distinct ascii_lower (lit "city") None None
           Examples.store example_store_wf).
Defined.

Lemma add_document_success_spec_witness :
  exists d,
    DocumentManager.index
      (snd (example_add_document (lit "in/notes.txt") (lit "work")
              Examples.library)) = Some [d]
    /\ DocumentManager.file_name (DocumentManager.metadata d)
       = OsPath.basename (lit "in/notes.txt")
    /\ DocumentManager.category (DocumentManager.metadata d) = lit "work".
Proof.
  assert (Hok : fst (example_add_document (lit "in/notes.txt") (lit "work")
                       Examples.library) = true)
    by (vm_compute; reflexivity).
  pose proof (@add_document_success_spec ascii_lower (lit "data")
                Examples.decode_utf8 Examples.pdf_pages
                Examples.docx_paragraphs Examples.insert_error
                Examples.copy_error
                (lit "in/notes.txt") (lit "work") Examples.library Hok) as H.
  destruct H as (idx & b & d & Hi & _ & Hidx & _ & _ & Hn & Hc & _).
  exists d. inversion Hi; subst idx.
  split; [exact Hidx|]. split; [exact Hn | exact Hc].
Defined.


Lemma add_document_indexes_error_text_witness :
  fst (example_add_document (lit "in/paper.pdf") (lit "research")
         MoreExamples.folders) = true
  /\ exists d,
       DocumentManager.index
         (snd (example_add_document (lit "in/paper.pdf") (lit "research")
                 MoreExamples.folders)) = Some ([] ++ [d])
       /\ DocumentManager.text d
          = msg_read_error ++ lit "EOF marker not found".
Proof.
  pose proof (@add_document_indexes_error_text ascii_lower (lit "data")
                Examples.decode_utf8 Examples.pdf_pages
                Examples.docx_paragraphs Examples.insert_error
                Examples.copy_error (lit "in/paper.pdf") (lit "research")
                MoreExamples.folders [] (MD5.bytes_of_string "not a pdf")
                (lit "EOF marker not found")
                eq_refl eq_refl eq_refl eq_refl eq_refl) as H.
  destruct H as (Hiff & Hd).
  split; [|exact Hd]. apply Hiff. right. reflexivity.
Defined.

Lemma add_document_same_basename_witness :
  exists d1 d2,
    DocumentManager.index
      (snd (example_add_document (lit "b/notes.txt") (lit "work")
              (snd (example_add_document (lit "a/notes.txt") (lit "work")
                      MoreExamples.folders))))
    = Some ([] ++ [d1; d2])
    /\ DocumentManager.file_name (DocumentManager.metadata d1)
       = DocumentManager.file_name (DocumentManager.metadata d2)
    /\ PyDict.get (copy_path (lit "data") (lit "a/notes.txt"))
         (DocumentManager.files
            (snd (example_add_document (lit "b/notes.txt") (lit "work")
                    (snd (example_add_document (lit "a/notes.txt")
                            (lit "work") MoreExamples.folders)))))
       = Some (MD5.bytes_of_string "second").
Proof.
  assert (H1 : fst (example_add_document (lit "a/notes.txt") (lit "work")
                      MoreExamples.folders) = true)
    by (vm_compute; reflexivity).
  assert (H2 : fst (example_add_document (lit "b/notes.txt") (lit "work")
                      (snd (example_add_document (lit "a/notes.txt")
                              (lit "work") MoreExamples.folders))) = true)
    by (vm_compute; reflexivity).
  assert (Hb : OsPath.basename (lit "a/notes.txt")
               = OsPath.basename (lit "b/notes.txt"))
    by (vm_compute; reflexivity).
  pose proof (@add_document_same_basename ascii_lower (lit "data")
                Examples.decode_utf8 Examples.pdf_pages
                Examples.docx_paragraphs Examples.insert_error
                Examples.copy_error
                (lit "a/notes.txt") (lit "b/notes.txt") (lit "work")
                (lit "work") MoreExamples.folders Hb H1 H2) as H.
  destruct H as (idx & b2 & d1 & d2 & Hi & Hidx & Hn & _ & Hg & Hc & _).
  exists d1, d2. inversion Hi; subst idx.
  split; [exact Hidx|]. split; [exact Hn|].
  rewrite Hc. rewrite <- Hg. vm_compute. reflexivity.
Defined.

Lemma added_document_counted_witness :
  In (OsPath.basename (lit "in/notes.txt"))
     (DocumentManager.listdir (DocumentManager.documents_dir (lit "data"))
        (snd (example_add_document (lit "in/notes.txt") (lit "work")
                Examples.library)))
  /\ (1 <= DocumentManager.total_files
             (DocumentManager.get_document_stats ascii_lower (lit "data")
                (snd (example_add_document (lit "in/notes.txt") (lit "work")
                        Examples.library))))%nat.
Proof.
  assert (Hok : fst (example_add_document (lit "in/notes.txt") (lit "work")
                       Examples.library) = true)
    by (vm_compute; reflexivity).
  assert (Hne : OsPath.basename (lit "in/notes.txt") <> [])
    by (vm_compute; discriminate).
  pose proof (@added_document_counted ascii_lower (lit "data")
                Examples.decode_utf8 Examples.pdf_pages
                Examples.docx_paragraphs Examples.insert_error
                Examples.copy_error
                (lit "in/notes.txt") (lit "work") Examples.library Hok Hne)
    as H.
  destruct H as (Hl & _ & Hc). split; [exact Hl | exact Hc].
Defined.

Lemma search_all_scope_witness :
  (List.length
     (SearchEngine.documents
        (fst (SearchEngine.search_all ascii_lower Examples.query_engine
                (lit "notes") (lit "all") None MoreExamples.engine)))
   <= 5)%nat
  /\ SearchEngine.search_all ascii_lower Examples.query_engine (lit "notes")
       (lit "videos") None MoreExamples.engine
     = ({| SearchEngine.documents := []; SearchEngine.images := [] |},
        MoreExamples.engine).
Proof.
  pose proof (@search_all_scope ascii_lower Examples.query_engine
                (lit "notes") (lit "all") None MoreExamples.engine
                example_engine_top_k) as H.
  pose proof (@search_all_scope ascii_lower Examples.query_engine
                (lit "notes") (lit "videos") None MoreExamples.engine
                example_engine_top_k) as H'.
  destruct H as (Hlen & _).
  destruct H' as (_ & _ & _ & _ & _ & _ & Hnone & _).
  split; [exact Hlen|]. apply Hnone; vm_compute; discriminate.
Defined.

Local Abbreviation example_add_document_from_upload :=
  (SearchEngine.add_document_from_upload ascii_lower (lit "data")
     Examples.decode_utf8 Examples.pdf_pages Examples.docx_paragraphs
     Examples.insert_error Examples.copy_error Examples.open_error
     Examples.remove_error).


Lemma gallery_pages_witness :
  List.concat
    (map (Pages.page_images (seq 0 20) 2) (Pages.page_numbers (seq 0 20) 2))
  = seq 0 20
  /\ Pages.page_numbers (seq 0 20) 2 = [1; 2; 3]%nat.
Proof.
  assert (H0 : (0 < 2)%nat) by lia.
  assert (Hne : seq 0 20 <> []) by discriminate.
  pose proof (@gallery_pages nat (seq 0 20) 2 H0 Hne) as H.
  destruct H as (Hc & _). split; [exact Hc | reflexivity].
Defined.
